(** * one-client-view-2025tht: eligibility engine and application store

    A shallow embedding of the Go packages [models] and [handlers]:
    the eligibility evaluator ([isEligible]), the eligible-scheme query
    ([GetEligibleSchemes]), and the application repository and handlers
    ([Create], [Update], [UpdateStatus], [CreateApplication],
    [UpdateApplication]).

    Modelling conventions.
    - Go [string] values are [string] (sequences of bytes).  [strings.ToLower]
      is modelled on its ASCII path (['A'..'Z'] to ['a'..'z'], every other
      byte kept); text with non-ASCII letters is outside the model.
    - [time.Time] is a civil date and time of day; [time.Now()] is an explicit
      parameter of every function that reads the clock.  One evaluation of
      [isEligible], and one run of [GetEligibleSchemes], reads one clock
      value; [Create] takes the value read by [isEligible] and the value it
      reads itself as two parameters.
    - [sql.NullTime] and [sql.NullString] are [option]s.
    - The MySQL database behind [*sql.DB] is a record of tables, each a list
      of rows in storage order.  [ORDER BY name ASC] is a stable sort by a
      collation parameter; [WHERE id = ?] compares identifiers byte by byte.
      A query on this store always answers: driver and connection failures,
      and column constraints other than the primary key (enumerations,
      foreign keys), are not modelled.  A column keeps the value written to
      it (a [TIMESTAMP] is not rounded to the column's precision).  The
      [criteria] column holds the decoded [Criteria] value.
    - [uuid.New().String()] is an explicit parameter.  [SchemeRepository.Create]
      takes, besides the identifier and clock value it draws itself, the
      identifier and clock value that the [CreateBenefit] call for the benefit
      at each index would draw.
    - A nil pointer dereference in a handler is the outcome [Panic].
    - [int] is 64 bits wide; [strconv.Atoi] accepts an optional sign followed
      by decimal digits.
    - The [status] column is an enumeration of "pending", "approved" and
      "rejected".  The theorems that read back a status given to [Create] or
      to [UpdateStatus] assume one of these values; the theorems on [Update]
      and [UpdateApplication] state what the code writes, and what MySQL does
      with a value outside the enumeration is outside the model.
    - Left out: the writes of applicants and household members (enumerated
      and [DATE] columns, form parsing), the deletion of applicants and
      schemes (foreign-key actions of the database), the JSON encoding, the
      CORS middleware and the start of the server. *)

From Stdlib Require Import ZArith List Bool Ascii String Lia Floats.
From Stdlib Require Import Sorting.Sorted Sorting.Permutation.
From Stdlib Require Structures.OrderedTypeEx.
Import ListNotations.

Open Scope string_scope.
Open Scope Z_scope.

(* ===================================================================== *)
(** ** Package [strings] *)
(* ===================================================================== *)

Module strings.

(** One byte of [strings.ToLower]: ['A'..'Z'] gets [+ 'a' - 'A']. *)
Definition lower (c : ascii) : ascii :=
  let n := N_of_ascii c in
  if ((65 <=? n) && (n <=? 90))%N then ascii_of_N (n + 32) else c.

Fixpoint ToLower (s : string) : string :=
  match s with
  | EmptyString => EmptyString
  | String c r => String (lower c) (ToLower r)
  end.

Fixpoint HasPrefix (s prefix : string) {struct prefix} : bool :=
  match prefix, s with
  | EmptyString, _ => true
  | String _ _, EmptyString => false
  | String p ps, String c cs => Ascii.eqb c p && HasPrefix cs ps
  end.

(** [strings.Contains s substr]: [substr] occurs at some offset of [s]. *)
Fixpoint Contains (s substr : string) : bool :=
  HasPrefix s substr ||
  match s with
  | EmptyString => false
  | String _ r => Contains r substr
  end.

End strings.

(* ===================================================================== *)
(** ** Package [time] *)
(* ===================================================================== *)

Module Time.

Record t : Type := mk {
  Year : Z;
  Month : Z;
  Day : Z;
  Nanos : Z  (* nanoseconds since midnight *)
}.

(** The chronological order of two readings: [t1] is not after [t2]. *)
Definition leb (t1 t2 : t) : bool :=
  (Year t1 <? Year t2) ||
  ((Year t1 =? Year t2) &&
   ((Month t1 <? Month t2) ||
    ((Month t1 =? Month t2) &&
     ((Day t1 <? Day t2) ||
      ((Day t1 =? Day t2) && (Nanos t1 <=? Nanos t2)))))).

End Time.

(* ===================================================================== *)
(** ** Package [models]: the data model of models.go *)
(* ===================================================================== *)

Module HouseholdMember.

Record t : Type := mk {
  ID : string;
  ApplicantID : string;
  Name : string;
  EmploymentStatus : string;
  Sex : string;
  DateOfBirth : Time.t;
  Relation : string;
  CreatedAt : Time.t;
  UpdatedAt : Time.t
}.

End HouseholdMember.

Module Applicant.

Record t : Type := mk {
  ID : string;
  Name : string;
  EmploymentStatus : string;
  Sex : string;
  DateOfBirth : Time.t;
  MaritalStatus : string;
  CreatedAt : Time.t;
  UpdatedAt : Time.t;
  Household : list HouseholdMember.t
}.

End Applicant.

Module ChildCriteria.

Record t : Type := mk { SchoolLevel : string }.

End ChildCriteria.

Module Criteria.

Record t : Type := mk {
  EmploymentStatus : string;
  MaritalStatus : string;
  HasChildren : ChildCriteria.t
}.

End Criteria.

Module Benefit.

Record t : Type := mk {
  ID : string;
  SchemeID : string;
  Name : string;
  Description : string;
  Amount : float;
  CreatedAt : Time.t;
  UpdatedAt : Time.t
}.

End Benefit.

Module Scheme.

Record t : Type := mk {
  ID : string;
  Name : string;
  Description : string;
  Criteria : Criteria.t;
  CreatedAt : Time.t;
  UpdatedAt : Time.t;
  Benefits : list Benefit.t
}.

End Scheme.

Module Application.

Record t : Type := mk {
  ID : string;
  ApplicantID : string;
  SchemeID : string;
  Status : string;
  ApplicationDate : Time.t;
  DecisionDate : option Time.t;   (* sql.NullTime *)
  Notes : string;
  CreatedAt : Time.t;
  UpdatedAt : Time.t;
  Applicant : option Applicant.t; (* *Applicant, nil = None *)
  Scheme : option Scheme.t        (* *Scheme, nil = None *)
}.

End Application.

Module ApplicationRequest.

Record t : Type := mk {
  ApplicantID : string;
  SchemeID : string;
  Notes : string
}.

End ApplicationRequest.

Module ApplicationResponse.

Record t : Type := mk {
  Application : Application.t;
  Applicant : Applicant.t;
  Scheme : Scheme.t
}.

End ApplicationResponse.

(* ===================================================================== *)
(** ** The eligibility evaluator (scheme_repository.go) *)
(* ===================================================================== *)

(** The [for _, member := range applicant.Household] loop of [isEligible]:
    the value of [hasEligibleChild] when the loop ends; [true] is the
    [break]. *)
Fixpoint hasEligibleChild (now : Time.t) (SchoolLevel : string)
    (household : list HouseholdMember.t) : bool :=
  match household with
  | [] => false
  | member :: rest =>
      if strings.Contains (strings.ToLower (HouseholdMember.Relation member)) "son" ||
         strings.Contains (strings.ToLower (HouseholdMember.Relation member)) "daughter"
      then
        let age := Time.Year now - Time.Year (HouseholdMember.DateOfBirth member) in
        if (age >=? 6) && (age <=? 12) && (SchoolLevel =? "primary")%string
        then true
        else hasEligibleChild now SchoolLevel rest
      else hasEligibleChild now SchoolLevel rest
  end.

Definition isEligible (now : Time.t) (applicant : Applicant.t) (scheme : Scheme.t) : bool :=
  let criteria := Scheme.Criteria scheme in
  if negb (Criteria.EmploymentStatus criteria =? "")%string &&
     negb (strings.ToLower (Criteria.EmploymentStatus criteria) =?
           strings.ToLower (Applicant.EmploymentStatus applicant))%string
  then false
  else
  if negb (Criteria.MaritalStatus criteria =? "")%string &&
     negb (strings.ToLower (Criteria.MaritalStatus criteria) =?
           strings.ToLower (Applicant.MaritalStatus applicant))%string
  then false
  else
  if negb (ChildCriteria.SchoolLevel (Criteria.HasChildren criteria) =? "")%string
  then
    if negb (hasEligibleChild now
               (ChildCriteria.SchoolLevel (Criteria.HasChildren criteria))
               (Applicant.Household applicant))
    then false
    else true
  else true.

(* ===================================================================== *)
(** ** The database behind [*sql.DB] (schema.sql) *)
(* ===================================================================== *)

Module ApplicantRow.

Record t : Type := mk {
  id : string;
  name : string;
  employment_status : string;
  sex : string;
  date_of_birth : Time.t;
  marital_status : string;
  created_at : Time.t;
  updated_at : Time.t
}.

End ApplicantRow.

Module SchemeRow.

Record t : Type := mk {
  id : string;
  name : string;
  description : string;
  criteria : Criteria.t;   (* the JSON column, decoded *)
  created_at : Time.t;
  updated_at : Time.t
}.

End SchemeRow.

Module BenefitRow.

Record t : Type := mk {
  id : string;
  scheme_id : string;
  name : string;
  description : option string;  (* TEXT, nullable *)
  amount : option float;        (* DECIMAL(10, 2), nullable *)
  created_at : Time.t;
  updated_at : Time.t
}.

End BenefitRow.

Module ApplicationRow.

Record t : Type := mk {
  id : string;
  applicant_id : string;
  scheme_id : string;
  status : string;
  application_date : Time.t;
  decision_date : option Time.t;  (* TIMESTAMP NULL *)
  notes : option string;          (* TEXT, nullable *)
  created_at : Time.t;
  updated_at : Time.t
}.

End ApplicationRow.

Module DB.

Record t : Type := mk {
  collate : string -> string -> bool;  (* the order of [ORDER BY name] *)
  applicants : list ApplicantRow.t;
  household_members : list HouseholdMember.t;
  schemes : list SchemeRow.t;
  benefits : list BenefitRow.t;
  applications : list ApplicationRow.t
}.

Definition with_applications (db : t) (rows : list ApplicationRow.t) : t :=
  {| collate := collate db;
     applicants := applicants db;
     household_members := household_members db;
     schemes := schemes db;
     benefits := benefits db;
     applications := rows |}.

(** [ORDER BY key ASC]: a stable insertion sort of the selected rows. *)
Fixpoint insert_by {A : Type} (le : string -> string -> bool)
    (key : A -> string) (x : A) (l : list A) : list A :=
  match l with
  | [] => [x]
  | y :: l' => if le (key x) (key y) then x :: l else y :: insert_by le key x l'
  end.

Fixpoint order_by {A : Type} (le : string -> string -> bool)
    (key : A -> string) (l : list A) : list A :=
  match l with
  | [] => []
  | x :: l' => insert_by le key x (order_by le key l')
  end.

(** The driver's message for an [INSERT] whose primary key is taken. *)
Definition duplicate_entry (id : string) : string :=
  ("Error 1062 (23000): Duplicate entry '" ++ id ++
   "' for key 'applications.PRIMARY'")%string.

(** [INSERT INTO applications ...]: the new database, or the driver's error. *)
Definition insert_application (db : t) (row : ApplicationRow.t) : string + t :=
  if existsb (fun r => (ApplicationRow.id r =? ApplicationRow.id row)%string)
       (applications db)
  then inl (duplicate_entry (ApplicationRow.id row))
  else inr (with_applications db (applications db ++ [row])).

(** What [UPDATE applications SET ... WHERE id = ?] does to one row. *)
Definition update_row (set : ApplicationRow.t -> ApplicationRow.t) (id : string)
    (r : ApplicationRow.t) : ApplicationRow.t :=
  if (ApplicationRow.id r =? id)%string then set r else r.

(** [UPDATE applications SET ... WHERE id = ?]. *)
Definition update_application (db : t) (id : string)
    (set : ApplicationRow.t -> ApplicationRow.t) : t :=
  with_applications db (map (update_row set id) (applications db)).

(** [ORDER BY] a column of any type: a stable insertion sort of the
    selected rows by the order [le] of their keys. *)
Fixpoint insert_on {A K : Type} (le : K -> K -> bool) (key : A -> K)
    (x : A) (l : list A) : list A :=
  match l with
  | [] => [x]
  | y :: l' => if le (key x) (key y) then x :: l else y :: insert_on le key x l'
  end.

Fixpoint order_on {A K : Type} (le : K -> K -> bool) (key : A -> K)
    (l : list A) : list A :=
  match l with
  | [] => []
  | x :: l' => insert_on le key x (order_on le key l')
  end.

(** [ORDER BY application_date DESC]: the later date first. *)
Definition newest_first (t1 t2 : Time.t) : bool := Time.leb t2 t1.

(** [DELETE FROM applications WHERE id = ?]. *)
Definition delete_application (db : t) (id : string) : t :=
  with_applications db
    (filter (fun r => negb (ApplicationRow.id r =? id)%string) (applications db)).

Definition with_schemes (db : t) (rows : list SchemeRow.t) : t :=
  {| collate := collate db;
     applicants := applicants db;
     household_members := household_members db;
     schemes := rows;
     benefits := benefits db;
     applications := applications db |}.

Definition with_benefits (db : t) (rows : list BenefitRow.t) : t :=
  {| collate := collate db;
     applicants := applicants db;
     household_members := household_members db;
     schemes := schemes db;
     benefits := rows;
     applications := applications db |}.

(** The driver's message for an [INSERT] into [table] whose primary key is
    taken. *)
Definition duplicate_key (table id : string) : string :=
  ("Error 1062 (23000): Duplicate entry '" ++ id ++
   "' for key '" ++ table ++ ".PRIMARY'")%string.

(** [INSERT INTO schemes ...]: the new database, or the driver's error. *)
Definition insert_scheme (db : t) (row : SchemeRow.t) : string + t :=
  if existsb (fun r => (SchemeRow.id r =? SchemeRow.id row)%string) (schemes db)
  then inl (duplicate_key "schemes" (SchemeRow.id row))
  else inr (with_schemes db (schemes db ++ [row])).

(** [INSERT INTO benefits ...]: the new database, or the driver's error. *)
Definition insert_benefit (db : t) (row : BenefitRow.t) : string + t :=
  if existsb (fun r => (BenefitRow.id r =? BenefitRow.id row)%string) (benefits db)
  then inl (duplicate_key "benefits" (BenefitRow.id row))
  else inr (with_benefits db (benefits db ++ [row])).

(** [UPDATE schemes SET ... WHERE id = ?]. *)
Definition update_scheme (db : t) (id : string)
    (set : SchemeRow.t -> SchemeRow.t) : t :=
  with_schemes db
    (map (fun r => if (SchemeRow.id r =? id)%string then set r else r) (schemes db)).

Definition with_household_members (db : t) (rows : list HouseholdMember.t) : t :=
  {| collate := collate db;
     applicants := applicants db;
     household_members := rows;
     schemes := schemes db;
     benefits := benefits db;
     applications := applications db |}.

End DB.

(** The zero value of [time.Time]: January 1, year 1, 00:00:00 UTC. *)
Definition zeroTime : Time.t := Time.mk 1 1 1 0.

(* ===================================================================== *)
(** ** applicant_repository.go *)
(* ===================================================================== *)

Module ApplicantRepository.

Definition GetHouseholdMembers (db : DB.t) (applicantID : string)
    : list HouseholdMember.t :=
  DB.order_by (DB.collate db) HouseholdMember.Name
    (filter (fun m => (HouseholdMember.ApplicantID m =? applicantID)%string)
       (DB.household_members db)).

(** [nil, nil] (no row) is [None]. *)
Definition GetByID (db : DB.t) (id : string) : option Applicant.t :=
  match find (fun r => (ApplicantRow.id r =? id)%string) (DB.applicants db) with
  | None => None
  | Some r =>
      Some {| Applicant.ID := ApplicantRow.id r;
              Applicant.Name := ApplicantRow.name r;
              Applicant.EmploymentStatus := ApplicantRow.employment_status r;
              Applicant.Sex := ApplicantRow.sex r;
              Applicant.DateOfBirth := ApplicantRow.date_of_birth r;
              Applicant.MaritalStatus := ApplicantRow.marital_status r;
              Applicant.CreatedAt := ApplicantRow.created_at r;
              Applicant.UpdatedAt := ApplicantRow.updated_at r;
              Applicant.Household := GetHouseholdMembers db (ApplicantRow.id r) |}
  end.

(** [DeleteHouseholdMember(id)]: the returned error ([None] is [nil]) and
    the database on return. *)
Definition DeleteHouseholdMember (db : DB.t) (id : string) : option string * DB.t :=
  (None,
   DB.with_household_members db
     (filter (fun m => negb (HouseholdMember.ID m =? id)%string)
        (DB.household_members db))).

(** A selected applicant row scanned into an [Applicant], with its
    household loaded. *)
Definition scanApplicant (db : DB.t) (r : ApplicantRow.t) : Applicant.t :=
  {| Applicant.ID := ApplicantRow.id r;
     Applicant.Name := ApplicantRow.name r;
     Applicant.EmploymentStatus := ApplicantRow.employment_status r;
     Applicant.Sex := ApplicantRow.sex r;
     Applicant.DateOfBirth := ApplicantRow.date_of_birth r;
     Applicant.MaritalStatus := ApplicantRow.marital_status r;
     Applicant.CreatedAt := ApplicantRow.created_at r;
     Applicant.UpdatedAt := ApplicantRow.updated_at r;
     Applicant.Household := GetHouseholdMembers db (ApplicantRow.id r) |}.

Definition GetAll (db : DB.t) : list Applicant.t :=
  map (scanApplicant db)
    (DB.order_by (DB.collate db) ApplicantRow.name (DB.applicants db)).

End ApplicantRepository.

(* ===================================================================== *)
(** ** scheme_repository.go *)
(* ===================================================================== *)

Module SchemeRepository.

Definition scanBenefit (r : BenefitRow.t) : Benefit.t :=
  {| Benefit.ID := BenefitRow.id r;
     Benefit.SchemeID := BenefitRow.scheme_id r;
     Benefit.Name := BenefitRow.name r;
     Benefit.Description :=
       match BenefitRow.description r with Some d => d | None => "" end;
     Benefit.Amount :=
       match BenefitRow.amount r with Some x => x | None => 0%float end;
     Benefit.CreatedAt := BenefitRow.created_at r;
     Benefit.UpdatedAt := BenefitRow.updated_at r |}.

Definition GetBenefits (db : DB.t) (schemeID : string) : list Benefit.t :=
  map scanBenefit
    (DB.order_by (DB.collate db) BenefitRow.name
       (filter (fun r => (BenefitRow.scheme_id r =? schemeID)%string)
          (DB.benefits db))).

Definition scanScheme (db : DB.t) (r : SchemeRow.t) : Scheme.t :=
  {| Scheme.ID := SchemeRow.id r;
     Scheme.Name := SchemeRow.name r;
     Scheme.Description := SchemeRow.description r;
     Scheme.Criteria := SchemeRow.criteria r;
     Scheme.CreatedAt := SchemeRow.created_at r;
     Scheme.UpdatedAt := SchemeRow.updated_at r;
     Scheme.Benefits := GetBenefits db (SchemeRow.id r) |}.

Definition GetAll (db : DB.t) : list Scheme.t :=
  map (scanScheme db) (DB.order_by (DB.collate db) SchemeRow.name (DB.schemes db)).

Definition GetByID (db : DB.t) (id : string) : option Scheme.t :=
  match find (fun r => (SchemeRow.id r =? id)%string) (DB.schemes db) with
  | None => None
  | Some r => Some (scanScheme db r)
  end.

(** The [for _, scheme := range schemes] loop of [GetEligibleSchemes],
    started with the slice [eligibleSchemes] built so far. *)
Fixpoint appendEligible (now : Time.t) (applicant : Applicant.t)
    (schemes eligibleSchemes : list Scheme.t) : list Scheme.t :=
  match schemes with
  | [] => eligibleSchemes
  | scheme :: rest =>
      if isEligible now applicant scheme
      then appendEligible now applicant rest (eligibleSchemes ++ [scheme])
      else appendEligible now applicant rest eligibleSchemes
  end.

(** [inl] is the returned error, [inr] the returned slice. *)
Definition GetEligibleSchemes (now : Time.t) (db : DB.t) (applicantID : string)
    : string + list Scheme.t :=
  match ApplicantRepository.GetByID db applicantID with
  | None => inl ("applicant not found: " ++ applicantID)%string
  | Some applicant => inr (appendEligible now applicant (GetAll db) [])
  end.

(** The [SET name = ?, description = ?, criteria = ?, updated_at = ?] of
    [Update]. *)
Definition setScheme (s : Scheme.t) (r : SchemeRow.t) : SchemeRow.t :=
  {| SchemeRow.id := SchemeRow.id r;
     SchemeRow.name := Scheme.Name s;
     SchemeRow.description := Scheme.Description s;
     SchemeRow.criteria := Scheme.Criteria s;
     SchemeRow.created_at := SchemeRow.created_at r;
     SchemeRow.updated_at := Scheme.UpdatedAt s |}.

Definition touchScheme (now : Time.t) (s : Scheme.t) : Scheme.t :=
  {| Scheme.ID := Scheme.ID s;
     Scheme.Name := Scheme.Name s;
     Scheme.Description := Scheme.Description s;
     Scheme.Criteria := Scheme.Criteria s;
     Scheme.CreatedAt := Scheme.CreatedAt s;
     Scheme.UpdatedAt := now;
     Scheme.Benefits := Scheme.Benefits s |}.

(** [Update(s)]: the returned error ([None] is [nil]), the value of [*s] on
    return, and the database on return. *)
Definition Update (now : Time.t) (db : DB.t) (s : Scheme.t)
    : option string * Scheme.t * DB.t :=
  let s' := touchScheme now s in
  (None, s', DB.update_scheme db (Scheme.ID s') (setScheme s')).

(** The row written by the [INSERT] of [CreateBenefit]. *)
Definition insertedBenefit (b : Benefit.t) : BenefitRow.t :=
  {| BenefitRow.id := Benefit.ID b;
     BenefitRow.scheme_id := Benefit.SchemeID b;
     BenefitRow.name := Benefit.Name b;
     BenefitRow.description := Some (Benefit.Description b);
     BenefitRow.amount := Some (Benefit.Amount b);
     BenefitRow.created_at := Benefit.CreatedAt b;
     BenefitRow.updated_at := Benefit.UpdatedAt b |}.

(** [CreateBenefit(b)]: the returned error, the value of [*b] on return,
    and the database on return. *)
Definition CreateBenefit (uuid : string) (now : Time.t) (db : DB.t) (b : Benefit.t)
    : option string * Benefit.t * DB.t :=
  let b' :=
    {| Benefit.ID := if (Benefit.ID b =? "")%string then uuid else Benefit.ID b;
       Benefit.SchemeID := Benefit.SchemeID b;
       Benefit.Name := Benefit.Name b;
       Benefit.Description := Benefit.Description b;
       Benefit.Amount := Benefit.Amount b;
       Benefit.CreatedAt := now;
       Benefit.UpdatedAt := now |} in
  match DB.insert_benefit db (insertedBenefit b') with
  | inl err => (Some ("error creating benefit: " ++ err)%string, b', db)
  | inr db' => (None, b', db')
  end.

Definition withSchemeID (schemeID : string) (b : Benefit.t) : Benefit.t :=
  {| Benefit.ID := Benefit.ID b;
     Benefit.SchemeID := schemeID;
     Benefit.Name := Benefit.Name b;
     Benefit.Description := Benefit.Description b;
     Benefit.Amount := Benefit.Amount b;
     Benefit.CreatedAt := Benefit.CreatedAt b;
     Benefit.UpdatedAt := Benefit.UpdatedAt b |}.

(** The [for i := range s.Benefits] loop of [Create], from index [i] on:
    the returned error, the benefits from [i] on as the loop leaves them,
    and the database.  [uuidAt i] and [nowAt i] are what [uuid.New()] and
    [time.Now()] give in the call for benefit [i]. *)
Fixpoint createBenefits (uuidAt : nat -> string) (nowAt : nat -> Time.t)
    (schemeID : string) (i : nat) (db : DB.t) (benefits : list Benefit.t)
    : option string * list Benefit.t * DB.t :=
  match benefits with
  | [] => (None, [], db)
  | b :: rest =>
      match CreateBenefit (uuidAt i) (nowAt i) db (withSchemeID schemeID b) with
      | (Some err, b', db') =>
          (Some ("error creating benefit: " ++ err)%string, b' :: rest, db')
      | (None, b', db') =>
          match createBenefits uuidAt nowAt schemeID (S i) db' rest with
          | (err, rest', db'') => (err, b' :: rest', db'')
          end
      end
  end.

(** The row written by the [INSERT] of [Create]. *)
Definition insertedScheme (s : Scheme.t) : SchemeRow.t :=
  {| SchemeRow.id := Scheme.ID s;
     SchemeRow.name := Scheme.Name s;
     SchemeRow.description := Scheme.Description s;
     SchemeRow.criteria := Scheme.Criteria s;
     SchemeRow.created_at := Scheme.CreatedAt s;
     SchemeRow.updated_at := Scheme.UpdatedAt s |}.

Definition withBenefits (s : Scheme.t) (benefits : list Benefit.t) : Scheme.t :=
  {| Scheme.ID := Scheme.ID s;
     Scheme.Name := Scheme.Name s;
     Scheme.Description := Scheme.Description s;
     Scheme.Criteria := Scheme.Criteria s;
     Scheme.CreatedAt := Scheme.CreatedAt s;
     Scheme.UpdatedAt := Scheme.UpdatedAt s;
     Scheme.Benefits := benefits |}.

(** [Create(s)]: the returned error, the value of [*s] on return, and the
    database on return.  [uuid] and [now] are what [uuid.New()] and
    [time.Now()] give in [Create] itself. *)
Definition Create (uuid : string) (now : Time.t) (uuidAt : nat -> string)
    (nowAt : nat -> Time.t) (db : DB.t) (s : Scheme.t)
    : option string * Scheme.t * DB.t :=
  let s' :=
    {| Scheme.ID := if (Scheme.ID s =? "")%string then uuid else Scheme.ID s;
       Scheme.Name := Scheme.Name s;
       Scheme.Description := Scheme.Description s;
       Scheme.Criteria := Scheme.Criteria s;
       Scheme.CreatedAt := now;
       Scheme.UpdatedAt := now;
       Scheme.Benefits := Scheme.Benefits s |} in
  match DB.insert_scheme db (insertedScheme s') with
  | inl err => (Some ("error creating scheme: " ++ err)%string, s', db)
  | inr db' =>
      match createBenefits uuidAt nowAt (Scheme.ID s') 0 db' (Scheme.Benefits s') with
      | (err, benefits, db'') => (err, withBenefits s' benefits, db'')
      end
  end.

End SchemeRepository.

(* ===================================================================== *)
(** ** application_repository.go *)
(* ===================================================================== *)

Module ApplicationRepository.

(** A selected row scanned into an [Application], with the applicant and
    the scheme it refers to loaded. *)
Definition scanApplication (db : DB.t) (r : ApplicationRow.t) : Application.t :=
  {| Application.ID := ApplicationRow.id r;
     Application.ApplicantID := ApplicationRow.applicant_id r;
     Application.SchemeID := ApplicationRow.scheme_id r;
     Application.Status := ApplicationRow.status r;
     Application.ApplicationDate := ApplicationRow.application_date r;
     Application.DecisionDate := ApplicationRow.decision_date r;
     Application.Notes :=
       match ApplicationRow.notes r with Some n => n | None => "" end;
     Application.CreatedAt := ApplicationRow.created_at r;
     Application.UpdatedAt := ApplicationRow.updated_at r;
     Application.Applicant :=
       ApplicantRepository.GetByID db (ApplicationRow.applicant_id r);
     Application.Scheme :=
       SchemeRepository.GetByID db (ApplicationRow.scheme_id r) |}.

Definition GetByID (db : DB.t) (id : string) : option Application.t :=
  match find (fun r => (ApplicationRow.id r =? id)%string) (DB.applications db) with
  | None => None
  | Some r => Some (scanApplication db r)
  end.

(** The row written by the [INSERT] of [Create]: [decision_date] is not
    among the inserted columns and takes its default, [NULL]. *)
Definition insertedRow (a : Application.t) : ApplicationRow.t :=
  {| ApplicationRow.id := Application.ID a;
     ApplicationRow.applicant_id := Application.ApplicantID a;
     ApplicationRow.scheme_id := Application.SchemeID a;
     ApplicationRow.status := Application.Status a;
     ApplicationRow.application_date := Application.ApplicationDate a;
     ApplicationRow.decision_date := None;
     ApplicationRow.notes := Some (Application.Notes a);
     ApplicationRow.created_at := Application.CreatedAt a;
     ApplicationRow.updated_at := Application.UpdatedAt a |}.

(** [Create(a)]: the returned error ([None] is [nil]), the value of [*a]
    on return, and the database on return.  [uuid] is what [uuid.New()]
    gives, [today] the clock read by [isEligible], [now] the clock read by
    [Create] itself. *)
Definition Create (uuid : string) (today now : Time.t) (db : DB.t)
    (a : Application.t) : option string * Application.t * DB.t :=
  match ApplicantRepository.GetByID db (Application.ApplicantID a) with
  | None =>
      (Some ("applicant not found: " ++ Application.ApplicantID a)%string, a, db)
  | Some applicant =>
      match SchemeRepository.GetByID db (Application.SchemeID a) with
      | None =>
          (Some ("scheme not found: " ++ Application.SchemeID a)%string, a, db)
      | Some scheme =>
          if negb (isEligible today applicant scheme)
          then (Some "applicant is not eligible for this scheme", a, db)
          else
            let a' :=
              {| Application.ID :=
                   if (Application.ID a =? "")%string then uuid else Application.ID a;
                 Application.ApplicantID := Application.ApplicantID a;
                 Application.SchemeID := Application.SchemeID a;
                 Application.Status :=
                   if (Application.Status a =? "")%string
                   then "pending" else Application.Status a;
                 Application.ApplicationDate := now;
                 Application.DecisionDate := Application.DecisionDate a;
                 Application.Notes := Application.Notes a;
                 Application.CreatedAt := now;
                 Application.UpdatedAt := now;
                 Application.Applicant := Application.Applicant a;
                 Application.Scheme := Application.Scheme a |} in
            match DB.insert_application db (insertedRow a') with
            | inl err => (Some ("error creating application: " ++ err)%string, a', db)
            | inr db' => (None, a', db')
            end
      end
  end.

Definition touch (now : Time.t) (a : Application.t) : Application.t :=
  {| Application.ID := Application.ID a;
     Application.ApplicantID := Application.ApplicantID a;
     Application.SchemeID := Application.SchemeID a;
     Application.Status := Application.Status a;
     Application.ApplicationDate := Application.ApplicationDate a;
     Application.DecisionDate := Application.DecisionDate a;
     Application.Notes := Application.Notes a;
     Application.CreatedAt := Application.CreatedAt a;
     Application.UpdatedAt := now;
     Application.Applicant := Application.Applicant a;
     Application.Scheme := Application.Scheme a |}.

(** The [SET status = ?, decision_date = ?, notes = ?, updated_at = ?]
    of [Update]. *)
Definition setUpdate (status : string) (decisionDate : option Time.t)
    (notes : string) (updatedAt : Time.t) (r : ApplicationRow.t) : ApplicationRow.t :=
  {| ApplicationRow.id := ApplicationRow.id r;
     ApplicationRow.applicant_id := ApplicationRow.applicant_id r;
     ApplicationRow.scheme_id := ApplicationRow.scheme_id r;
     ApplicationRow.status := status;
     ApplicationRow.application_date := ApplicationRow.application_date r;
     ApplicationRow.decision_date := decisionDate;
     ApplicationRow.notes := Some notes;
     ApplicationRow.created_at := ApplicationRow.created_at r;
     ApplicationRow.updated_at := updatedAt |}.

Definition Update (now : Time.t) (db : DB.t) (a : Application.t)
    : option string * Application.t * DB.t :=
  let a' := touch now a in
  let decisionDate :=
    match Application.DecisionDate a' with
    | Some t => Some t   (* a.DecisionDate.Valid *)
    | None => None
    end in
  (None, a',
   DB.update_application db (Application.ID a')
     (setUpdate (Application.Status a') decisionDate (Application.Notes a')
        (Application.UpdatedAt a'))).

(** The [SET status = ?, decision_date = ?, updated_at = ?] of
    [UpdateStatus]. *)
Definition setStatus (status : string) (decisionDate : option Time.t)
    (updatedAt : Time.t) (r : ApplicationRow.t) : ApplicationRow.t :=
  {| ApplicationRow.id := ApplicationRow.id r;
     ApplicationRow.applicant_id := ApplicationRow.applicant_id r;
     ApplicationRow.scheme_id := ApplicationRow.scheme_id r;
     ApplicationRow.status := status;
     ApplicationRow.application_date := ApplicationRow.application_date r;
     ApplicationRow.decision_date := decisionDate;
     ApplicationRow.notes := ApplicationRow.notes r;
     ApplicationRow.created_at := ApplicationRow.created_at r;
     ApplicationRow.updated_at := updatedAt |}.

Definition UpdateStatus (now : Time.t) (db : DB.t) (id status : string)
    : option string * DB.t :=
  let decisionDate :=
    if (status =? "approved")%string || (status =? "rejected")%string
    then Some now
    else None in
  (None, DB.update_application db id (setStatus status decisionDate now)).

Definition GetAll (db : DB.t) : list Application.t :=
  map (scanApplication db)
    (DB.order_on DB.newest_first ApplicationRow.application_date (DB.applications db)).

(** A row scanned by [GetByApplicantID]: the scheme is loaded, the
    applicant is not ([a.Applicant] stays nil). *)
Definition scanApplicationOfApplicant (db : DB.t) (r : ApplicationRow.t)
    : Application.t :=
  {| Application.ID := ApplicationRow.id r;
     Application.ApplicantID := ApplicationRow.applicant_id r;
     Application.SchemeID := ApplicationRow.scheme_id r;
     Application.Status := ApplicationRow.status r;
     Application.ApplicationDate := ApplicationRow.application_date r;
     Application.DecisionDate := ApplicationRow.decision_date r;
     Application.Notes :=
       match ApplicationRow.notes r with Some n => n | None => "" end;
     Application.CreatedAt := ApplicationRow.created_at r;
     Application.UpdatedAt := ApplicationRow.updated_at r;
     Application.Applicant := None;
     Application.Scheme :=
       SchemeRepository.GetByID db (ApplicationRow.scheme_id r) |}.

Definition GetByApplicantID (db : DB.t) (applicantID : string) : list Application.t :=
  map (scanApplicationOfApplicant db)
    (DB.order_on DB.newest_first ApplicationRow.application_date
       (filter (fun r => (ApplicationRow.applicant_id r =? applicantID)%string)
          (DB.applications db))).

(** [Delete(id)]: the returned error ([None] is [nil]) and the database on
    return. *)
Definition Delete (db : DB.t) (id : string) : option string * DB.t :=
  (None, DB.delete_application db id).

End ApplicationRepository.

(* ===================================================================== *)
(** ** application_handler.go *)
(* ===================================================================== *)

Module UpdateRequest.

(** The anonymous request struct of [UpdateApplication]. *)
Record t : Type := mk {
  Status : string;
  Notes : string
}.

End UpdateRequest.

Module ApplicationHandler.

(** What a handler leaves on the [http.ResponseWriter]. *)
Inductive Response : Type :=
| Error (code : Z) (msg : string)               (* http.Error *)
| JSON (code : Z) (body : ApplicationResponse.t)
| Panic.                                         (* nil pointer dereference *)

Definition StatusOK : Z := 200.
Definition StatusCreated : Z := 201.
Definition StatusBadRequest : Z := 400.
Definition StatusNotFound : Z := 404.
Definition StatusInternalServerError : Z := 500.

(** Composition of the [models.ApplicationResponse] from a re-read
    application; dereferencing a nil [app], [app.Applicant] or
    [app.Scheme] panics. *)
Definition respond (code : Z) (app : option Application.t) : Response :=
  match app with
  | None => Panic
  | Some a =>
      match Application.Applicant a, Application.Scheme a with
      | Some applicant, Some scheme =>
          JSON code {| ApplicationResponse.Application := a;
                       ApplicationResponse.Applicant := applicant;
                       ApplicationResponse.Scheme := scheme |}
      | _, _ => Panic
      end
  end.

(** [body] is the decoded request, or the decoder's error. *)
Definition CreateApplication (uuid : string) (today now : Time.t) (db : DB.t)
    (body : string + ApplicationRequest.t) : Response * DB.t :=
  match body with
  | inl err => (Error StatusBadRequest ("Invalid request body: " ++ err)%string, db)
  | inr request =>
      if (ApplicationRequest.ApplicantID request =? "")%string
      then (Error StatusBadRequest "Applicant ID is required", db)
      else if (ApplicationRequest.SchemeID request =? "")%string
      then (Error StatusBadRequest "Scheme ID is required", db)
      else
        match ApplicantRepository.GetByID db (ApplicationRequest.ApplicantID request) with
        | None => (Error StatusNotFound "Applicant not found", db)
        | Some _ =>
            match SchemeRepository.GetByID db (ApplicationRequest.SchemeID request) with
            | None => (Error StatusNotFound "Scheme not found", db)
            | Some _ =>
                let application :=
                  {| Application.ID := "";
                     Application.ApplicantID := ApplicationRequest.ApplicantID request;
                     Application.SchemeID := ApplicationRequest.SchemeID request;
                     Application.Status := "pending";
                     Application.ApplicationDate := zeroTime;
                     Application.DecisionDate := None;
                     Application.Notes := ApplicationRequest.Notes request;
                     Application.CreatedAt := zeroTime;
                     Application.UpdatedAt := zeroTime;
                     Application.Applicant := None;
                     Application.Scheme := None |} in
                match ApplicationRepository.Create uuid today now db application with
                | (Some err, _, db') =>
                    (Error StatusInternalServerError
                       ("Failed to create application: " ++ err)%string, db')
                | (None, application', db') =>
                    (respond StatusCreated
                       (ApplicationRepository.GetByID db' (Application.ID application')),
                     db')
                end
            end
        end
  end.

Definition UpdateApplication (now : Time.t) (db : DB.t) (id : string)
    (body : string + UpdateRequest.t) : Response * DB.t :=
  match ApplicationRepository.GetByID db id with
  | None => (Error StatusNotFound "Application not found", db)
  | Some existing =>
      match body with
      | inl err => (Error StatusBadRequest ("Invalid request body: " ++ err)%string, db)
      | inr request =>
          let existing1 :=
            {| Application.ID := Application.ID existing;
               Application.ApplicantID := Application.ApplicantID existing;
               Application.SchemeID := Application.SchemeID existing;
               Application.Status :=
                 if negb (UpdateRequest.Status request =? "")%string
                 then UpdateRequest.Status request
                 else Application.Status existing;
               Application.ApplicationDate := Application.ApplicationDate existing;
               Application.DecisionDate := Application.DecisionDate existing;
               Application.Notes :=
                 if negb (UpdateRequest.Notes request =? "")%string
                 then UpdateRequest.Notes request
                 else Application.Notes existing;
               Application.CreatedAt := Application.CreatedAt existing;
               Application.UpdatedAt := Application.UpdatedAt existing;
               Application.Applicant := Application.Applicant existing;
               Application.Scheme := Application.Scheme existing |} in
          match ApplicationRepository.Update now db existing1 with
          | (Some err, _, db') =>
              (Error StatusInternalServerError
                 ("Failed to update application: " ++ err)%string, db')
          | (None, existing2, db') =>
              (respond StatusOK
                 (ApplicationRepository.GetByID db' (Application.ID existing2)),
               db')
          end
      end
  end.

(** The [for _, a := range applications] loop of [GetApplications], started
    with the slice [response] built so far; an application whose applicant
    or scheme is nil is skipped. *)
Fixpoint appendResponses (applications : list Application.t)
    (response : list ApplicationResponse.t) : list ApplicationResponse.t :=
  match applications with
  | [] => response
  | a :: rest =>
      match Application.Applicant a, Application.Scheme a with
      | Some applicant, Some scheme =>
          appendResponses rest
            (response ++ [ {| ApplicationResponse.Application := a;
                              ApplicationResponse.Applicant := applicant;
                              ApplicationResponse.Scheme := scheme |} ])
      | _, _ => appendResponses rest response
      end
  end.

(** The body [GetApplications] encodes, with status 200. *)
Definition GetApplications (db : DB.t) : list ApplicationResponse.t :=
  appendResponses (ApplicationRepository.GetAll db) [].

Definition GetApplication (db : DB.t) (id : string) : Response :=
  match ApplicationRepository.GetByID db id with
  | None => Error StatusNotFound "Application not found"
  | Some application =>
      match Application.Applicant application, Application.Scheme application with
      | Some applicant, Some scheme =>
          JSON StatusOK {| ApplicationResponse.Application := application;
                           ApplicationResponse.Applicant := applicant;
                           ApplicationResponse.Scheme := scheme |}
      | _, _ => Error StatusInternalServerError "Invalid application data"
      end
  end.

(** What [DeleteApplication] leaves on the [http.ResponseWriter]. *)
Inductive DeleteResponse : Type :=
| DeleteError (code : Z) (msg : string)  (* http.Error *)
| NoContent.                              (* w.WriteHeader(204) *)

Definition DeleteApplication (db : DB.t) (id : string) : DeleteResponse * DB.t :=
  match ApplicationRepository.GetByID db id with
  | None => (DeleteError StatusNotFound "Application not found", db)
  | Some _ =>
      match ApplicationRepository.Delete db id with
      | (Some err, db') =>
          (DeleteError StatusInternalServerError
             ("Failed to delete application: " ++ err)%string, db')
      | (None, db') => (NoContent, db')
      end
  end.

End ApplicationHandler.

(* ===================================================================== *)
(** ** scheme_handler.go *)
(* ===================================================================== *)

Module SchemeResponse.

Record t : Type := mk {
  Scheme : Scheme.t;
  Benefits : list Benefit.t
}.

End SchemeResponse.

Module EligibleSchemesResponse.

Record t : Type := mk {
  ApplicantID : string;
  Schemes : list SchemeResponse.t
}.

End EligibleSchemesResponse.

Module SchemeHandler.

(** What a handler leaves on the [http.ResponseWriter]. *)
Inductive Response (Body : Type) : Type :=
| Error (code : Z) (msg : string)   (* http.Error *)
| JSON (code : Z) (body : Body).

Arguments Error {Body} code msg.
Arguments JSON {Body} code body.

(** The [for _, s := range schemes] loop of the handlers, started with the
    slice [response] built so far. *)
Fixpoint appendSchemeResponses (schemes : list Scheme.t)
    (response : list SchemeResponse.t) : list SchemeResponse.t :=
  match schemes with
  | [] => response
  | s :: rest =>
      appendSchemeResponses rest
        (response ++ [ {| SchemeResponse.Scheme := s;
                          SchemeResponse.Benefits := Scheme.Benefits s |} ])
  end.

(** The body [GetSchemes] encodes, with status 200. *)
Definition GetSchemes (db : DB.t) : list SchemeResponse.t :=
  appendSchemeResponses (SchemeRepository.GetAll db) [].

Definition GetScheme (db : DB.t) (id : string) : Response SchemeResponse.t :=
  match SchemeRepository.GetByID db id with
  | None => Error 404 "Scheme not found"
  | Some scheme =>
      JSON 200 {| SchemeResponse.Scheme := scheme;
                  SchemeResponse.Benefits := Scheme.Benefits scheme |}
  end.

(** [applicantID] is the [applicant] query parameter, empty when absent. *)
Definition GetEligibleSchemes (now : Time.t) (db : DB.t) (applicantID : string)
    : Response EligibleSchemesResponse.t :=
  if (applicantID =? "")%string
  then Error 400 "Applicant ID is required"
  else
    match ApplicantRepository.GetByID db applicantID with
    | None => Error 404 "Applicant not found"
    | Some _ =>
        match SchemeRepository.GetEligibleSchemes now db applicantID with
        | inl err => Error 500 ("Failed to get eligible schemes: " ++ err)%string
        | inr schemes =>
            JSON 200 {| EligibleSchemesResponse.ApplicantID := applicantID;
                        EligibleSchemesResponse.Schemes :=
                          appendSchemeResponses schemes [] |}
        end
    end.

(** [body] is the decoded scheme, or the decoder's error. *)
Definition CreateScheme (uuid : string) (now : Time.t) (uuidAt : nat -> string)
    (nowAt : nat -> Time.t) (db : DB.t) (body : string + Scheme.t)
    : Response SchemeResponse.t * DB.t :=
  match body with
  | inl err => (Error 400 ("Invalid request body: " ++ err)%string, db)
  | inr scheme =>
      if (Scheme.Name scheme =? "")%string
      then (Error 400 "Name is required", db)
      else if (Scheme.Description scheme =? "")%string
      then (Error 400 "Description is required", db)
      else
        match SchemeRepository.Create uuid now uuidAt nowAt db scheme with
        | (Some err, _, db') =>
            (Error 500 ("Failed to create scheme: " ++ err)%string, db')
        | (None, scheme', db') =>
            (JSON 201 {| SchemeResponse.Scheme := scheme';
                         SchemeResponse.Benefits := Scheme.Benefits scheme' |}, db')
        end
  end.

Definition UpdateScheme (now : Time.t) (db : DB.t) (id : string)
    (body : string + Scheme.t) : Response SchemeResponse.t * DB.t :=
  match SchemeRepository.GetByID db id with
  | None => (Error 404 "Scheme not found", db)
  | Some existing =>
      match body with
      | inl err => (Error 400 ("Invalid request body: " ++ err)%string, db)
      | inr decoded =>
          if (Scheme.Name decoded =? "")%string
          then (Error 400 "Name is required", db)
          else if (Scheme.Description decoded =? "")%string
          then (Error 400 "Description is required", db)
          else
            let scheme :=
              {| Scheme.ID := id;
                 Scheme.Name := Scheme.Name decoded;
                 Scheme.Description := Scheme.Description decoded;
                 Scheme.Criteria := Scheme.Criteria decoded;
                 Scheme.CreatedAt := Scheme.CreatedAt decoded;
                 Scheme.UpdatedAt := Scheme.UpdatedAt decoded;
                 Scheme.Benefits := Scheme.Benefits existing |} in
            match SchemeRepository.Update now db scheme with
            | (Some err, _, db') =>
                (Error 500 ("Failed to update scheme: " ++ err)%string, db')
            | (None, scheme', db') =>
                (JSON 200 {| SchemeResponse.Scheme := scheme';
                             SchemeResponse.Benefits := Scheme.Benefits scheme' |}, db')
            end
      end
  end.

End SchemeHandler.

(* ===================================================================== *)
(** ** main.go: reading the configuration *)
(* ===================================================================== *)

Module strconv.

Definition isDigit (c : ascii) : bool :=
  let n := N_of_ascii c in ((48 <=? n) && (n <=? 57))%N.

Definition digit (c : ascii) : Z := Z.of_N (N_of_ascii c) - 48.

(** The decimal digits of [s] read onto [acc]; [None] at the first byte
    that is not a digit. *)
Fixpoint digits (acc : Z) (s : string) : option Z :=
  match s with
  | EmptyString => Some acc
  | String c r => if isDigit c then digits (10 * acc + digit c) r else None
  end.

(** The bounds of [int], 64 bits wide. *)
Definition MaxInt : Z := 2 ^ 63 - 1.
Definition MinInt : Z := - 2 ^ 63.

Definition signed (neg : bool) (body : string) : option Z :=
  match body with
  | EmptyString => None
  | _ =>
      match digits 0 body with
      | None => None
      | Some n =>
          let v := if neg then - n else n in
          if (MinInt <=? v) && (v <=? MaxInt) then Some v else None
      end
  end.

(** [strconv.Atoi]: an optional sign, then decimal digits only; [None] is a
    non-nil error (bad syntax or out of range). *)
Definition Atoi (s : string) : option Z :=
  match s with
  | String "+"%char r => signed false r
  | String "-"%char r => signed true r
  | _ => signed false s
  end.

End strconv.

Module os.

(** The environment of the process: the value of each variable that is
    set. *)
Definition Env : Type := string -> option string.

(** [os.Getenv]: empty for a variable that is not set. *)
Definition Getenv (env : Env) (key : string) : string :=
  match env key with
  | Some value => value
  | None => ""
  end.

End os.

Definition getEnv (env : os.Env) (key defaultValue : string) : string :=
  let value := os.Getenv env key in
  if (value =? "")%string then defaultValue else value.

Definition getEnvAsInt (env : os.Env) (key : string) (defaultValue : Z) : Z :=
  let valueStr := getEnv env key "" in
  match strconv.Atoi valueStr with
  | Some value => value
  | None => defaultValue
  end.

(* ===================================================================== *)
(** ** The sample data of schema.sql *)
(* ===================================================================== *)

Module Sample.

(** When the sample rows were inserted ([DEFAULT CURRENT_TIMESTAMP]). *)
Definition loaded : Time.t := Time.mk 2025 3 1 0.

Definition james_id : string := "01913b7a-4493-74b2-93f8-e684c4ca935c".
Definition mary_id : string := "01913b80-2c04-7f9d-86a4-497ef68cb3a0".
Definition retrenchment_id : string := "01913b89-9a43-7163-8757-01cc254783f3".
Definition families_id : string := "01913b89-befc-7ae3-bb37-3079aa7f1be0".

Definition gwen : HouseholdMember.t :=
  HouseholdMember.mk "01913b88-1d4d-7152-a7ce-75796a2e8ecf" mary_id "Gwen"
    "unemployed" "female" (Time.mk 2016 2 1 0) "daughter" loaded loaded.

Definition jayden : HouseholdMember.t :=
  HouseholdMember.mk "01913b88-65c6-7255-820f-9c4dd1e5ce79" mary_id "Jayden"
    "unemployed" "male" (Time.mk 2018 3 15 0) "son" loaded loaded.

Definition db : DB.t :=
  {| DB.collate := String.leb;
     DB.applicants :=
       [ ApplicantRow.mk james_id "James" "unemployed" "male"
           (Time.mk 1990 7 1 0) "single" loaded loaded;
         ApplicantRow.mk mary_id "Mary" "unemployed" "female"
           (Time.mk 1984 10 6 0) "married" loaded loaded ];
     DB.household_members := [gwen; jayden];
     DB.schemes :=
       [ SchemeRow.mk retrenchment_id "Retrenchment Assistance Scheme"
           "Financial assistance for retrenched workers"
           (Criteria.mk "unemployed" "" (ChildCriteria.mk ""))
           loaded loaded;
         SchemeRow.mk families_id "Retrenchment Assistance Scheme (families)"
           "Financial assistance for retrenched workers with primary school children"
           (Criteria.mk "unemployed" "" (ChildCriteria.mk "primary"))
           loaded loaded ];
     DB.benefits :=
       [ BenefitRow.mk "01913b8b-9b12-7d2c-a1fa-ea613b802ebc" retrenchment_id
           "SkillsFuture Credits"
           (Some "Additional SkillsFuture credits for training")
           (Some 500%float) loaded loaded;
         BenefitRow.mk "01913b8c-5d33-7e9a-b2fa-fb723c904def" families_id
           "School Meal Vouchers"
           (Some "Daily school meal vouchers for primary school children")
           (Some 200%float) loaded loaded ];
     DB.applications := [] |}.

Definition james : Applicant.t :=
  Applicant.mk james_id "James" "unemployed" "male" (Time.mk 1990 7 1 0)
    "single" loaded loaded [].

Definition mary : Applicant.t :=
  Applicant.mk mary_id "Mary" "unemployed" "female" (Time.mk 1984 10 6 0)
    "married" loaded loaded [gwen; jayden].

Definition retrenchment : Scheme.t :=
  SchemeRepository.scanScheme db
    (SchemeRow.mk retrenchment_id "Retrenchment Assistance Scheme"
       "Financial assistance for retrenched workers"
       (Criteria.mk "unemployed" "" (ChildCriteria.mk "")) loaded loaded).

Definition families : Scheme.t :=
  SchemeRepository.scanScheme db
    (SchemeRow.mk families_id "Retrenchment Assistance Scheme (families)"
       "Financial assistance for retrenched workers with primary school children"
       (Criteria.mk "unemployed" "" (ChildCriteria.mk "primary")) loaded loaded).

(** Schemes that are not in the sample: one for secondary-school
    children, one for the employed, one with no criteria. *)
Definition secondary : Scheme.t :=
  Scheme.mk "s-secondary" "Secondary School Support" ""
    (Criteria.mk "" "" (ChildCriteria.mk "secondary")) loaded loaded [].

Definition workfare : Scheme.t :=
  Scheme.mk "s-workfare" "Workfare" ""
    (Criteria.mk "employed" "" (ChildCriteria.mk "")) loaded loaded [].

Definition open_scheme : Scheme.t :=
  Scheme.mk "s-open" "Open Scheme" ""
    (Criteria.mk "" "" (ChildCriteria.mk "")) loaded loaded [].

Definition today : Time.t := Time.mk 2026 10 31 0.

(** Mary's application for the families scheme, as [Create] stores it. *)
Definition application_id : string := "01913b8d-0000-7000-8000-000000000001".

Definition application_row : ApplicationRow.t :=
  ApplicationRow.mk application_id mary_id families_id "pending" today None
    (Some "first application") today today.

Definition db1 : DB.t := DB.with_applications db [application_row].

Definition application : Application.t :=
  ApplicationRepository.scanApplication db1 application_row.

Definition later : Time.t := Time.mk 2026 11 15 0.

(** Mary's application as the handler hands it to [Create]. *)
Definition new_application : Application.t :=
  Application.mk "" mary_id families_id "" zeroTime None "first application"
    zeroTime zeroTime None None.

(** Mary as another client could have entered her: other spellings of the
    statuses, the children in another order and under other names. *)
Definition mary_again : Applicant.t :=
  Applicant.mk "m-2" "Mary T." "Unemployed" "female" (Time.mk 1984 1 1 0)
    "MARRIED" loaded loaded
    [ HouseholdMember.mk "h-2" "m-2" "J." "employed" "male" (Time.mk 2018 12 31 0)
        "Son" loaded loaded;
      HouseholdMember.mk "h-1" "m-2" "G." "employed" "female" (Time.mk 2016 6 30 0)
        "Daughter" loaded loaded ].

(** Mary without her household. *)
Definition mary_alone : Applicant.t :=
  Applicant.mk mary_id "Mary" "unemployed" "female" (Time.mk 1984 10 6 0)
    "married" loaded loaded [].

(** A scheme to create, with two benefits, and the same scheme with both
    benefits submitted under one identifier. *)
Definition childcare_id : string := "01913b8e-0000-7000-8000-000000000002".

Definition subsidy : Benefit.t :=
  Benefit.mk "b-subsidy" "" "Subsidy" "Monthly childcare subsidy" 300%float
    zeroTime zeroTime.

Definition kit : Benefit.t :=
  Benefit.mk "b-kit" "someone-else" "Kit" "Starter kit" 50%float zeroTime zeroTime.

Definition kit_clash : Benefit.t :=
  Benefit.mk "b-subsidy" "" "Kit" "Starter kit" 50%float zeroTime zeroTime.

Definition childcare : Scheme.t :=
  Scheme.mk "" "Childcare Support" "Support for married parents"
    (Criteria.mk "" "married" (ChildCriteria.mk "")) zeroTime zeroTime [subsidy; kit].

Definition childcare_clash : Scheme.t :=
  Scheme.mk "" "Childcare Support" "Support for married parents"
    (Criteria.mk "" "married" (ChildCriteria.mk "")) zeroTime zeroTime
    [subsidy; kit_clash].

Definition no_uuid (i : nat) : string := "unused".
Definition at_today (i : nat) : Time.t := today.

(** The families scheme with its criteria relaxed to the unemployed. *)
Definition families_relaxed : Scheme.t :=
  Scheme.mk "ignored" "Retrenchment Assistance Scheme (families)"
    "Financial assistance for retrenched workers"
    (Criteria.mk "unemployed" "" (ChildCriteria.mk "")) zeroTime zeroTime [].

(** The retrenchment scheme with its criterion typed with a capital, and a
    scheme for the married with its criterion typed in capitals. *)
Definition retrenchment_titled : Scheme.t :=
  Scheme.mk "s-titled" "Retrenchment Assistance Scheme" ""
    (Criteria.mk "Unemployed" "" (ChildCriteria.mk "")) loaded loaded [].

Definition couples : Scheme.t :=
  Scheme.mk "s-couples" "Couples" ""
    (Criteria.mk "" "MARRIED" (ChildCriteria.mk "")) loaded loaded [].

(** A later state of the table: after Mary's first application, one of
    James for the retrenchment scheme, then a second one of Mary. *)
Definition latest : Time.t := Time.mk 2026 12 1 0.

Definition james_application_id : string := "01913b8d-0000-7000-8000-000000000003".
Definition second_application_id : string := "01913b8d-0000-7000-8000-000000000004".

Definition james_row : ApplicationRow.t :=
  ApplicationRow.mk james_application_id james_id retrenchment_id "approved" later
    (Some latest) None later latest.

Definition second_row : ApplicationRow.t :=
  ApplicationRow.mk second_application_id mary_id retrenchment_id "pending" latest None
    (Some "second application") latest latest.

Definition db2 : DB.t :=
  DB.with_applications db [application_row; james_row; second_row].

(** Mary with her son only. *)
Definition mary_and_son : Applicant.t :=
  Applicant.mk mary_id "Mary" "unemployed" "female" (Time.mk 1984 10 6 0)
    "married" loaded loaded [jayden].

End Sample.

(* ===================================================================== *)
(** ** The clauses of the evaluator, as the specification words them *)
(* ===================================================================== *)

(** [sub] occurs in [s]. *)
Definition substring_of (sub s : string) : Prop :=
  exists l r : string, s = (l ++ sub ++ r)%string.

(** The relation label names a child: it contains, ignoring case, "son" or
    "daughter". *)
Definition child_relation (member : HouseholdMember.t) : Prop :=
  substring_of "son" (strings.ToLower (HouseholdMember.Relation member)) \/
  substring_of "daughter" (strings.ToLower (HouseholdMember.Relation member)).

(** Current year minus birth year, month and day ignored. *)
Definition age (now : Time.t) (member : HouseholdMember.t) : Z :=
  Time.Year now - Time.Year (HouseholdMember.DateOfBirth member).

(** Some household member is a child of primary-school age. *)
Definition primary_child (now : Time.t) (household : list HouseholdMember.t) : Prop :=
  exists member, In member household /\ child_relation member /\ 6 <= age now member <= 12.

(** The applicant fails the employment-status criterion, which is populated. *)
Definition fails_employment (applicant : Applicant.t) (criteria : Criteria.t) : Prop :=
  Criteria.EmploymentStatus criteria <> "" /\
  strings.ToLower (Criteria.EmploymentStatus criteria) <>
  strings.ToLower (Applicant.EmploymentStatus applicant).

Definition fails_marital (applicant : Applicant.t) (criteria : Criteria.t) : Prop :=
  Criteria.MaritalStatus criteria <> "" /\
  strings.ToLower (Criteria.MaritalStatus criteria) <>
  strings.ToLower (Applicant.MaritalStatus applicant).

Definition fails_children (now : Time.t) (applicant : Applicant.t)
    (criteria : Criteria.t) : Prop :=
  ChildCriteria.SchoolLevel (Criteria.HasChildren criteria) <> "" /\
  ~ (ChildCriteria.SchoolLevel (Criteria.HasChildren criteria) = "primary" /\
     primary_child now (Applicant.Household applicant)).

(** The applicant fails at least one populated criterion of the scheme. *)
Definition fails_some_criterion (now : Time.t) (applicant : Applicant.t)
    (scheme : Scheme.t) : Prop :=
  fails_employment applicant (Scheme.Criteria scheme) \/
  fails_marital applicant (Scheme.Criteria scheme) \/
  fails_children now applicant (Scheme.Criteria scheme).

(** Two rows are in the order of their keys. *)
Definition key_ordered {A : Type} (le : string -> string -> bool) (key : A -> string)
    (x y : A) : Prop :=
  le (key x) (key y) = true.

(** Two schemes are in the order of their names, under the database's
    collation. *)
Definition name_ordered (db : DB.t) (s1 s2 : Scheme.t) : Prop :=
  DB.collate db (Scheme.Name s1) (Scheme.Name s2) = true.

Definition collation_total (db : DB.t) : Prop :=
  forall s1 s2, DB.collate db s1 s2 = true \/ DB.collate db s2 s1 = true.

Definition collation_transitive (db : DB.t) : Prop :=
  forall s1 s2 s3,
    DB.collate db s1 s2 = true -> DB.collate db s2 s3 = true -> DB.collate db s1 s3 = true.

(** The status and the notes that [UpdateApplication] writes. *)
Definition written_status (request : UpdateRequest.t) (existing : Application.t) : string :=
  if negb (UpdateRequest.Status request =? "")%string
  then UpdateRequest.Status request else Application.Status existing.

Definition written_notes (request : UpdateRequest.t) (existing : Application.t) : string :=
  if negb (UpdateRequest.Notes request =? "")%string
  then UpdateRequest.Notes request else Application.Notes existing.

(** Two rows are in the order [le] of their keys, whatever the key type. *)
Definition ordered_on {A K : Type} (le : K -> K -> bool) (key : A -> K)
    (x y : A) : Prop :=
  le (key x) (key y) = true.

(** The first application was made no earlier than the second. *)
Definition not_older (a1 a2 : Application.t) : Prop :=
  Time.leb (Application.ApplicationDate a2) (Application.ApplicationDate a1) = true.

(** No two application rows were made at the same instant: [ORDER BY
    application_date] then leaves one order only. *)
Definition distinct_application_dates (db : DB.t) : Prop :=
  NoDup (map ApplicationRow.application_date (DB.applications db)).

(** The primary key of the [applications] table: no two rows share an id. *)
Definition unique_application_ids (db : DB.t) : Prop :=
  NoDup (map ApplicationRow.id (DB.applications db)).

(** The foreign keys of the [applications] table: every application row
    refers to an applicant row and to a scheme row. *)
Definition application_refs_ok (db : DB.t) : Prop :=
  forall r, In r (DB.applications db) ->
    In (ApplicationRow.applicant_id r) (map ApplicantRow.id (DB.applicants db)) /\
    In (ApplicationRow.scheme_id r) (map SchemeRow.id (DB.schemes db)).

(** The application carries both the applicant and the scheme it refers to. *)
Definition has_applicant_and_scheme (a : Application.t) : bool :=
  match Application.Applicant a, Application.Scheme a with
  | Some _, Some _ => true
  | _, _ => false
  end.

(** The application with its applicant left unloaded. *)
Definition without_applicant (a : Application.t) : Application.t :=
  {| Application.ID := Application.ID a;
     Application.ApplicantID := Application.ApplicantID a;
     Application.SchemeID := Application.SchemeID a;
     Application.Status := Application.Status a;
     Application.ApplicationDate := Application.ApplicationDate a;
     Application.DecisionDate := Application.DecisionDate a;
     Application.Notes := Application.Notes a;
     Application.CreatedAt := Application.CreatedAt a;
     Application.UpdatedAt := Application.UpdatedAt a;
     Application.Applicant := None;
     Application.Scheme := Application.Scheme a |}.

(** The values the [status] column accepts:
    [ENUM('pending', 'approved', 'rejected')]. *)
Definition accepted_status (status : string) : Prop :=
  status = "pending" \/ status = "approved" \/ status = "rejected".

(** What the evaluator reads of a household member: the lower-cased
    relation and the year of birth. *)
Definition child_key (member : HouseholdMember.t) : string * Z :=
  (strings.ToLower (HouseholdMember.Relation member),
   Time.Year (HouseholdMember.DateOfBirth member)).

(** Two households show the evaluator the same members. *)
Definition same_children (h1 h2 : list HouseholdMember.t) : Prop :=
  forall k, In k (map child_key h1) <-> In k (map child_key h2).

(** What identifies a benefit to a reader: its identifier, its scheme, its
    name and its description. *)
Definition benefit_label (b : Benefit.t) : string * string * string * string :=
  (Benefit.ID b, Benefit.SchemeID b, Benefit.Name b, Benefit.Description b).

(** The foreign key of the [benefits] table: every benefit row refers to a
    scheme row. *)
Definition benefit_refs_ok (db : DB.t) : Prop :=
  forall r, In r (DB.benefits db) ->
    In (BenefitRow.scheme_id r) (map SchemeRow.id (DB.schemes db)).

(** Every member the evaluator sees in the first household, it sees in the
    second. *)
Definition children_included (h1 h2 : list HouseholdMember.t) : Prop :=
  forall k, In k (map child_key h1) -> In k (map child_key h2).

(** Two household members are in the order of their names, under the
    database's collation. *)
Definition member_name_ordered (db : DB.t) (m1 m2 : HouseholdMember.t) : Prop :=
  DB.collate db (HouseholdMember.Name m1) (HouseholdMember.Name m2) = true.

(** The character of a decimal digit. *)
Definition digitChar (d : Z) : ascii := ascii_of_N (Z.to_N (48 + d)).

(** The decimal digits of [n], most significant first, put before [acc];
    [fuel] bounds their number. *)
Fixpoint decimal_digits (fuel : nat) (n : Z) (acc : string) : string :=
  match fuel with
  | O => acc
  | S fuel' =>
      let acc' := String (digitChar (n mod 10)) acc in
      if n <? 10 then acc' else decimal_digits fuel' (n / 10) acc'
  end.

(** The decimal rendering of an integer, as [strconv.Itoa] writes it. *)
Definition decimal (n : Z) : string :=
  if n <? 0
  then String "-" (decimal_digits (S (Z.to_nat (Z.log2 (- n)))) (- n) "")
  else decimal_digits (S (Z.to_nat (Z.log2 n))) n "".

(* ===================================================================== *)
(** ** Facts about [strings] *)
(* ===================================================================== *)

Lemma HasPrefix_spec (s prefix : string) :
  strings.HasPrefix s prefix = true <-> exists r, s = (prefix ++ r)%string.
Proof.
  revert s; induction prefix as [|p ps IH]; intros s; simpl.
  - split; [intros _; now exists s | reflexivity].
  - destruct s as [|c cs].
    + split; [discriminate | intros [r Hr]; discriminate].
    + rewrite andb_true_iff, Ascii.eqb_eq, IH. split.
      * intros [-> [r ->]]. now exists r.
      * intros [r Hr]. injection Hr as -> ->. split; [reflexivity | now exists r].
Qed.

Lemma Contains_spec (s sub : string) :
  strings.Contains s sub = true <-> substring_of sub s.
Proof.
  unfold substring_of. induction s as [|c cs IH].
  - cbn [strings.Contains]. rewrite orb_false_r, HasPrefix_spec. split.
    + intros [r Hr]. now exists EmptyString, r.
    + intros [l [r Hr]]. destruct l; simpl in Hr; [now exists r | discriminate].
  - cbn [strings.Contains]. rewrite orb_true_iff, HasPrefix_spec, IH. split.
    + intros [[r Hr] | [l [r Hr]]].
      * now exists EmptyString, r.
      * exists (String c l), r. simpl. now rewrite Hr.
    + intros [l [r Hr]]. destruct l as [|c' l]; simpl in Hr.
      * left. now exists r.
      * right. injection Hr as _ Hr. now exists l, r.
Qed.

Lemma string_neq_iff (s1 s2 : string) : negb (s1 =? s2)%string = true <-> s1 <> s2.
Proof. rewrite negb_true_iff. apply String.eqb_neq. Qed.

(* ===================================================================== *)
(** ** Facts about the evaluator *)
(* ===================================================================== *)

Lemma child_relation_iff (member : HouseholdMember.t) :
  strings.Contains (strings.ToLower (HouseholdMember.Relation member)) "son" ||
  strings.Contains (strings.ToLower (HouseholdMember.Relation member)) "daughter" = true
  <-> child_relation member.
Proof. unfold child_relation. now rewrite orb_true_iff, !Contains_spec. Qed.

Lemma hasEligibleChild_spec (now : Time.t) (level : string)
    (household : list HouseholdMember.t) :
  hasEligibleChild now level household = true <->
  level = "primary" /\ primary_child now household.
Proof.
  unfold primary_child, age.
  induction household as [|m rest IH]; cbn [hasEligibleChild].
  - split; [discriminate | intros [_ [m [[] _]]]].
  - pose proof (child_relation_iff m) as Hm.
    destruct (strings.Contains _ "son" || strings.Contains _ "daughter").
    + destruct ((_ >=? 6) && (_ <=? 12) && (level =? "primary")%string) eqn:Hage.
      * split; [intros _ | reflexivity].
        rewrite !andb_true_iff, String.eqb_eq in Hage. destruct Hage as [[H6 H12] ->].
        split; [reflexivity |]. exists m. split; [now left |].
        split; [now apply Hm | lia].
      * rewrite IH. split.
        -- intros [-> [m' [Hin H]]]. split; [reflexivity |]. exists m'.
           split; [now right | exact H].
        -- intros [-> [m' [[<- | Hin] [Hr Ha]]]].
           ++ rewrite String.eqb_refl, andb_true_r, andb_false_iff in Hage. lia.
           ++ split; [reflexivity |]. now exists m'.
    + rewrite IH. split.
      * intros [-> [m' [Hin H]]]. split; [reflexivity |]. exists m'.
        split; [now right | exact H].
      * intros [-> [m' [[<- | Hin] [Hr Ha]]]].
        -- apply Hm in Hr. discriminate.
        -- split; [reflexivity |]. now exists m'.
Qed.

Lemma fails_employment_iff (applicant : Applicant.t) (criteria : Criteria.t) :
  negb (Criteria.EmploymentStatus criteria =? "")%string &&
  negb (strings.ToLower (Criteria.EmploymentStatus criteria) =?
        strings.ToLower (Applicant.EmploymentStatus applicant))%string = true
  <-> fails_employment applicant criteria.
Proof. unfold fails_employment. now rewrite andb_true_iff, !string_neq_iff. Qed.

Lemma fails_marital_iff (applicant : Applicant.t) (criteria : Criteria.t) :
  negb (Criteria.MaritalStatus criteria =? "")%string &&
  negb (strings.ToLower (Criteria.MaritalStatus criteria) =?
        strings.ToLower (Applicant.MaritalStatus applicant))%string = true
  <-> fails_marital applicant criteria.
Proof. unfold fails_marital. now rewrite andb_true_iff, !string_neq_iff. Qed.

Lemma fails_children_iff (now : Time.t) (applicant : Applicant.t) (criteria : Criteria.t) :
  negb (ChildCriteria.SchoolLevel (Criteria.HasChildren criteria) =? "")%string &&
  negb (hasEligibleChild now (ChildCriteria.SchoolLevel (Criteria.HasChildren criteria))
          (Applicant.Household applicant)) = true
  <-> fails_children now applicant criteria.
Proof.
  unfold fails_children.
  rewrite andb_true_iff, string_neq_iff, negb_true_iff, <- hasEligibleChild_spec.
  destruct (hasEligibleChild now _ _); intuition congruence.
Qed.

Lemma isEligible_false_iff (now : Time.t) (applicant : Applicant.t) (scheme : Scheme.t) :
  isEligible now applicant scheme = false <-> fails_some_criterion now applicant scheme.
Proof.
  unfold isEligible, fails_some_criterion. cbv zeta.
  rewrite <- fails_employment_iff, <- fails_marital_iff, <- (fails_children_iff now).
  destruct (negb (Criteria.EmploymentStatus _ =? "")%string && _).
  - split; [now left | reflexivity].
  - destruct (negb (Criteria.MaritalStatus _ =? "")%string && _).
    + split; [right; now left | reflexivity].
    + destruct (negb (ChildCriteria.SchoolLevel _ =? "")%string); cbn [andb].
      * destruct (negb (hasEligibleChild now _ _)).
        -- split; [right; now right | reflexivity].
        -- split; [discriminate | intros [H | [H | H]]; discriminate].
      * split; [discriminate | intros [H | [H | H]]; discriminate].
Qed.

Lemma isEligible_true_iff (now : Time.t) (applicant : Applicant.t) (scheme : Scheme.t) :
  isEligible now applicant scheme = true <-> ~ fails_some_criterion now applicant scheme.
Proof.
  rewrite <- isEligible_false_iff. destruct (isEligible now applicant scheme);
    split; congruence.
Qed.

(* ===================================================================== *)
(** ** The evaluator's clauses (claims C4 to C7) *)
(* ===================================================================== *)

(** C4: with school level "primary", the children clause of [isEligible]
    succeeds exactly when some household member has a relation containing,
    ignoring case, "son" or "daughter" and an age (current year minus birth
    year) in the inclusive range 6 to 12.  A failing clause makes the
    applicant ineligible; a daughter aged exactly 6 or 12 satisfies the
    clause, one aged 5 or 13 does not, "Step-Son" counts as a child, and an
    empty household fails. *)
Theorem primary_children_clause (now : Time.t) (applicant : Applicant.t)
    (scheme : Scheme.t) :
  ChildCriteria.SchoolLevel (Criteria.HasChildren (Scheme.Criteria scheme)) = "primary" ->
  let clause := hasEligibleChild now "primary" (Applicant.Household applicant) in
  (clause = true <-> primary_child now (Applicant.Household applicant)) /\
  (clause = false -> isEligible now applicant scheme = false) /\
  (clause = true ->
   ~ fails_employment applicant (Scheme.Criteria scheme) ->
   ~ fails_marital applicant (Scheme.Criteria scheme) ->
   isEligible now applicant scheme = true) /\
  (forall member,
     In member (Applicant.Household applicant) ->
     HouseholdMember.Relation member = "daughter" ->
     age now member = 6 \/ age now member = 12 ->
     clause = true) /\
  (forall member,
     Applicant.Household applicant = [member] ->
     HouseholdMember.Relation member = "daughter" ->
     age now member = 5 \/ age now member = 13 ->
     clause = false) /\
  (forall member,
     In member (Applicant.Household applicant) ->
     HouseholdMember.Relation member = "Step-Son" ->
     6 <= age now member <= 12 ->
     clause = true) /\
  (Applicant.Household applicant = [] -> clause = false).
Proof.
  intros Hlevel clause. subst clause.
  assert (Hspec : hasEligibleChild now "primary" (Applicant.Household applicant) = true
                  <-> primary_child now (Applicant.Household applicant)).
  { rewrite hasEligibleChild_spec. tauto. }
  split; [exact Hspec |]. split; [| split; [| split; [| split; [| split]]]].
  - intros Hclause. apply isEligible_false_iff. right; right. split.
    + rewrite Hlevel. discriminate.
    + intros [_ Hchild]. apply Hspec in Hchild. congruence.
  - intros Hclause Hemp Hmar. apply isEligible_true_iff.
    intros [H | [H | [_ H]]]; [tauto | tauto |].
    apply H. split; [exact Hlevel | now apply Hspec].
  - intros member Hin Hrel Hage. apply Hspec. exists member.
    split; [exact Hin |]. split; [| lia].
    apply child_relation_iff. now rewrite Hrel.
  - intros member Hhh Hrel Hage.
    apply not_true_is_false. intros E. apply Hspec in E. destruct E as [m' [Hin [_ Hrange]]].
    rewrite Hhh in Hin. destruct Hin as [<- | []]. lia.
  - intros member Hin Hrel Hage. apply Hspec. exists member.
    split; [exact Hin |]. split; [| exact Hage].
    apply child_relation_iff. now rewrite Hrel.
  - intros ->. reflexivity.
Qed.

(** C5: a school level that is non-empty and not "primary" is matched by no
    household member, so [isEligible] returns false whatever the household. *)
Theorem other_school_level_ineligible (now : Time.t) (applicant : Applicant.t)
    (scheme : Scheme.t) :
  ChildCriteria.SchoolLevel (Criteria.HasChildren (Scheme.Criteria scheme)) <> "" ->
  ChildCriteria.SchoolLevel (Criteria.HasChildren (Scheme.Criteria scheme)) <> "primary" ->
  (forall household,
     hasEligibleChild now
       (ChildCriteria.SchoolLevel (Criteria.HasChildren (Scheme.Criteria scheme)))
       household = false) /\
  isEligible now applicant scheme = false.
Proof.
  intros Hne Hnp. split.
  - intros household.
    destruct (hasEligibleChild now _ household) eqn:E; [| reflexivity].
    apply hasEligibleChild_spec in E. tauto.
  - apply isEligible_false_iff. right; right. split; [exact Hne | tauto].
Qed.

Lemma passes_employment_iff (applicant : Applicant.t) (criteria : Criteria.t) :
  ~ fails_employment applicant criteria <->
  Criteria.EmploymentStatus criteria = "" \/
  strings.ToLower (Criteria.EmploymentStatus criteria) =
  strings.ToLower (Applicant.EmploymentStatus applicant).
Proof.
  unfold fails_employment.
  destruct (string_dec (Criteria.EmploymentStatus criteria) "") as [He | He];
    destruct (string_dec (strings.ToLower (Criteria.EmploymentStatus criteria))
                (strings.ToLower (Applicant.EmploymentStatus applicant))) as [Hl | Hl];
    tauto.
Qed.

Lemma passes_marital_iff (applicant : Applicant.t) (criteria : Criteria.t) :
  ~ fails_marital applicant criteria <->
  Criteria.MaritalStatus criteria = "" \/
  strings.ToLower (Criteria.MaritalStatus criteria) =
  strings.ToLower (Applicant.MaritalStatus applicant).
Proof.
  unfold fails_marital.
  destruct (string_dec (Criteria.MaritalStatus criteria) "") as [He | He];
    destruct (string_dec (strings.ToLower (Criteria.MaritalStatus criteria))
                (strings.ToLower (Applicant.MaritalStatus applicant))) as [Hl | Hl];
    tauto.
Qed.

Lemma isEligible_statuses_only (now : Time.t) (applicant : Applicant.t)
    (scheme : Scheme.t) :
  ChildCriteria.SchoolLevel (Criteria.HasChildren (Scheme.Criteria scheme)) = "" ->
  isEligible now applicant scheme = true <->
  ~ fails_employment applicant (Scheme.Criteria scheme) /\
  ~ fails_marital applicant (Scheme.Criteria scheme).
Proof.
  intros Hlevel. rewrite isEligible_true_iff. unfold fails_some_criterion, fails_children.
  rewrite Hlevel. tauto.
Qed.

(** C6: an applicant whose employment status differs, ignoring case, from a
    non-empty employment-status criterion is ineligible whatever the other
    fields are, and likewise for the marital status; "Unemployed" and
    "unemployed" are equal for the comparison.  The evaluator itself treats
    them as equal: when the other two criteria pass, the applicant is
    eligible exactly when the criterion is empty or equals the applicant's
    status ignoring case, so a scheme for the "Unemployed" accepts an
    "unemployed" applicant and the other way round. *)
Theorem status_mismatch_ineligible (now : Time.t) (applicant : Applicant.t)
    (scheme : Scheme.t) :
  (fails_employment applicant (Scheme.Criteria scheme) ->
   isEligible now applicant scheme = false) /\
  (fails_marital applicant (Scheme.Criteria scheme) ->
   isEligible now applicant scheme = false) /\
  strings.ToLower "Unemployed" = strings.ToLower "unemployed" /\
  (Criteria.EmploymentStatus (Scheme.Criteria scheme) = "Unemployed" ->
   Applicant.EmploymentStatus applicant = "unemployed" ->
   ~ fails_employment applicant (Scheme.Criteria scheme)) /\
  (Criteria.EmploymentStatus (Scheme.Criteria scheme) = "unemployed" ->
   Applicant.EmploymentStatus applicant = "Unemployed" ->
   ~ fails_employment applicant (Scheme.Criteria scheme)) /\
  (~ fails_marital applicant (Scheme.Criteria scheme) ->
   ~ fails_children now applicant (Scheme.Criteria scheme) ->
   (isEligible now applicant scheme = true <->
    Criteria.EmploymentStatus (Scheme.Criteria scheme) = "" \/
    strings.ToLower (Criteria.EmploymentStatus (Scheme.Criteria scheme)) =
    strings.ToLower (Applicant.EmploymentStatus applicant))) /\
  (~ fails_employment applicant (Scheme.Criteria scheme) ->
   ~ fails_children now applicant (Scheme.Criteria scheme) ->
   (isEligible now applicant scheme = true <->
    Criteria.MaritalStatus (Scheme.Criteria scheme) = "" \/
    strings.ToLower (Criteria.MaritalStatus (Scheme.Criteria scheme)) =
    strings.ToLower (Applicant.MaritalStatus applicant))) /\
  (Criteria.MaritalStatus (Scheme.Criteria scheme) = "" ->
   ChildCriteria.SchoolLevel (Criteria.HasChildren (Scheme.Criteria scheme)) = "" ->
   (Criteria.EmploymentStatus (Scheme.Criteria scheme) = "Unemployed" /\
    Applicant.EmploymentStatus applicant = "unemployed") \/
   (Criteria.EmploymentStatus (Scheme.Criteria scheme) = "unemployed" /\
    Applicant.EmploymentStatus applicant = "Unemployed") ->
   isEligible now applicant scheme = true) /\
  (Criteria.EmploymentStatus (Scheme.Criteria scheme) = "" ->
   ChildCriteria.SchoolLevel (Criteria.HasChildren (Scheme.Criteria scheme)) = "" ->
   (Criteria.MaritalStatus (Scheme.Criteria scheme) = "Married" /\
    Applicant.MaritalStatus applicant = "married") \/
   (Criteria.MaritalStatus (Scheme.Criteria scheme) = "married" /\
    Applicant.MaritalStatus applicant = "Married") ->
   isEligible now applicant scheme = true).
Proof.
  split; [| split; [| split; [| split; [| split; [| split; [| split; [| split]]]]]]].
  - intros H. apply isEligible_false_iff. now left.
  - intros H. apply isEligible_false_iff. right. now left.
  - reflexivity.
  - intros Hc Ha [_ H]. apply H. now rewrite Hc, Ha.
  - intros Hc Ha [_ H]. apply H. now rewrite Hc, Ha.
  - intros Hm Hch. rewrite <- passes_employment_iff, isEligible_true_iff.
    unfold fails_some_criterion. tauto.
  - intros He Hch. rewrite <- passes_marital_iff, isEligible_true_iff.
    unfold fails_some_criterion. tauto.
  - intros Hm Hlevel Hspelt. apply isEligible_statuses_only; [exact Hlevel |].
    rewrite passes_employment_iff, passes_marital_iff.
    split; [right | left; exact Hm].
    destruct Hspelt as [[Hc Ha] | [Hc Ha]]; rewrite Hc, Ha; reflexivity.
  - intros He Hlevel Hspelt. apply isEligible_statuses_only; [exact Hlevel |].
    rewrite passes_employment_iff, passes_marital_iff.
    split; [left; exact He | right].
    destruct Hspelt as [[Hc Ha] | [Hc Ha]]; rewrite Hc, Ha; reflexivity.
Qed.

(** C7: a scheme whose criteria are all empty (employment status, marital
    status and school level) makes every applicant eligible. *)
Theorem empty_criteria_eligible (now : Time.t) (applicant : Applicant.t)
    (scheme : Scheme.t) :
  Criteria.EmploymentStatus (Scheme.Criteria scheme) = "" ->
  Criteria.MaritalStatus (Scheme.Criteria scheme) = "" ->
  ChildCriteria.SchoolLevel (Criteria.HasChildren (Scheme.Criteria scheme)) = "" ->
  isEligible now applicant scheme = true.
Proof.
  intros He Hm Hs. unfold isEligible. cbv zeta. now rewrite He, Hm, Hs.
Qed.

(* ===================================================================== *)
(** ** [ORDER BY]: the listing is a sorted rearrangement of the rows *)
(* ===================================================================== *)

Section OrderBy.

Context {A : Type}.
Variable le : string -> string -> bool.
Variable key : A -> string.

Lemma insert_by_perm (x : A) (l : list A) :
  Permutation (DB.insert_by le key x l) (x :: l).
Proof.
  induction l as [|y l IH]; simpl.
  - apply Permutation_refl.
  - destruct (le (key x) (key y)).
    + apply Permutation_refl.
    + eapply perm_trans; [apply perm_skip, IH | apply perm_swap].
Qed.

Lemma order_by_perm (l : list A) : Permutation (DB.order_by le key l) l.
Proof.
  induction l as [|x l IH]; simpl.
  - apply perm_nil.
  - eapply perm_trans; [apply insert_by_perm | apply perm_skip, IH].
Qed.

Hypothesis le_total : forall s1 s2, le s1 s2 = true \/ le s2 s1 = true.
Hypothesis le_trans : forall s1 s2 s3, le s1 s2 = true -> le s2 s3 = true -> le s1 s3 = true.

Lemma insert_by_sorted (x : A) (l : list A) :
  StronglySorted (key_ordered le key) l -> StronglySorted (key_ordered le key) (DB.insert_by le key x l).
Proof.
  unfold key_ordered. induction 1 as [|y l Hs IH Hall]; simpl.
  - constructor; constructor.
  - destruct (le (key x) (key y)) eqn:Hxy.
    + constructor.
      * now constructor.
      * constructor; [exact Hxy |].
        eapply Forall_impl; [| exact Hall].
        intros z Hyz. exact (le_trans _ _ _ Hxy Hyz).
    + constructor; [exact IH |].
      eapply Permutation_Forall; [apply Permutation_sym, insert_by_perm |].
      constructor; [| exact Hall].
      destruct (le_total (key x) (key y)) as [H | H]; [congruence | exact H].
Qed.

Lemma order_by_sorted (l : list A) : StronglySorted (key_ordered le key) (DB.order_by le key l).
Proof.
  induction l as [|x l IH]; simpl.
  - constructor.
  - now apply insert_by_sorted.
Qed.

End OrderBy.

Lemma StronglySorted_map {A B : Type} (R : B -> B -> Prop) (f : A -> B) (l : list A) :
  StronglySorted (fun x y => R (f x) (f y)) l -> StronglySorted R (map f l).
Proof.
  induction 1 as [|x l Hs IH Hall]; simpl; constructor.
  - exact IH.
  - apply Forall_map. exact Hall.
Qed.

Lemma StronglySorted_filter {A : Type} (R : A -> A -> Prop) (p : A -> bool) (l : list A) :
  StronglySorted R l -> StronglySorted R (filter p l).
Proof.
  induction 1 as [|x l Hs IH Hall]; simpl.
  - constructor.
  - destruct (p x); [| exact IH].
    constructor; [exact IH |].
    apply Forall_forall. intros y Hy. apply filter_In in Hy.
    rewrite Forall_forall in Hall. now apply Hall.
Qed.

(* ===================================================================== *)
(** ** The eligible-scheme query (claim C8) *)
(* ===================================================================== *)

Lemma appendEligible_filter (now : Time.t) (applicant : Applicant.t)
    (schemes eligibleSchemes : list Scheme.t) :
  SchemeRepository.appendEligible now applicant schemes eligibleSchemes =
  (eligibleSchemes ++ filter (isEligible now applicant) schemes)%list.
Proof.
  revert eligibleSchemes. induction schemes as [|s rest IH]; intros acc; simpl.
  - now rewrite app_nil_r.
  - destruct (isEligible now applicant s); rewrite IH.
    + now rewrite <- app_assoc.
    + reflexivity.
Qed.

Lemma find_none_iff {A : Type} (p : A -> bool) (l : list A) :
  find p l = None <-> forall x, In x l -> p x = false.
Proof.
  split; [apply find_none |].
  induction l as [|x l IH]; simpl; intros H; [reflexivity |].
  rewrite (H x (or_introl eq_refl)). apply IH. intros y Hy. apply H. now right.
Qed.

Lemma ApplicantRepository_GetByID_none (db : DB.t) (id : string) :
  ApplicantRepository.GetByID db id = None <->
  ~ In id (map ApplicantRow.id (DB.applicants db)).
Proof.
  unfold ApplicantRepository.GetByID.
  destruct (find _ (DB.applicants db)) as [r|] eqn:Hfind.
  - split; [discriminate |]. intros Habs. exfalso. apply Habs.
    apply find_some in Hfind. destruct Hfind as [Hin Heq].
    apply String.eqb_eq in Heq. subst id. now apply in_map.
  - split; [intros _ | reflexivity]. intros Hin. apply in_map_iff in Hin.
    destruct Hin as [r [Hid Hin]].
    rewrite find_none_iff in Hfind. specialize (Hfind r Hin). cbv beta in Hfind.
    rewrite Hid, String.eqb_refl in Hfind. discriminate.
Qed.

(** The schemes as [GetAll] lists them are the rows of the [schemes] table,
    each scanned once. *)
Lemma GetAll_perm (db : DB.t) :
  Permutation (SchemeRepository.GetAll db)
    (map (SchemeRepository.scanScheme db) (DB.schemes db)).
Proof. unfold SchemeRepository.GetAll. apply Permutation_map, order_by_perm. Qed.

Lemma GetAll_sorted (db : DB.t) :
  collation_total db -> collation_transitive db ->
  StronglySorted (name_ordered db) (SchemeRepository.GetAll db).
Proof.
  intros Htot Htrans. unfold SchemeRepository.GetAll.
  apply (StronglySorted_map (name_ordered db)).
  exact (order_by_sorted (DB.collate db) SchemeRow.name Htot Htrans (DB.schemes db)).
Qed.

(** C8: [GetEligibleSchemes] fails with "applicant not found" when no
    applicant row has the identifier; otherwise it returns the schemes of
    the full listing [GetAll] for which [isEligible] holds, in the order of
    that listing (an order-preserving filter), and the listing is every
    scheme row ordered by name. *)
Theorem GetEligibleSchemes_filter (now : Time.t) (db : DB.t) (applicantID : string) :
  (~ In applicantID (map ApplicantRow.id (DB.applicants db)) ->
   SchemeRepository.GetEligibleSchemes now db applicantID =
   inl ("applicant not found: " ++ applicantID)%string) /\
  (In applicantID (map ApplicantRow.id (DB.applicants db)) ->
   exists applicant,
     ApplicantRepository.GetByID db applicantID = Some applicant /\
     SchemeRepository.GetEligibleSchemes now db applicantID =
     inr (filter (isEligible now applicant) (SchemeRepository.GetAll db))) /\
  Permutation (SchemeRepository.GetAll db)
    (map (SchemeRepository.scanScheme db) (DB.schemes db)) /\
  (collation_total db -> collation_transitive db ->
   StronglySorted (name_ordered db) (SchemeRepository.GetAll db) /\
   forall schemes,
     SchemeRepository.GetEligibleSchemes now db applicantID = inr schemes ->
     StronglySorted (name_ordered db) schemes).
Proof.
  unfold SchemeRepository.GetEligibleSchemes.
  pose proof (ApplicantRepository_GetByID_none db applicantID) as Hnone.
  destruct (ApplicantRepository.GetByID db applicantID) as [applicant|].
  - rewrite appendEligible_filter. cbn [app].
    split; [intros Habs; apply Hnone in Habs; discriminate |].
    split; [intros _; now exists applicant |].
    split; [apply GetAll_perm |].
    intros Htot Htrans. split; [now apply GetAll_sorted |].
    intros schemes [= <-]. apply StronglySorted_filter. now apply GetAll_sorted.
  - split; [reflexivity |].
    split; [intros Hin; exfalso; now apply (proj1 Hnone) |].
    split; [apply GetAll_perm |].
    intros Htot Htrans. split; [now apply GetAll_sorted | discriminate].
Qed.

(* ===================================================================== *)
(** ** The evaluator reads the clock (claim C2) *)
(* ===================================================================== *)

Lemma hasEligibleChild_same_year (now1 now2 : Time.t) (level : string)
    (household : list HouseholdMember.t) :
  Time.Year now1 = Time.Year now2 ->
  hasEligibleChild now1 level household = hasEligibleChild now2 level household.
Proof.
  intros Hyear. induction household as [|m rest IH]; simpl.
  - reflexivity.
  - now rewrite Hyear, IH.
Qed.

Lemma isEligible_year (now1 now2 : Time.t) (applicant : Applicant.t) (scheme : Scheme.t) :
  Time.Year now1 = Time.Year now2 ->
  isEligible now1 applicant scheme = isEligible now2 applicant scheme.
Proof.
  intros Hyear. unfold isEligible. cbv zeta.
  now rewrite (hasEligibleChild_same_year now1 now2 _ _ Hyear).
Qed.

(** C2, as amended: [isEligible] is a function of the applicant, the scheme
    and the calendar year read from the clock.  Two evaluations on equal
    inputs in one calendar year return the same boolean, a scheme with no
    school-level criterion is evaluated without the clock, and two runs of
    [GetEligibleSchemes] on the same database in one calendar year return
    the same schemes in the same order. *)
Theorem isEligible_same_year (now1 now2 : Time.t) :
  Time.Year now1 = Time.Year now2 ->
  (forall applicant scheme,
     isEligible now1 applicant scheme = isEligible now2 applicant scheme) /\
  (forall db applicantID,
     SchemeRepository.GetEligibleSchemes now1 db applicantID =
     SchemeRepository.GetEligibleSchemes now2 db applicantID) /\
  (forall now3 applicant scheme,
     ChildCriteria.SchoolLevel (Criteria.HasChildren (Scheme.Criteria scheme)) = "" ->
     isEligible now1 applicant scheme = isEligible now3 applicant scheme).
Proof.
  intros Hyear. split; [| split].
  - intros applicant scheme. now apply isEligible_year.
  - intros db applicantID. unfold SchemeRepository.GetEligibleSchemes.
    destruct (ApplicantRepository.GetByID db applicantID) as [applicant|]; [| reflexivity].
    rewrite !appendEligible_filter. f_equal. f_equal.
    apply filter_ext. intros scheme. now apply isEligible_year.
  - intros now3 applicant scheme Hlevel. unfold isEligible. cbv zeta.
    now rewrite Hlevel.
Qed.

(* ===================================================================== *)
(** ** The gated creation of an application (claims C1 and C9) *)
(* ===================================================================== *)

Lemma string_eqb_neq_false (s1 s2 : string) : s1 <> s2 -> (s1 =? s2)%string = false.
Proof. apply String.eqb_neq. Qed.

(** C1: when the applicant fails at least one populated criterion of the
    scheme, [Create] returns the error "applicant is not eligible for this
    scheme" and neither the database nor the application passed in is
    changed; the handler [CreateApplication] answers with that error and
    leaves the database as it was, so no application is persisted. *)
Theorem gated_create_ineligible (uuid : string) (today now : Time.t) (db : DB.t)
    (applicantID schemeID : string) (applicant : Applicant.t) (scheme : Scheme.t) :
  ApplicantRepository.GetByID db applicantID = Some applicant ->
  SchemeRepository.GetByID db schemeID = Some scheme ->
  fails_some_criterion today applicant scheme ->
  (forall a,
     Application.ApplicantID a = applicantID ->
     Application.SchemeID a = schemeID ->
     ApplicationRepository.Create uuid today now db a =
     (Some "applicant is not eligible for this scheme", a, db)) /\
  (forall notes,
     applicantID <> "" -> schemeID <> "" ->
     ApplicationHandler.CreateApplication uuid today now db
       (inr (ApplicationRequest.mk applicantID schemeID notes)) =
     (ApplicationHandler.Error ApplicationHandler.StatusInternalServerError
        "Failed to create application: applicant is not eligible for this scheme",
      db)).
Proof.
  intros Happ Hsch Hfail. apply isEligible_false_iff in Hfail.
  assert (Hcreate : forall a,
            Application.ApplicantID a = applicantID ->
            Application.SchemeID a = schemeID ->
            ApplicationRepository.Create uuid today now db a =
            (Some "applicant is not eligible for this scheme", a, db)).
  { intros a Ha Hs. unfold ApplicationRepository.Create.
    now rewrite Ha, Hs, Happ, Hsch, Hfail. }
  split; [exact Hcreate |].
  intros notes Hane Hsne. unfold ApplicationHandler.CreateApplication.
  cbn [ApplicationRequest.ApplicantID ApplicationRequest.SchemeID ApplicationRequest.Notes].
  rewrite (string_eqb_neq_false _ _ Hane), (string_eqb_neq_false _ _ Hsne), Happ, Hsch.
  rewrite Hcreate; reflexivity.
Qed.

Lemma existsb_id_false (rows : list ApplicationRow.t) (id : string) :
  ~ In id (map ApplicationRow.id rows) ->
  existsb (fun r => (ApplicationRow.id r =? id)%string) rows = false.
Proof.
  intros Hfresh. apply not_true_is_false. intros H.
  apply existsb_exists in H. destruct H as [r [Hin Heq]].
  apply String.eqb_eq in Heq. apply Hfresh. subst id. now apply in_map.
Qed.

Lemma find_app_fresh (rows : list ApplicationRow.t) (row : ApplicationRow.t)
    (id : string) :
  ApplicationRow.id row = id ->
  ~ In id (map ApplicationRow.id rows) ->
  find (fun r => (ApplicationRow.id r =? id)%string) (rows ++ [row]) = Some row.
Proof.
  intros Hid. induction rows as [|r rows IH]; simpl; intros Hfresh.
  - now rewrite Hid, String.eqb_refl.
  - rewrite string_eqb_neq_false by tauto. apply IH. tauto.
Qed.

(** C9: when the applicant and the scheme exist and the eligibility check
    passes, [CreateApplication] persists one new application row, with
    status "pending", the current time as application date, no decision
    date, and the identifiers and notes of the request, and answers 201 with
    that application.  The generated identifier must not be taken, as the
    primary key requires. *)
Theorem gated_create_eligible (uuid : string) (today now : Time.t) (db : DB.t)
    (request : ApplicationRequest.t) (applicant : Applicant.t) (scheme : Scheme.t) :
  ApplicationRequest.ApplicantID request <> "" ->
  ApplicationRequest.SchemeID request <> "" ->
  ApplicantRepository.GetByID db (ApplicationRequest.ApplicantID request) = Some applicant ->
  SchemeRepository.GetByID db (ApplicationRequest.SchemeID request) = Some scheme ->
  isEligible today applicant scheme = true ->
  ~ In uuid (map ApplicationRow.id (DB.applications db)) ->
  let row :=
    {| ApplicationRow.id := uuid;
       ApplicationRow.applicant_id := ApplicationRequest.ApplicantID request;
       ApplicationRow.scheme_id := ApplicationRequest.SchemeID request;
       ApplicationRow.status := "pending";
       ApplicationRow.application_date := now;
       ApplicationRow.decision_date := None;
       ApplicationRow.notes := Some (ApplicationRequest.Notes request);
       ApplicationRow.created_at := now;
       ApplicationRow.updated_at := now |} in
  let created :=
    {| Application.ID := uuid;
       Application.ApplicantID := ApplicationRequest.ApplicantID request;
       Application.SchemeID := ApplicationRequest.SchemeID request;
       Application.Status := "pending";
       Application.ApplicationDate := now;
       Application.DecisionDate := None;
       Application.Notes := ApplicationRequest.Notes request;
       Application.CreatedAt := now;
       Application.UpdatedAt := now;
       Application.Applicant := Some applicant;
       Application.Scheme := Some scheme |} in
  ApplicationHandler.CreateApplication uuid today now db (inr request) =
  (ApplicationHandler.JSON ApplicationHandler.StatusCreated
     (ApplicationResponse.mk created applicant scheme),
   DB.with_applications db (DB.applications db ++ [row])%list).
Proof.
  intros Hane Hsne Happ Hsch Helig Hfresh row created.
  unfold ApplicationHandler.CreateApplication, ApplicationRepository.Create.
  rewrite (string_eqb_neq_false _ _ Hane), (string_eqb_neq_false _ _ Hsne).
  cbn [Application.ApplicantID Application.SchemeID Application.ID Application.Status
       Application.Notes Application.DecisionDate Application.Applicant Application.Scheme].
  rewrite Happ, Hsch, Helig. cbn [negb]. rewrite String.eqb_refl.
  change ("pending" =? "")%string with false. cbv iota.
  unfold DB.insert_application, ApplicationRepository.insertedRow.
  cbn [ApplicationRow.id Application.ID Application.ApplicantID Application.SchemeID
       Application.Status Application.ApplicationDate Application.Notes
       Application.CreatedAt Application.UpdatedAt].
  rewrite (existsb_id_false _ _ Hfresh).
  unfold ApplicationRepository.GetByID, ApplicationRepository.scanApplication.
  cbn [DB.applications DB.with_applications].
  fold row. cbn [Application.ID].
  rewrite (find_app_fresh (DB.applications db) row uuid eq_refl Hfresh).
  unfold ApplicationHandler.respond.
  cbn [Application.Applicant Application.Scheme ApplicationRow.applicant_id
       ApplicationRow.scheme_id row].
  change (ApplicantRepository.GetByID (DB.with_applications db _) ?i)
    with (ApplicantRepository.GetByID db i).
  change (SchemeRepository.GetByID (DB.with_applications db _) ?i)
    with (SchemeRepository.GetByID db i).
  rewrite Happ, Hsch. reflexivity.
Qed.

(* ===================================================================== *)
(** ** Updates of an application (claims C3 and C10) *)
(* ===================================================================== *)

Section UpdateRows.

Variable set : ApplicationRow.t -> ApplicationRow.t.
Hypothesis set_id : forall r, ApplicationRow.id (set r) = ApplicationRow.id r.

Lemma find_update_same (id : string) (rows : list ApplicationRow.t) :
  find (fun r => (ApplicationRow.id r =? id)%string) (map (DB.update_row set id) rows) =
  option_map set (find (fun r => (ApplicationRow.id r =? id)%string) rows).
Proof.
  induction rows as [|r rows IH]; [reflexivity |].
  cbn [map find]. unfold DB.update_row at 1 2.
  destruct (ApplicationRow.id r =? id)%string eqn:E.
  - rewrite set_id, E. reflexivity.
  - rewrite E. exact IH.
Qed.

Lemma find_update_other (id id' : string) (rows : list ApplicationRow.t) :
  id' <> id ->
  find (fun r => (ApplicationRow.id r =? id')%string) (map (DB.update_row set id) rows) =
  find (fun r => (ApplicationRow.id r =? id')%string) rows.
Proof.
  intros Hne. induction rows as [|r rows IH]; [reflexivity |].
  cbn [map find]. unfold DB.update_row at 1 2.
  destruct (ApplicationRow.id r =? id)%string eqn:E.
  - rewrite set_id. apply String.eqb_eq in E. rewrite E.
    rewrite (string_eqb_neq_false id id') by congruence. exact IH.
  - destruct (ApplicationRow.id r =? id')%string; [reflexivity | exact IH].
Qed.

Lemma GetByID_update_same (db : DB.t) (id : string) :
  ApplicationRepository.GetByID (DB.update_application db id set) id =
  option_map (fun r => ApplicationRepository.scanApplication db (set r))
    (find (fun r => (ApplicationRow.id r =? id)%string) (DB.applications db)).
Proof.
  unfold ApplicationRepository.GetByID, DB.update_application.
  cbn [DB.applications DB.with_applications].
  rewrite (find_update_same id).
  destruct (find _ (DB.applications db)); reflexivity.
Qed.

Lemma GetByID_update_other (db : DB.t) (id id' : string) :
  id' <> id ->
  ApplicationRepository.GetByID (DB.update_application db id set) id' =
  ApplicationRepository.GetByID db id'.
Proof.
  intros Hne. unfold ApplicationRepository.GetByID, DB.update_application.
  cbn [DB.applications DB.with_applications].
  rewrite (find_update_other id id' _ Hne).
  destruct (find _ (DB.applications db)); reflexivity.
Qed.

End UpdateRows.

Lemma GetByID_found (db : DB.t) (id : string) (existing : Application.t) :
  ApplicationRepository.GetByID db id = Some existing ->
  exists r,
    find (fun r => (ApplicationRow.id r =? id)%string) (DB.applications db) = Some r /\
    existing = ApplicationRepository.scanApplication db r /\
    Application.ID existing = id.
Proof.
  unfold ApplicationRepository.GetByID.
  destruct (find _ (DB.applications db)) as [r|] eqn:Hfind; [| discriminate].
  intros [= <-]. exists r. split; [reflexivity |]. split; [reflexivity |].
  apply find_some in Hfind. now apply String.eqb_eq.
Qed.

(** What [UpdateApplication] does to an application that exists: one
    [UPDATE] of the row, then the answer built from the row read back. *)
Lemma UpdateApplication_found (now : Time.t) (db : DB.t) (id : string)
    (request : UpdateRequest.t) (existing : Application.t) :
  ApplicationRepository.GetByID db id = Some existing ->
  exists r,
    find (fun r => (ApplicationRow.id r =? id)%string) (DB.applications db) = Some r /\
    existing = ApplicationRepository.scanApplication db r /\
    let set :=
      ApplicationRepository.setUpdate (written_status request existing)
        (Application.DecisionDate existing) (written_notes request existing) now in
    let db' := DB.update_application db id set in
    ApplicationRepository.GetByID db' id =
      Some (ApplicationRepository.scanApplication db (set r)) /\
    ApplicationHandler.UpdateApplication now db id (inr request) =
      (ApplicationHandler.respond ApplicationHandler.StatusOK
         (ApplicationRepository.GetByID db' id), db').
Proof.
  intros Hget. destruct (GetByID_found db id existing Hget) as [r [Hfind [Hscan Hid]]].
  exists r. split; [exact Hfind |]. split; [exact Hscan |].
  intros set db'. split.
  - subst db'. rewrite GetByID_update_same by reflexivity. now rewrite Hfind.
  - unfold ApplicationHandler.UpdateApplication. rewrite Hget.
    unfold ApplicationRepository.Update, ApplicationRepository.touch.
    cbn [Application.ID Application.Status Application.Notes Application.DecisionDate
         Application.UpdatedAt].
    rewrite Hid. fold (written_status request existing) (written_notes request existing).
    destruct (Application.DecisionDate existing); reflexivity.
Qed.

(** The repository's [UpdateStatus] derives the decision date from the new
    status: the time of the update for "approved" and "rejected", [NULL] for
    any other status. *)
Lemma UpdateStatus_decision_date (now : Time.t) (db : DB.t) (id status : string)
    (existing : Application.t) :
  ApplicationRepository.GetByID db id = Some existing ->
  exists updated,
    ApplicationRepository.UpdateStatus now db id status
    = (None, DB.update_application db id
               (ApplicationRepository.setStatus status
                  (Application.DecisionDate updated) now)) /\
    ApplicationRepository.GetByID
      (snd (ApplicationRepository.UpdateStatus now db id status)) id = Some updated /\
    Application.Status updated = status /\
    (status = "approved" \/ status = "rejected" ->
     Application.DecisionDate updated = Some now) /\
    (status <> "approved" -> status <> "rejected" ->
     Application.DecisionDate updated = None).
Proof.
  intros Hget. destruct (GetByID_found db id existing Hget) as [r [Hfind _]].
  unfold ApplicationRepository.UpdateStatus. cbn [snd].
  rewrite GetByID_update_same by reflexivity. rewrite Hfind. cbn [option_map].
  eexists. split; [| split; [reflexivity |]]; cbn; [reflexivity |].
  split; [reflexivity |]. split.
  - intros [-> | ->]; reflexivity.
  - intros H1 H2. now rewrite !string_eqb_neq_false.
Qed.

(** C3, on the path the service runs: [UpdateApplication], which handles
    every status update, writes the new status and writes the decision date
    back as it read it.  A transition to "approved" or "rejected" does not
    set the decision date and a transition away from them does not clear
    it. *)
Theorem UpdateApplication_keeps_decision_date (now : Time.t) (db : DB.t) (id : string)
    (request : UpdateRequest.t) (existing : Application.t) :
  ApplicationRepository.GetByID db id = Some existing ->
  UpdateRequest.Status request <> "" ->
  exists updated,
    ApplicationRepository.GetByID
      (snd (ApplicationHandler.UpdateApplication now db id (inr request))) id
    = Some updated /\
    Application.Status updated = UpdateRequest.Status request /\
    Application.DecisionDate updated = Application.DecisionDate existing.
Proof.
  intros Hget Hstatus.
  destruct (UpdateApplication_found now db id request existing Hget)
    as [r [_ [_ [Hread Hrun]]]].
  rewrite Hrun. cbn [snd]. rewrite Hread. eexists. split; [reflexivity |].
  cbn. split; [| reflexivity].
  unfold written_status. now rewrite (string_eqb_neq_false _ _ Hstatus).
Qed.

(** C10, as amended: in [UpdateApplication] an empty status or an empty
    notes string means no change, and the value the application had is the
    value it reads back with, so neither can be cleared by an update; the
    identifier, the applicant and scheme identifiers, the application date,
    the decision date and the creation time are left as they were, every
    other application is untouched, and the update time is set to the time
    of the update. *)
Theorem UpdateApplication_keeps_unset_fields (now : Time.t) (db : DB.t) (id : string)
    (request : UpdateRequest.t) (existing : Application.t) :
  ApplicationRepository.GetByID db id = Some existing ->
  let result := ApplicationHandler.UpdateApplication now db id (inr request) in
  exists updated,
    ApplicationRepository.GetByID (snd result) id = Some updated /\
    fst result = ApplicationHandler.respond ApplicationHandler.StatusOK (Some updated) /\
    (UpdateRequest.Status request = "" ->
     Application.Status updated = Application.Status existing) /\
    (UpdateRequest.Notes request = "" ->
     Application.Notes updated = Application.Notes existing) /\
    (UpdateRequest.Status request <> "" ->
     Application.Status updated = UpdateRequest.Status request) /\
    (UpdateRequest.Notes request <> "" ->
     Application.Notes updated = UpdateRequest.Notes request) /\
    (Application.Status existing <> "" -> Application.Status updated <> "") /\
    (Application.Notes existing <> "" -> Application.Notes updated <> "") /\
    Application.ID updated = Application.ID existing /\
    Application.ApplicantID updated = Application.ApplicantID existing /\
    Application.SchemeID updated = Application.SchemeID existing /\
    Application.ApplicationDate updated = Application.ApplicationDate existing /\
    Application.DecisionDate updated = Application.DecisionDate existing /\
    Application.CreatedAt updated = Application.CreatedAt existing /\
    Application.Applicant updated = Application.Applicant existing /\
    Application.Scheme updated = Application.Scheme existing /\
    Application.UpdatedAt updated = now /\
    (forall id', id' <> id ->
       ApplicationRepository.GetByID (snd result) id' =
       ApplicationRepository.GetByID db id').
Proof.
  intros Hget result.
  destruct (UpdateApplication_found now db id request existing Hget)
    as [r [_ [Hscan [Hread Hrun]]]].
  subst result. rewrite Hrun. cbn [fst snd]. rewrite Hread.
  eexists. split; [reflexivity |]. split; [reflexivity |].
  assert (Hs : forall s1 s2 : string,
             (if negb (s1 =? "")%string then s1 else s2) <> "" \/ s2 = "").
  { intros s1 s2. destruct (String.eqb_spec s1 ""); cbn [negb]; [| now left].
    destruct (String.eqb_spec s2 ""); [now right | now left]. }
  cbn. unfold written_status, written_notes.
  repeat split; try (rewrite Hscan; reflexivity).
  - intros ->. reflexivity.
  - intros ->. reflexivity.
  - intros H. now rewrite (string_eqb_neq_false _ _ H).
  - intros H. now rewrite (string_eqb_neq_false _ _ H).
  - intros H. destruct (Hs (UpdateRequest.Status request) (Application.Status existing));
      [assumption | contradiction].
  - intros H. destruct (Hs (UpdateRequest.Notes request) (Application.Notes existing));
      [assumption | contradiction].
  - intros id' Hne. now apply GetByID_update_other.
Qed.

(* ===================================================================== *)
(** ** The sample data under the operations *)
(* ===================================================================== *)

Lemma String_leb_trans (s1 s2 s3 : string) :
  String.leb s1 s2 = true -> String.leb s2 s3 = true -> String.leb s1 s3 = true.
Proof.
  unfold String.leb.
  destruct (String.compare s1 s2) eqn:E12; [| | discriminate];
    (destruct (String.compare s2 s3) eqn:E23; [| | discriminate]); intros _ _.
  - apply String.compare_eq_iff in E12, E23. subst.
    pose proof (proj2 (OrderedTypeEx.String_as_OT.cmp_eq s3 s3) eq_refl) as H.
    unfold OrderedTypeEx.String_as_OT.cmp in H. now rewrite H.
  - apply String.compare_eq_iff in E12. subst. now rewrite E23.
  - apply String.compare_eq_iff in E23. subst. now rewrite E12.
  - apply OrderedTypeEx.String_as_OT.cmp_lt in E12, E23.
    pose proof (OrderedTypeEx.String_as_OT.lt_trans _ _ _ E12 E23) as H.
    apply OrderedTypeEx.String_as_OT.cmp_lt in H.
    unfold OrderedTypeEx.String_as_OT.cmp in H. now rewrite H.
Qed.

Lemma Sample_collation_total : collation_total Sample.db.
Proof. intros s1 s2. apply String.leb_total. Qed.

Lemma Sample_collation_transitive : collation_transitive Sample.db.
Proof. intros s1 s2 s3. apply String_leb_trans. Qed.

Example Sample_GetByID_mary :
  ApplicantRepository.GetByID Sample.db Sample.mary_id = Some Sample.mary.
Proof. reflexivity. Qed.

Example Sample_GetByID_james :
  ApplicantRepository.GetByID Sample.db Sample.james_id = Some Sample.james.
Proof. reflexivity. Qed.

Example Sample_GetByID_families :
  SchemeRepository.GetByID Sample.db Sample.families_id = Some Sample.families.
Proof. reflexivity. Qed.

Example Sample_GetAll :
  SchemeRepository.GetAll Sample.db = [Sample.retrenchment; Sample.families].
Proof. reflexivity. Qed.

(** Scenarios A, B and C of the specification. *)
Example Sample_james_eligible :
  SchemeRepository.GetEligibleSchemes Sample.today Sample.db Sample.james_id =
  inr [Sample.retrenchment].
Proof. reflexivity. Qed.

Example Sample_mary_eligible :
  SchemeRepository.GetEligibleSchemes Sample.today Sample.db Sample.mary_id =
  inr [Sample.retrenchment; Sample.families].
Proof. reflexivity. Qed.

Example Sample_unknown_applicant :
  SchemeRepository.GetEligibleSchemes Sample.today Sample.db "nobody" =
  inl "applicant not found: nobody".
Proof. reflexivity. Qed.

(* ===================================================================== *)
(** ** The claims at the sample data *)
(* ===================================================================== *)

(** Mary's daughter Gwen (born 2016) is 10 in 2026: the primary-school
    clause of the families scheme holds for her household. *)
Lemma primary_children_clause_witness :
  ChildCriteria.SchoolLevel (Criteria.HasChildren (Scheme.Criteria Sample.families))
  = "primary" /\
  (hasEligibleChild Sample.today "primary" (Applicant.Household Sample.mary) = true <->
   primary_child Sample.today (Applicant.Household Sample.mary)).
Proof.
  split; [reflexivity |].
  exact (proj1 (primary_children_clause Sample.today Sample.mary Sample.families eq_refl)).
Defined.

(** A scheme for secondary-school children accepts nobody, Mary included. *)
Lemma other_school_level_ineligible_witness :
  isEligible Sample.today Sample.mary Sample.secondary = false.
Proof.
  apply (other_school_level_ineligible Sample.today Sample.mary Sample.secondary);
    simpl; discriminate.
Defined.

(** James is unemployed: a scheme for the employed rejects him, and a
    scheme for the "Unemployed" accepts him. *)
Lemma status_mismatch_ineligible_witness :
  (fails_employment Sample.james (Scheme.Criteria Sample.workfare) /\
   isEligible Sample.today Sample.james Sample.workfare = false) /\
  (Criteria.EmploymentStatus (Scheme.Criteria Sample.retrenchment_titled) = "Unemployed" /\
   Applicant.EmploymentStatus Sample.james = "unemployed" /\
   isEligible Sample.today Sample.james Sample.retrenchment_titled = true).
Proof.
  assert (H : fails_employment Sample.james (Scheme.Criteria Sample.workfare)).
  { split; simpl; discriminate. }
  split; [split; [exact H |] | split; [reflexivity | split; [reflexivity |]]].
  - exact (proj1 (status_mismatch_ineligible Sample.today Sample.james Sample.workfare) H).
  - destruct (status_mismatch_ineligible Sample.today Sample.james
                Sample.retrenchment_titled) as [_ [_ [_ [_ [_ [_ [_ [Hspelt _]]]]]]]].
    apply Hspelt; [reflexivity | reflexivity |].
    left. split; reflexivity.
Defined.

Lemma empty_criteria_eligible_witness :
  isEligible Sample.today Sample.james Sample.open_scheme = true.
Proof.
  apply (empty_criteria_eligible Sample.today Sample.james Sample.open_scheme);
    reflexivity.
Defined.

Lemma GetEligibleSchemes_filter_witness :
  In Sample.mary_id (map ApplicantRow.id (DB.applicants Sample.db)) /\
  (exists applicant,
     ApplicantRepository.GetByID Sample.db Sample.mary_id = Some applicant /\
     SchemeRepository.GetEligibleSchemes Sample.today Sample.db Sample.mary_id =
     inr (filter (isEligible Sample.today applicant) (SchemeRepository.GetAll Sample.db))) /\
  StronglySorted (name_ordered Sample.db) (SchemeRepository.GetAll Sample.db).
Proof.
  assert (Hin : In Sample.mary_id (map ApplicantRow.id (DB.applicants Sample.db))).
  { simpl. right. left. reflexivity. }
  pose proof (GetEligibleSchemes_filter Sample.today Sample.db Sample.mary_id)
    as [_ [Hfound [_ Hsorted]]].
  split; [exact Hin |]. split; [exact (Hfound Hin) |].
  exact (proj1 (Hsorted Sample_collation_total Sample_collation_transitive)).
Defined.

(** C2, as stated, fails: Mary's youngest child Jayden (born 2018) is 12 on
    the last day of 2030 and 13 on the first day of 2031, when Gwen is 15.
    The same applicant and scheme, and the same database, give different
    answers on the two days. *)
Lemma isEligible_differs_across_years :
  isEligible (Time.mk 2030 12 31 0) Sample.mary Sample.families <>
  isEligible (Time.mk 2031 1 1 0) Sample.mary Sample.families /\
  SchemeRepository.GetEligibleSchemes (Time.mk 2030 12 31 0) Sample.db Sample.mary_id <>
  SchemeRepository.GetEligibleSchemes (Time.mk 2031 1 1 0) Sample.db Sample.mary_id.
Proof. split; vm_compute; discriminate. Qed.

Lemma isEligible_same_year_witness :
  Time.Year (Time.mk 2026 1 1 0) = Time.Year Sample.today /\
  isEligible (Time.mk 2026 1 1 0) Sample.mary Sample.families =
  isEligible Sample.today Sample.mary Sample.families.
Proof.
  split; [reflexivity |].
  exact (proj1 (isEligible_same_year (Time.mk 2026 1 1 0) Sample.today eq_refl)
           Sample.mary Sample.families).
Defined.

(** James has no household: he fails the children criterion of the families
    scheme, and his application is refused with the store left as it was. *)
Lemma gated_create_ineligible_witness :
  fails_some_criterion Sample.today Sample.james Sample.families /\
  ApplicationHandler.CreateApplication Sample.application_id Sample.today Sample.today
    Sample.db (inr (ApplicationRequest.mk Sample.james_id Sample.families_id "please")) =
  (ApplicationHandler.Error 500
     "Failed to create application: applicant is not eligible for this scheme",
   Sample.db).
Proof.
  assert (H : fails_some_criterion Sample.today Sample.james Sample.families).
  { apply isEligible_false_iff. reflexivity. }
  split; [exact H |].
  apply (proj2 (gated_create_ineligible Sample.application_id Sample.today Sample.today
                  Sample.db Sample.james_id Sample.families_id Sample.james
                  Sample.families eq_refl eq_refl H));
    discriminate.
Defined.

(** Mary is eligible for the families scheme: her application is stored as
    pending, dated with the time of the request. *)
Lemma gated_create_eligible_witness :
  ApplicationHandler.CreateApplication Sample.application_id Sample.today Sample.today
    Sample.db
    (inr (ApplicationRequest.mk Sample.mary_id Sample.families_id "first application")) =
  (ApplicationHandler.JSON 201
     (ApplicationResponse.mk Sample.application Sample.mary Sample.families),
   Sample.db1).
Proof.
  apply (gated_create_eligible Sample.application_id Sample.today Sample.today Sample.db
           (ApplicationRequest.mk Sample.mary_id Sample.families_id "first application")
           Sample.mary Sample.families).
  - discriminate.
  - discriminate.
  - reflexivity.
  - reflexivity.
  - reflexivity.
  - simpl. tauto.
Defined.

(** Approving Mary's pending application through [UpdateApplication] leaves
    it approved with no decision date. *)
Lemma UpdateApplication_keeps_decision_date_witness :
  ApplicationRepository.GetByID Sample.db1 Sample.application_id = Some Sample.application /\
  exists updated,
    ApplicationRepository.GetByID
      (snd (ApplicationHandler.UpdateApplication Sample.later Sample.db1
              Sample.application_id (inr (UpdateRequest.mk "approved" ""))))
      Sample.application_id = Some updated /\
    Application.Status updated = "approved" /\
    Application.DecisionDate updated = None.
Proof.
  split; [reflexivity |].
  apply (UpdateApplication_keeps_decision_date Sample.later Sample.db1
           Sample.application_id (UpdateRequest.mk "approved" "") Sample.application).
  - reflexivity.
  - discriminate.
Defined.

(** The same update through the repository's [UpdateStatus] would have set
    the decision date. *)
Example Sample_UpdateStatus_approved :
  option_map (fun a => (Application.Status a, Application.DecisionDate a))
    (ApplicationRepository.GetByID
       (snd (ApplicationRepository.UpdateStatus Sample.later Sample.db1
               Sample.application_id "approved"))
       Sample.application_id)
  = Some ("approved", Some Sample.later).
Proof. reflexivity. Qed.

Example Sample_UpdateApplication_approved :
  option_map (fun a => (Application.Status a, Application.DecisionDate a))
    (ApplicationRepository.GetByID
       (snd (ApplicationHandler.UpdateApplication Sample.later Sample.db1
               Sample.application_id (inr (UpdateRequest.mk "approved" ""))))
       Sample.application_id)
  = Some ("approved", None).
Proof. reflexivity. Qed.

(** C10, as stated, fails: an update with an empty status and empty notes
    still changes the application, whose update time becomes the time of
    the request. *)
Lemma UpdateApplication_sets_updated_at :
  ApplicationRepository.GetByID
    (snd (ApplicationHandler.UpdateApplication Sample.later Sample.db1
            Sample.application_id (inr (UpdateRequest.mk "" ""))))
    Sample.application_id
  <> ApplicationRepository.GetByID Sample.db1 Sample.application_id /\
  option_map Application.UpdatedAt
    (ApplicationRepository.GetByID
       (snd (ApplicationHandler.UpdateApplication Sample.later Sample.db1
               Sample.application_id (inr (UpdateRequest.mk "" ""))))
       Sample.application_id)
  = Some Sample.later /\
  option_map Application.UpdatedAt
    (ApplicationRepository.GetByID Sample.db1 Sample.application_id)
  = Some Sample.today.
Proof.
  split; [| split; reflexivity].
  intros H. apply (f_equal (option_map Application.UpdatedAt)) in H.
  vm_compute in H. discriminate.
Qed.

Lemma UpdateApplication_keeps_unset_fields_witness :
  ApplicationRepository.GetByID Sample.db1 Sample.application_id = Some Sample.application /\
  exists updated,
    ApplicationRepository.GetByID
      (snd (ApplicationHandler.UpdateApplication Sample.later Sample.db1
              Sample.application_id (inr (UpdateRequest.mk "" ""))))
      Sample.application_id = Some updated /\
    Application.Status updated = "pending" /\
    Application.Notes updated = "first application".
Proof.
  split; [reflexivity |].
  destruct (UpdateApplication_keeps_unset_fields Sample.later Sample.db1
              Sample.application_id (UpdateRequest.mk "" "") Sample.application eq_refl)
    as [updated [Hget [_ [Hstatus [Hnotes _]]]]].
  exists updated. split; [exact Hget |].
  split; [exact (Hstatus eq_refl) | exact (Hnotes eq_refl)].
Defined.

(** A [NULL] notes column reads as the empty string; an update with empty
    notes writes that empty string back. *)
Example Sample_UpdateApplication_null_notes :
  let row := ApplicationRow.mk Sample.application_id Sample.mary_id Sample.families_id
               "pending" Sample.today None None Sample.today Sample.today in
  DB.applications
    (snd (ApplicationHandler.UpdateApplication Sample.later
            (DB.with_applications Sample.db [row]) Sample.application_id
            (inr (UpdateRequest.mk "" ""))))
  = [ApplicationRow.mk Sample.application_id Sample.mary_id Sample.families_id
       "pending" Sample.today None (Some "") Sample.today Sample.later].
Proof. reflexivity. Qed.

(** The age boundaries on Gwen alone (born 2016): 6 in 2022 and 12 in 2028
    pass, 5 in 2021 and 13 in 2029 do not; month and day play no part. *)
Example Sample_age_boundaries :
  hasEligibleChild (Time.mk 2022 1 1 0) "primary" [Sample.gwen] = true /\
  hasEligibleChild (Time.mk 2028 12 31 0) "primary" [Sample.gwen] = true /\
  hasEligibleChild (Time.mk 2021 12 31 0) "primary" [Sample.gwen] = false /\
  hasEligibleChild (Time.mk 2029 1 1 0) "primary" [Sample.gwen] = false.
Proof. repeat split; reflexivity. Qed.

Example Sample_step_son :
  strings.Contains (strings.ToLower "Step-Son") "son" = true /\
  strings.Contains (strings.ToLower "spouse") "son" = false /\
  strings.Contains (strings.ToLower "spouse") "daughter" = false.
Proof. repeat split; reflexivity. Qed.

(** [Create] by itself defaults only an empty status: a status it is given
    is stored as given.  The handler always passes "pending". *)
Example Sample_Create_given_status :
  let a := Application.mk "" Sample.mary_id Sample.families_id "approved"
             zeroTime None "" zeroTime zeroTime None None in
  option_map ApplicationRow.status
    (hd_error (DB.applications
                 (snd (ApplicationRepository.Create Sample.application_id
                         Sample.today Sample.today Sample.db a))))
  = Some "approved".
Proof. reflexivity. Qed.

(* ===================================================================== *)
(** ** Orders: time, and [ORDER BY] on any column *)
(* ===================================================================== *)

Lemma Time_leb_total (t1 t2 : Time.t) : Time.leb t1 t2 = true \/ Time.leb t2 t1 = true.
Proof.
  unfold Time.leb.
  destruct (Z.ltb_spec (Time.Year t1) (Time.Year t2)); [now left |].
  destruct (Z.ltb_spec (Time.Year t2) (Time.Year t1)); [now right |].
  rewrite (proj2 (Z.eqb_eq (Time.Year t1) (Time.Year t2))) by lia.
  rewrite (proj2 (Z.eqb_eq (Time.Year t2) (Time.Year t1))) by lia.
  destruct (Z.ltb_spec (Time.Month t1) (Time.Month t2)); [now left |].
  destruct (Z.ltb_spec (Time.Month t2) (Time.Month t1)); [now right |].
  rewrite (proj2 (Z.eqb_eq (Time.Month t1) (Time.Month t2))) by lia.
  rewrite (proj2 (Z.eqb_eq (Time.Month t2) (Time.Month t1))) by lia.
  destruct (Z.ltb_spec (Time.Day t1) (Time.Day t2)); [now left |].
  destruct (Z.ltb_spec (Time.Day t2) (Time.Day t1)); [now right |].
  rewrite (proj2 (Z.eqb_eq (Time.Day t1) (Time.Day t2))) by lia.
  rewrite (proj2 (Z.eqb_eq (Time.Day t2) (Time.Day t1))) by lia.
  cbn [orb andb].
  destruct (Z.leb_spec (Time.Nanos t1) (Time.Nanos t2)); [now left |].
  right. apply Z.leb_le. lia.
Qed.

Lemma Time_leb_iff (t1 t2 : Time.t) :
  Time.leb t1 t2 = true <->
  Time.Year t1 < Time.Year t2 \/
  Time.Year t1 = Time.Year t2 /\
  (Time.Month t1 < Time.Month t2 \/
   Time.Month t1 = Time.Month t2 /\
   (Time.Day t1 < Time.Day t2 \/
    Time.Day t1 = Time.Day t2 /\ Time.Nanos t1 <= Time.Nanos t2)).
Proof.
  unfold Time.leb.
  repeat (rewrite orb_true_iff || rewrite andb_true_iff).
  now rewrite !Z.ltb_lt, !Z.eqb_eq, Z.leb_le.
Qed.

Lemma Time_leb_trans (t1 t2 t3 : Time.t) :
  Time.leb t1 t2 = true -> Time.leb t2 t3 = true -> Time.leb t1 t3 = true.
Proof. rewrite !Time_leb_iff. lia. Qed.

Section OrderOn.

Context {A K : Type}.
Variable le : K -> K -> bool.
Variable key : A -> K.

Lemma insert_on_perm (x : A) (l : list A) :
  Permutation (DB.insert_on le key x l) (x :: l).
Proof.
  induction l as [|y l IH]; simpl; [apply Permutation_refl |].
  destruct (le (key x) (key y)); [apply Permutation_refl |].
  eapply perm_trans; [apply perm_skip, IH | apply perm_swap].
Qed.

Lemma order_on_perm (l : list A) : Permutation (DB.order_on le key l) l.
Proof.
  induction l as [|x l IH]; simpl; [apply perm_nil |].
  eapply perm_trans; [apply insert_on_perm | apply perm_skip, IH].
Qed.

Hypothesis le_total : forall k1 k2, le k1 k2 = true \/ le k2 k1 = true.
Hypothesis le_trans : forall k1 k2 k3, le k1 k2 = true -> le k2 k3 = true -> le k1 k3 = true.

Lemma insert_on_sorted (x : A) (l : list A) :
  StronglySorted (ordered_on le key) l ->
  StronglySorted (ordered_on le key) (DB.insert_on le key x l).
Proof.
  unfold ordered_on. induction 1 as [|y l Hs IH Hall]; simpl.
  - constructor; constructor.
  - destruct (le (key x) (key y)) eqn:Hxy.
    + constructor; [now constructor |].
      constructor; [exact Hxy |].
      eapply Forall_impl; [| exact Hall].
      intros z Hyz. exact (le_trans _ _ _ Hxy Hyz).
    + constructor; [exact IH |].
      eapply Permutation_Forall; [apply Permutation_sym, insert_on_perm |].
      constructor; [| exact Hall].
      destruct (le_total (key x) (key y)) as [H | H]; [congruence | exact H].
Qed.

Lemma order_on_sorted (l : list A) :
  StronglySorted (ordered_on le key) (DB.order_on le key l).
Proof.
  induction l as [|x l IH]; simpl; [constructor | now apply insert_on_sorted].
Qed.

End OrderOn.

Lemma newest_first_total (t1 t2 : Time.t) :
  DB.newest_first t1 t2 = true \/ DB.newest_first t2 t1 = true.
Proof. unfold DB.newest_first. destruct (Time_leb_total t1 t2); tauto. Qed.

Lemma newest_first_trans (t1 t2 t3 : Time.t) :
  DB.newest_first t1 t2 = true -> DB.newest_first t2 t3 = true ->
  DB.newest_first t1 t3 = true.
Proof. unfold DB.newest_first. intros H12 H23. exact (Time_leb_trans _ _ _ H23 H12). Qed.

(* ===================================================================== *)
(** ** Creating applications: success, refusal, and what is stored *)
(* ===================================================================== *)

Lemma with_applications_same (db : DB.t) :
  DB.with_applications db (DB.applications db) = db.
Proof. destruct db; reflexivity. Qed.

Lemma existsb_id_iff (rows : list ApplicationRow.t) (id : string) :
  existsb (fun r => (ApplicationRow.id r =? id)%string) rows = true <->
  In id (map ApplicationRow.id rows).
Proof.
  rewrite existsb_exists, in_map_iff. split.
  - intros [r [Hin Heq]]. apply String.eqb_eq in Heq. now exists r.
  - intros [r [Heq Hin]]. exists r. split; [exact Hin | now apply String.eqb_eq].
Qed.

(** The application [Create] leaves in [*a] once the checks have passed. *)
Lemma Create_checked (uuid : string) (today now : Time.t) (db : DB.t)
    (a : Application.t) (applicant : Applicant.t) (scheme : Scheme.t) :
  ApplicantRepository.GetByID db (Application.ApplicantID a) = Some applicant ->
  SchemeRepository.GetByID db (Application.SchemeID a) = Some scheme ->
  isEligible today applicant scheme = true ->
  let a' :=
    {| Application.ID :=
         if (Application.ID a =? "")%string then uuid else Application.ID a;
       Application.ApplicantID := Application.ApplicantID a;
       Application.SchemeID := Application.SchemeID a;
       Application.Status :=
         if (Application.Status a =? "")%string then "pending" else Application.Status a;
       Application.ApplicationDate := now;
       Application.DecisionDate := Application.DecisionDate a;
       Application.Notes := Application.Notes a;
       Application.CreatedAt := now;
       Application.UpdatedAt := now;
       Application.Applicant := Application.Applicant a;
       Application.Scheme := Application.Scheme a |} in
  ApplicationRepository.Create uuid today now db a =
  match DB.insert_application db (ApplicationRepository.insertedRow a') with
  | inl err => (Some ("error creating application: " ++ err)%string, a', db)
  | inr db' => (None, a', db')
  end.
Proof.
  intros Happ Hsch Helig. unfold ApplicationRepository.Create.
  now rewrite Happ, Hsch, Helig.
Qed.

(** X1.  [Create] followed by [GetByID]: when the applicant and the scheme
    exist, the applicant is eligible, the status is empty or one the column
    accepts, and the identifier (the one given, or the generated one when
    none is given) is not taken, [Create] succeeds,
    appends one row, and the application reads back with the identifiers,
    status (defaulted to "pending" when empty), notes and times of [*a], the
    applicant and the scheme loaded, and no decision date, whatever decision
    date [*a] carried. *)
Theorem Create_then_GetByID (uuid : string) (today now : Time.t) (db : DB.t)
    (a : Application.t) (applicant : Applicant.t) (scheme : Scheme.t) :
  ApplicantRepository.GetByID db (Application.ApplicantID a) = Some applicant ->
  SchemeRepository.GetByID db (Application.SchemeID a) = Some scheme ->
  isEligible today applicant scheme = true ->
  Application.Status a = "" \/ accepted_status (Application.Status a) ->
  let id := if (Application.ID a =? "")%string then uuid else Application.ID a in
  ~ In id (map ApplicationRow.id (DB.applications db)) ->
  let status :=
    if (Application.Status a =? "")%string then "pending" else Application.Status a in
  let row :=
    {| ApplicationRow.id := id;
       ApplicationRow.applicant_id := Application.ApplicantID a;
       ApplicationRow.scheme_id := Application.SchemeID a;
       ApplicationRow.status := status;
       ApplicationRow.application_date := now;
       ApplicationRow.decision_date := None;
       ApplicationRow.notes := Some (Application.Notes a);
       ApplicationRow.created_at := now;
       ApplicationRow.updated_at := now |} in
  let result := ApplicationRepository.Create uuid today now db a in
  fst (fst result) = None /\
  Application.ID (snd (fst result)) = id /\
  snd result = DB.with_applications db (DB.applications db ++ [row])%list /\
  ApplicationRepository.GetByID (snd result) id =
  Some {| Application.ID := id;
          Application.ApplicantID := Application.ApplicantID a;
          Application.SchemeID := Application.SchemeID a;
          Application.Status := status;
          Application.ApplicationDate := now;
          Application.DecisionDate := None;
          Application.Notes := Application.Notes a;
          Application.CreatedAt := now;
          Application.UpdatedAt := now;
          Application.Applicant := Some applicant;
          Application.Scheme := Some scheme |}.
Proof.
  intros Happ Hsch Helig _ id Hfresh status row result. subst result.
  rewrite (Create_checked uuid today now db a applicant scheme Happ Hsch Helig).
  unfold DB.insert_application, ApplicationRepository.insertedRow.
  cbn [ApplicationRow.id Application.ID Application.ApplicantID Application.SchemeID
       Application.Status Application.ApplicationDate Application.Notes
       Application.CreatedAt Application.UpdatedAt].
  fold id status row.
  rewrite (existsb_id_false _ _ Hfresh). cbn [fst snd Application.ID].
  split; [reflexivity |]. split; [reflexivity |]. split; [reflexivity |].
  unfold ApplicationRepository.GetByID. cbn [DB.applications DB.with_applications].
  rewrite (find_app_fresh (DB.applications db) row id eq_refl Hfresh).
  unfold ApplicationRepository.scanApplication.
  cbn [ApplicationRow.id ApplicationRow.applicant_id ApplicationRow.scheme_id
       ApplicationRow.status ApplicationRow.application_date
       ApplicationRow.decision_date ApplicationRow.notes ApplicationRow.created_at
       ApplicationRow.updated_at row].
  change (ApplicantRepository.GetByID (DB.with_applications db _) ?i)
    with (ApplicantRepository.GetByID db i).
  change (SchemeRepository.GetByID (DB.with_applications db _) ?i)
    with (SchemeRepository.GetByID db i).
  now rewrite Happ, Hsch.
Qed.

(** What [Create] does to the table: nothing, or one row appended under
    an identifier that was free. *)
Lemma Create_appends_or_keeps (uuid : string) (today now : Time.t) (db : DB.t)
    (a : Application.t) :
  snd (ApplicationRepository.Create uuid today now db a) = db \/
  exists row,
    ~ In (ApplicationRow.id row) (map ApplicationRow.id (DB.applications db)) /\
    snd (ApplicationRepository.Create uuid today now db a) =
    DB.with_applications db (DB.applications db ++ [row])%list.
Proof.
  unfold ApplicationRepository.Create.
  destruct (ApplicantRepository.GetByID db (Application.ApplicantID a)); [| now left].
  destruct (SchemeRepository.GetByID db (Application.SchemeID a)); [| now left].
  destruct (negb (isEligible today _ _)); [now left |].
  unfold DB.insert_application.
  match goal with
  | |- context [existsb ?p (DB.applications db)] =>
      destruct (existsb p (DB.applications db)) eqn:Hex
  end; [now left |].
  right. eexists. split; [| reflexivity].
  intros Hin. apply existsb_id_iff in Hin. congruence.
Qed.

(** X2.  [Create] returns no error only when the applicant exists, the
    scheme exists, the applicant is eligible for the scheme and the
    identifier was free, and then exactly one row has been appended;
    whenever it returns an error, the database is left as it was. *)
Theorem Create_only_when_eligible (uuid : string) (today now : Time.t) (db : DB.t)
    (a : Application.t) :
  let result := ApplicationRepository.Create uuid today now db a in
  (fst (fst result) = None ->
   exists applicant scheme,
     ApplicantRepository.GetByID db (Application.ApplicantID a) = Some applicant /\
     SchemeRepository.GetByID db (Application.SchemeID a) = Some scheme /\
     isEligible today applicant scheme = true /\
     ~ In (Application.ID (snd (fst result)))
          (map ApplicationRow.id (DB.applications db)) /\
     snd result =
       DB.with_applications db
         (DB.applications db ++
          [ApplicationRepository.insertedRow (snd (fst result))])%list) /\
  (fst (fst result) <> None -> snd result = db).
Proof.
  intros result. subst result.
  destruct (ApplicantRepository.GetByID db (Application.ApplicantID a))
    as [applicant|] eqn:Happ.
  2:{ unfold ApplicationRepository.Create. rewrite Happ. cbn [fst snd].
      split; [discriminate | reflexivity]. }
  destruct (SchemeRepository.GetByID db (Application.SchemeID a)) as [scheme|] eqn:Hsch.
  2:{ unfold ApplicationRepository.Create. rewrite Happ, Hsch. cbn [fst snd].
      split; [discriminate | reflexivity]. }
  destruct (isEligible today applicant scheme) eqn:Helig.
  2:{ unfold ApplicationRepository.Create. rewrite Happ, Hsch, Helig. cbn [fst snd negb].
      split; [discriminate | reflexivity]. }
  rewrite (Create_checked uuid today now db a applicant scheme Happ Hsch Helig).
  unfold DB.insert_application.
  match goal with
  | |- context [existsb ?p (DB.applications db)] =>
      destruct (existsb p (DB.applications db)) eqn:Hex
  end; cbn [fst snd].
  - split; [discriminate | reflexivity].
  - split; [intros _ | congruence].
    exists applicant, scheme.
    split; [reflexivity |]. split; [reflexivity |]. split; [exact Helig |].
    split; [| reflexivity].
    intros Hin. apply existsb_id_iff in Hin.
    cbn [ApplicationRepository.insertedRow ApplicationRow.id] in Hex. congruence.
Qed.

Lemma GetByID_appended (db : DB.t) (row : ApplicationRow.t) (id : string) :
  ApplicationRow.id row = id ->
  ~ In id (map ApplicationRow.id (DB.applications db)) ->
  ApplicationRepository.GetByID
    (DB.with_applications db (DB.applications db ++ [row])%list) id
  = Some (ApplicationRepository.scanApplication db row).
Proof.
  intros Hid Hfresh. unfold ApplicationRepository.GetByID.
  cbn [DB.applications DB.with_applications].
  now rewrite (find_app_fresh (DB.applications db) row id Hid Hfresh).
Qed.

(** What [CreateApplication] does to the table: an error and nothing, or
    one row appended under the generated identifier, which was free. *)
Lemma CreateApplication_created (uuid : string) (today now : Time.t) (db : DB.t)
    (body : string + ApplicationRequest.t) :
  (exists code msg,
     fst (ApplicationHandler.CreateApplication uuid today now db body) =
       ApplicationHandler.Error code msg /\
     snd (ApplicationHandler.CreateApplication uuid today now db body) = db) \/
  (exists row,
     ApplicationRow.id row = uuid /\
     ~ In (ApplicationRow.id row) (map ApplicationRow.id (DB.applications db)) /\
     snd (ApplicationHandler.CreateApplication uuid today now db body) =
       DB.with_applications db (DB.applications db ++ [row])%list).
Proof.
  unfold ApplicationHandler.CreateApplication.
  destruct body as [err | request]; [left; do 2 eexists; split; reflexivity |].
  destruct (ApplicationRequest.ApplicantID request =? "")%string;
    [left; do 2 eexists; split; reflexivity |].
  destruct (ApplicationRequest.SchemeID request =? "")%string;
    [left; do 2 eexists; split; reflexivity |].
  destruct (ApplicantRepository.GetByID db (ApplicationRequest.ApplicantID request))
    as [applicant|] eqn:Happ; [| left; do 2 eexists; split; reflexivity].
  destruct (SchemeRepository.GetByID db (ApplicationRequest.SchemeID request))
    as [scheme|] eqn:Hsch; [| left; do 2 eexists; split; reflexivity].
  unfold ApplicationRepository.Create.
  cbn [Application.ApplicantID Application.SchemeID Application.ID].
  rewrite Happ, Hsch.
  destruct (negb (isEligible today applicant scheme));
    [left; do 2 eexists; split; reflexivity |].
  unfold DB.insert_application.
  cbn [ApplicationRepository.insertedRow ApplicationRow.id Application.ID].
  change ("" =? "")%string with true. cbv iota.
  destruct (existsb _ (DB.applications db)) eqn:Hex;
    [left; do 2 eexists; split; reflexivity |].
  right. eexists. split; [| split; [| reflexivity]].
  - reflexivity.
  - cbn [ApplicationRow.id ApplicationRepository.insertedRow Application.ID].
    intros Hin. apply existsb_id_iff in Hin. congruence.
Qed.

(** The answer of a successful [CreateApplication] is the new row as it
    reads back. *)
Lemma CreateApplication_stored (uuid : string) (today now : Time.t) (db : DB.t)
    (body : string + ApplicationRequest.t) :
  (exists code msg,
     fst (ApplicationHandler.CreateApplication uuid today now db body) =
       ApplicationHandler.Error code msg /\
     snd (ApplicationHandler.CreateApplication uuid today now db body) = db) \/
  (exists row applicant scheme,
     (ApplicantRepository.GetByID db (ApplicationRow.applicant_id row) = Some applicant /\
      SchemeRepository.GetByID db (ApplicationRow.scheme_id row) = Some scheme) /\
     fst (ApplicationHandler.CreateApplication uuid today now db body) =
       ApplicationHandler.JSON ApplicationHandler.StatusCreated
         (ApplicationResponse.mk (ApplicationRepository.scanApplication db row)
            applicant scheme) /\
     ApplicationRepository.GetByID
       (snd (ApplicationHandler.CreateApplication uuid today now db body)) uuid =
       Some (ApplicationRepository.scanApplication db row)).
Proof.
  unfold ApplicationHandler.CreateApplication.
  destruct body as [err | request]; [left; do 2 eexists; split; reflexivity |].
  destruct (ApplicationRequest.ApplicantID request =? "")%string;
    [left; do 2 eexists; split; reflexivity |].
  destruct (ApplicationRequest.SchemeID request =? "")%string;
    [left; do 2 eexists; split; reflexivity |].
  destruct (ApplicantRepository.GetByID db (ApplicationRequest.ApplicantID request))
    as [applicant|] eqn:Happ; [| left; do 2 eexists; split; reflexivity].
  destruct (SchemeRepository.GetByID db (ApplicationRequest.SchemeID request))
    as [scheme|] eqn:Hsch; [| left; do 2 eexists; split; reflexivity].
  unfold ApplicationRepository.Create.
  cbn [Application.ApplicantID Application.SchemeID Application.ID].
  rewrite Happ, Hsch.
  destruct (negb (isEligible today applicant scheme));
    [left; do 2 eexists; split; reflexivity |].
  unfold DB.insert_application.
  cbn [ApplicationRepository.insertedRow ApplicationRow.id Application.ID].
  change ("" =? "")%string with true. cbv iota.
  destruct (existsb _ (DB.applications db)) eqn:Hex;
    [left; do 2 eexists; split; reflexivity |].
  assert (Hfresh : ~ In uuid (map ApplicationRow.id (DB.applications db))).
  { intros Hin. apply existsb_id_iff in Hin. congruence. }
  right. cbn [fst snd Application.ID].
  match goal with
  | |- context [DB.with_applications db (_ ++ [?r])%list] => set (row := r)
  end.
  exists row, applicant, scheme.
  rewrite (GetByID_appended db row uuid eq_refl Hfresh).
  split; [split; [exact Happ | exact Hsch] |]. split; [| reflexivity].
  unfold ApplicationHandler.respond. subst row.
  cbn [ApplicationRepository.scanApplication ApplicationRepository.insertedRow
       Application.Applicant Application.Scheme Application.ApplicantID
       Application.SchemeID ApplicationRow.applicant_id ApplicationRow.scheme_id].
  now rewrite Happ, Hsch.
Qed.

(** X3.  [CreateApplication] is all or nothing and never panics: either it
    answers with an error and the database is left as it was, or the
    applicant and the scheme exist, the applicant is eligible, and it
    answers 201 with the stored application after appending exactly one
    row, pending, dated now, with the generated identifier. *)
Theorem CreateApplication_all_or_nothing (uuid : string) (today now : Time.t)
    (db : DB.t) (body : string + ApplicationRequest.t) :
  let result := ApplicationHandler.CreateApplication uuid today now db body in
  (exists code msg,
     fst result = ApplicationHandler.Error code msg /\ snd result = db) \/
  (exists request applicant scheme,
     body = inr request /\
     ApplicantRepository.GetByID db (ApplicationRequest.ApplicantID request)
       = Some applicant /\
     SchemeRepository.GetByID db (ApplicationRequest.SchemeID request) = Some scheme /\
     isEligible today applicant scheme = true /\
     let row :=
       {| ApplicationRow.id := uuid;
          ApplicationRow.applicant_id := ApplicationRequest.ApplicantID request;
          ApplicationRow.scheme_id := ApplicationRequest.SchemeID request;
          ApplicationRow.status := "pending";
          ApplicationRow.application_date := now;
          ApplicationRow.decision_date := None;
          ApplicationRow.notes := Some (ApplicationRequest.Notes request);
          ApplicationRow.created_at := now;
          ApplicationRow.updated_at := now |} in
     snd result = DB.with_applications db (DB.applications db ++ [row])%list /\
     fst result =
       ApplicationHandler.JSON ApplicationHandler.StatusCreated
         (ApplicationResponse.mk (ApplicationRepository.scanApplication db row)
            applicant scheme)).
Proof.
  intros result. subst result. unfold ApplicationHandler.CreateApplication.
  destruct body as [err | request]; [left; do 2 eexists; split; reflexivity |].
  destruct (ApplicationRequest.ApplicantID request =? "")%string; [left; do 2 eexists; split; reflexivity |].
  destruct (ApplicationRequest.SchemeID request =? "")%string; [left; do 2 eexists; split; reflexivity |].
  destruct (ApplicantRepository.GetByID db (ApplicationRequest.ApplicantID request))
    as [applicant|] eqn:Happ; [| left; do 2 eexists; split; reflexivity].
  destruct (SchemeRepository.GetByID db (ApplicationRequest.SchemeID request))
    as [scheme|] eqn:Hsch; [| left; do 2 eexists; split; reflexivity].
  destruct (isEligible today applicant scheme) eqn:Helig.
  - match goal with
    | |- context [ApplicationRepository.Create _ _ _ _ ?a] =>
        rewrite (Create_checked uuid today now db a applicant scheme Happ Hsch Helig)
    end.
    unfold DB.insert_application, ApplicationRepository.insertedRow.
    cbn [ApplicationRow.id Application.ID Application.ApplicantID Application.SchemeID
         Application.Status Application.ApplicationDate Application.Notes
         Application.CreatedAt Application.UpdatedAt].
    rewrite String.eqb_refl. change ("pending" =? "")%string with false. cbv iota.
    pose proof (existsb_id_iff (DB.applications db) uuid) as Hex.
    destruct (existsb _ (DB.applications db)); [left; do 2 eexists; split; reflexivity |].
    right. exists request, applicant, scheme.
    split; [reflexivity |]. split; [exact Happ |]. split; [exact Hsch |].
    split; [exact Helig |]. cbn [fst snd].
    set (row := ApplicationRow.mk uuid _ _ _ _ _ _ _ _).
    split; [reflexivity |].
    assert (Hfresh : ~ In uuid (map ApplicationRow.id (DB.applications db))).
    { intros Hin. apply Hex in Hin. discriminate. }
    cbn [Application.ID].
    rewrite (GetByID_appended db row uuid eq_refl Hfresh).
    unfold ApplicationHandler.respond, ApplicationRepository.scanApplication at 1 2.
    cbn [Application.Applicant Application.Scheme ApplicationRow.applicant_id
         ApplicationRow.scheme_id row].
    now rewrite Happ, Hsch.
  - left. unfold ApplicationRepository.Create.
    cbn [Application.ApplicantID Application.SchemeID].
    rewrite Happ, Hsch, Helig. cbn [negb fst snd].
    do 2 eexists; split; reflexivity.
Qed.

(* ===================================================================== *)
(** ** Invariants of the [applications] table *)
(* ===================================================================== *)

Lemma SchemeRepository_GetByID_none (db : DB.t) (id : string) :
  SchemeRepository.GetByID db id = None <-> ~ In id (map SchemeRow.id (DB.schemes db)).
Proof.
  unfold SchemeRepository.GetByID.
  destruct (find _ (DB.schemes db)) as [r|] eqn:Hfind.
  - split; [discriminate |]. intros Habs. exfalso. apply Habs.
    apply find_some in Hfind. destruct Hfind as [Hin Heq].
    apply String.eqb_eq in Heq. subst id. now apply in_map.
  - split; [intros _ | reflexivity]. intros Hin. apply in_map_iff in Hin.
    destruct Hin as [r [Hid Hin]].
    rewrite find_none_iff in Hfind. specialize (Hfind r Hin). cbv beta in Hfind.
    rewrite Hid, String.eqb_refl in Hfind. discriminate.
Qed.

Lemma In_dec_string (s : string) (l : list string) : In s l \/ ~ In s l.
Proof. destruct (in_dec string_dec s l); tauto. Qed.

Lemma applicant_exists_iff (db : DB.t) (id : string) :
  ApplicantRepository.GetByID db id <> None <->
  In id (map ApplicantRow.id (DB.applicants db)).
Proof.
  rewrite ApplicantRepository_GetByID_none.
  destruct (In_dec_string id (map ApplicantRow.id (DB.applicants db))); tauto.
Qed.

Lemma scheme_exists_iff (db : DB.t) (id : string) :
  SchemeRepository.GetByID db id <> None <-> In id (map SchemeRow.id (DB.schemes db)).
Proof.
  rewrite SchemeRepository_GetByID_none.
  destruct (In_dec_string id (map SchemeRow.id (DB.schemes db))); tauto.
Qed.

Lemma update_row_refs (set : ApplicationRow.t -> ApplicationRow.t) (id : string)
    (rows : list ApplicationRow.t) (P : ApplicationRow.t -> Prop) :
  (forall r, P r -> P (set r)) ->
  (forall r, In r rows -> P r) ->
  forall r, In r (map (DB.update_row set id) rows) -> P r.
Proof.
  intros Hset Hall r Hin. apply in_map_iff in Hin. destruct Hin as [r0 [<- Hin0]].
  unfold DB.update_row. destruct (ApplicationRow.id r0 =? id)%string; auto.
Qed.

(** X5.  The references of the applications survive every write of the
    repository: if every application row refers to an applicant row and to a
    scheme row, that still holds after [Create] (which checks both before it
    inserts), [Update], [UpdateStatus] and [Delete]. *)
Theorem application_refs_preserved (db : DB.t) :
  application_refs_ok db ->
  (forall uuid today now a,
     application_refs_ok (snd (ApplicationRepository.Create uuid today now db a))) /\
  (forall now a, application_refs_ok (snd (ApplicationRepository.Update now db a))) /\
  (forall now id status,
     application_refs_ok (snd (ApplicationRepository.UpdateStatus now db id status))) /\
  (forall id, application_refs_ok (snd (ApplicationRepository.Delete db id))).
Proof.
  unfold application_refs_ok. intros Hok. split; [| split; [| split]].
  - intros uuid today now a. unfold ApplicationRepository.Create.
    destruct (ApplicantRepository.GetByID db (Application.ApplicantID a))
      as [applicant|] eqn:Happ; [| exact Hok].
    destruct (SchemeRepository.GetByID db (Application.SchemeID a))
      as [scheme|] eqn:Hsch; [| exact Hok].
    destruct (negb (isEligible today applicant scheme)); [exact Hok |].
    unfold DB.insert_application.
    match goal with
    | |- context [existsb ?p (DB.applications db)] =>
        destruct (existsb p (DB.applications db))
    end; [exact Hok |].
    cbn [snd DB.applications DB.applicants DB.schemes DB.with_applications].
    intros r Hin. apply in_app_or in Hin. destruct Hin as [Hin | [<- | []]].
    + now apply Hok.
    + cbn [ApplicationRepository.insertedRow ApplicationRow.applicant_id
           ApplicationRow.scheme_id Application.ApplicantID Application.SchemeID].
      split.
      * apply applicant_exists_iff. congruence.
      * apply scheme_exists_iff. congruence.
  - intros now a.
    cbn [snd ApplicationRepository.Update DB.update_application DB.applications
         DB.applicants DB.schemes DB.with_applications].
    apply update_row_refs; [| exact Hok]. intros r Hr. exact Hr.
  - intros now id status.
    cbn [snd ApplicationRepository.UpdateStatus DB.update_application DB.applications
         DB.applicants DB.schemes DB.with_applications].
    apply update_row_refs; [| exact Hok]. intros r Hr. exact Hr.
  - intros id.
    cbn [snd ApplicationRepository.Delete DB.delete_application DB.applications
         DB.applicants DB.schemes DB.with_applications].
    intros r Hin. apply filter_In in Hin. now apply Hok.
Qed.

(* ===================================================================== *)
(** ** Listing applications *)
(* ===================================================================== *)

Lemma appendResponses_spec (applications : list Application.t)
    (response : list ApplicationResponse.t) :
  map ApplicationResponse.Application
    (ApplicationHandler.appendResponses applications response) =
  (map ApplicationResponse.Application response ++
   filter has_applicant_and_scheme applications)%list /\
  ((forall resp, In resp response ->
      Application.Applicant (ApplicationResponse.Application resp) =
        Some (ApplicationResponse.Applicant resp) /\
      Application.Scheme (ApplicationResponse.Application resp) =
        Some (ApplicationResponse.Scheme resp)) ->
   forall resp, In resp (ApplicationHandler.appendResponses applications response) ->
      Application.Applicant (ApplicationResponse.Application resp) =
        Some (ApplicationResponse.Applicant resp) /\
      Application.Scheme (ApplicationResponse.Application resp) =
        Some (ApplicationResponse.Scheme resp)).
Proof.
  revert response. induction applications as [|a rest IH]; intros response; simpl.
  - split; [now rewrite app_nil_r | auto].
  - unfold has_applicant_and_scheme.
    destruct (Application.Applicant a) as [applicant|] eqn:Ha;
      [destruct (Application.Scheme a) as [scheme|] eqn:Hs |];
      destruct (IH response) as [IH1 IH2]; try (split; assumption).
    destruct (IH (response ++ [ApplicationResponse.mk a applicant scheme])%list)
      as [IH1' IH2'].
    split.
    + rewrite IH1', map_app, <- app_assoc. reflexivity.
    + intros Hresp. apply IH2'. intros resp Hin.
      apply in_app_or in Hin. destruct Hin as [Hin | [<- | []]]; [now apply Hresp |].
      simpl. now rewrite Ha, Hs.
Qed.

Lemma ApplicationRepository_GetAll_perm (db : DB.t) :
  Permutation (ApplicationRepository.GetAll db)
    (map (ApplicationRepository.scanApplication db) (DB.applications db)).
Proof. unfold ApplicationRepository.GetAll. apply Permutation_map, order_on_perm. Qed.

Lemma ApplicationRepository_GetAll_sorted (db : DB.t) :
  StronglySorted not_older (ApplicationRepository.GetAll db).
Proof.
  unfold ApplicationRepository.GetAll. apply (StronglySorted_map not_older).
  exact (order_on_sorted DB.newest_first ApplicationRow.application_date
           newest_first_total newest_first_trans (DB.applications db)).
Qed.

Lemma scanApplication_complete (db : DB.t) (r : ApplicationRow.t) :
  In (ApplicationRow.applicant_id r) (map ApplicantRow.id (DB.applicants db)) ->
  In (ApplicationRow.scheme_id r) (map SchemeRow.id (DB.schemes db)) ->
  has_applicant_and_scheme (ApplicationRepository.scanApplication db r) = true.
Proof.
  intros Ha Hs. apply applicant_exists_iff in Ha. apply scheme_exists_iff in Hs.
  unfold has_applicant_and_scheme, ApplicationRepository.scanApplication.
  cbn [Application.Applicant Application.Scheme].
  destruct (ApplicantRepository.GetByID db _); [| congruence].
  destruct (SchemeRepository.GetByID db _); [reflexivity | congruence].
Qed.

Lemma filter_all {A : Type} (p : A -> bool) (l : list A) :
  (forall x, In x l -> p x = true) -> filter p l = l.
Proof.
  induction l as [|x l IH]; simpl; intros H; [reflexivity |].
  rewrite (H x (or_introl eq_refl)). f_equal. apply IH. intros y Hy. apply H. now right.
Qed.

(** X6.  [GetApplications] answers with the applications of [GetAll] that
    carry both their applicant and their scheme, in the order of [GetAll],
    which is every application row, newest application date first; each
    entry is paired with the applicant and scheme it refers to.  When every
    row refers to an existing applicant and scheme, nothing is skipped. *)
Theorem GetApplications_lists (db : DB.t) :
  map ApplicationResponse.Application (ApplicationHandler.GetApplications db) =
    filter has_applicant_and_scheme (ApplicationRepository.GetAll db) /\
  (forall resp, In resp (ApplicationHandler.GetApplications db) ->
     Application.Applicant (ApplicationResponse.Application resp) =
       Some (ApplicationResponse.Applicant resp) /\
     Application.Scheme (ApplicationResponse.Application resp) =
       Some (ApplicationResponse.Scheme resp)) /\
  Permutation (ApplicationRepository.GetAll db)
    (map (ApplicationRepository.scanApplication db) (DB.applications db)) /\
  StronglySorted not_older
    (map ApplicationResponse.Application (ApplicationHandler.GetApplications db)) /\
  (application_refs_ok db ->
   map ApplicationResponse.Application (ApplicationHandler.GetApplications db) =
     ApplicationRepository.GetAll db).
Proof.
  unfold ApplicationHandler.GetApplications.
  destruct (appendResponses_spec (ApplicationRepository.GetAll db) []) as [Hmap Hpairs].
  cbn [map app] in Hmap.
  split; [exact Hmap |].
  split; [apply Hpairs; intros resp [] |].
  split; [apply ApplicationRepository_GetAll_perm |].
  split.
  - rewrite Hmap. apply StronglySorted_filter, ApplicationRepository_GetAll_sorted.
  - intros Hok. rewrite Hmap. apply filter_all. intros a Hin.
    apply (Permutation_in _ (ApplicationRepository_GetAll_perm db)) in Hin.
    apply in_map_iff in Hin. destruct Hin as [r [<- Hr]].
    destruct (Hok r Hr) as [Ha Hs]. now apply scanApplication_complete.
Qed.

Lemma find_unique (rows : list ApplicationRow.t) (r : ApplicationRow.t) :
  NoDup (map ApplicationRow.id rows) ->
  In r rows ->
  find (fun r' => (ApplicationRow.id r' =? ApplicationRow.id r)%string) rows = Some r.
Proof.
  induction rows as [|r0 rows IH]; simpl; intros Hnd Hin; [contradiction |].
  inversion Hnd as [|? ? Hnotin Hnd']; subst.
  destruct Hin as [-> | Hin].
  - now rewrite String.eqb_refl.
  - destruct (String.eqb_spec (ApplicationRow.id r0) (ApplicationRow.id r)) as [Heq | _].
    + exfalso. apply Hnotin. rewrite Heq. now apply in_map.
    + now apply IH.
Qed.

(** X7.  [GetAll] and [GetByID] agree: an application that [GetByID] finds
    is listed by [GetAll], and when identifiers are unique every application
    that [GetAll] lists is the one [GetByID] returns for its identifier. *)
Theorem GetAll_GetByID_agree (db : DB.t) :
  (forall id a,
     ApplicationRepository.GetByID db id = Some a ->
     In a (ApplicationRepository.GetAll db) /\ Application.ID a = id) /\
  (unique_application_ids db ->
   forall a,
     In a (ApplicationRepository.GetAll db) ->
     ApplicationRepository.GetByID db (Application.ID a) = Some a).
Proof.
  split.
  - intros id a Hget. destruct (GetByID_found db id a Hget) as [r [Hfind [-> Hid]]].
    split; [| exact Hid].
    apply (Permutation_in _ (Permutation_sym (ApplicationRepository_GetAll_perm db))).
    apply in_map. now apply find_some in Hfind.
  - intros Hnd a Hin.
    apply (Permutation_in _ (ApplicationRepository_GetAll_perm db)) in Hin.
    apply in_map_iff in Hin. destruct Hin as [r [<- Hr]].
    unfold ApplicationRepository.GetByID.
    cbn [ApplicationRepository.scanApplication Application.ID].
    now rewrite (find_unique _ r Hnd Hr).
Qed.

Section FilterOrder.

Context {A K : Type}.
Variable le : K -> K -> bool.
Variable key : A -> K.
Variable p : A -> bool.
Hypothesis le_total : forall k1 k2, le k1 k2 = true \/ le k2 k1 = true.
Hypothesis le_trans : forall k1 k2 k3, le k1 k2 = true -> le k2 k3 = true -> le k1 k3 = true.

Lemma insert_on_below (x : A) (l : list A) :
  Forall (ordered_on le key x) l -> DB.insert_on le key x l = x :: l.
Proof.
  destruct l as [|y l]; [reflexivity |]. intros Hall. simpl.
  inversion Hall as [|? ? Hxy _]; subst. unfold ordered_on in Hxy. now rewrite Hxy.
Qed.

Lemma filter_insert_on (x : A) (l : list A) :
  StronglySorted (ordered_on le key) l ->
  filter p (DB.insert_on le key x l) =
  if p x then DB.insert_on le key x (filter p l) else filter p l.
Proof.
  induction 1 as [|y l Hs IH Hall]; simpl.
  - destruct (p x); reflexivity.
  - destruct (le (key x) (key y)) eqn:Hxy; simpl.
    + destruct (p x) eqn:Hpx; [| reflexivity].
      destruct (p y) eqn:Hpy.
      * simpl. now rewrite Hxy.
      * symmetry. apply insert_on_below. apply Forall_forall. intros z Hz.
        apply filter_In in Hz. rewrite Forall_forall in Hall.
        exact (le_trans _ _ _ Hxy (Hall z (proj1 Hz))).
    + rewrite IH. destruct (p x) eqn:Hpx; destruct (p y) eqn:Hpy; simpl;
        try rewrite Hxy; reflexivity.
Qed.

Lemma filter_order_on (l : list A) :
  filter p (DB.order_on le key l) = DB.order_on le key (filter p l).
Proof.
  induction l as [|x l IH]; simpl; [reflexivity |].
  rewrite filter_insert_on by (now apply order_on_sorted).
  rewrite IH. destruct (p x); reflexivity.
Qed.

End FilterOrder.

(** X8.  [GetByApplicantID] lists exactly the applications that [GetAll]
    lists for that applicant, newest first, each with its scheme loaded and
    its applicant left nil; an applicant with no application gets the empty
    list.  The two lists hold the same applications; they are in the same
    order when no two rows have the same application date (rows of equal
    date may come in either order from each query). *)
Theorem GetByApplicantID_lists (db : DB.t) (applicantID : string) :
  Permutation (ApplicationRepository.GetByApplicantID db applicantID)
    (map without_applicant
       (filter (fun a => (Application.ApplicantID a =? applicantID)%string)
          (ApplicationRepository.GetAll db))) /\
  StronglySorted not_older (ApplicationRepository.GetByApplicantID db applicantID) /\
  (forall a, In a (ApplicationRepository.GetByApplicantID db applicantID) ->
     Application.ApplicantID a = applicantID /\ Application.Applicant a = None) /\
  (~ In applicantID (map ApplicationRow.applicant_id (DB.applications db)) ->
   ApplicationRepository.GetByApplicantID db applicantID = []) /\
  (distinct_application_dates db ->
   ApplicationRepository.GetByApplicantID db applicantID =
     map without_applicant
       (filter (fun a => (Application.ApplicantID a =? applicantID)%string)
          (ApplicationRepository.GetAll db))).
Proof.
  assert (Heq : ApplicationRepository.GetByApplicantID db applicantID =
                map without_applicant
                  (filter (fun a => (Application.ApplicantID a =? applicantID)%string)
                     (ApplicationRepository.GetAll db))).
  { unfold ApplicationRepository.GetByApplicantID, ApplicationRepository.GetAll.
    rewrite <- (filter_order_on DB.newest_first ApplicationRow.application_date _
                  newest_first_total newest_first_trans).
    generalize (DB.order_on DB.newest_first ApplicationRow.application_date
                  (DB.applications db)).
    intros rows. induction rows as [|r rows IH]; simpl; [reflexivity |].
    destruct (ApplicationRow.applicant_id r =? applicantID)%string; simpl;
      now rewrite IH. }
  split; [rewrite <- Heq; apply Permutation_refl |]. split; [| split; [| split]].
  - unfold ApplicationRepository.GetByApplicantID.
    apply (StronglySorted_map not_older).
    exact (order_on_sorted DB.newest_first ApplicationRow.application_date
             newest_first_total newest_first_trans _).
  - intros a Hin. rewrite Heq in Hin. apply in_map_iff in Hin.
    destruct Hin as [a0 [<- Hin]]. apply filter_In in Hin. destruct Hin as [_ Hid].
    apply String.eqb_eq in Hid. split; [exact Hid | reflexivity].
  - intros Hnone. unfold ApplicationRepository.GetByApplicantID.
    replace (filter _ (DB.applications db)) with (@nil ApplicationRow.t); [reflexivity |].
    symmetry. generalize Hnone. generalize (DB.applications db).
    induction l as [|r rows IH]; simpl; intros Hn; [reflexivity |].
    rewrite string_eqb_neq_false by tauto. apply IH. tauto.
  - intros _. exact Heq.
Qed.

(* ===================================================================== *)
(** ** Deleting and re-updating applications *)
(* ===================================================================== *)

Lemma find_filter_other (rows : list ApplicationRow.t) (id id' : string) :
  id' <> id ->
  find (fun r => (ApplicationRow.id r =? id')%string)
    (filter (fun r => negb (ApplicationRow.id r =? id)%string) rows) =
  find (fun r => (ApplicationRow.id r =? id')%string) rows.
Proof.
  intros Hne. induction rows as [|r rows IH]; simpl; [reflexivity |].
  destruct (String.eqb_spec (ApplicationRow.id r) id) as [Heq | Hneq]; simpl.
  - rewrite Heq, (string_eqb_neq_false id id') by congruence. exact IH.
  - destruct (ApplicationRow.id r =? id')%string; [reflexivity | exact IH].
Qed.

Lemma find_filter_same (rows : list ApplicationRow.t) (id : string) :
  find (fun r => (ApplicationRow.id r =? id)%string)
    (filter (fun r => negb (ApplicationRow.id r =? id)%string) rows) = None.
Proof.
  induction rows as [|r rows IH]; simpl; [reflexivity |].
  destruct (ApplicationRow.id r =? id)%string eqn:E; simpl; [exact IH |].
  now rewrite E.
Qed.

Lemma filter_absent (rows : list ApplicationRow.t) (id : string) :
  ~ In id (map ApplicationRow.id rows) ->
  filter (fun r => negb (ApplicationRow.id r =? id)%string) rows = rows.
Proof.
  intros Habs. apply filter_all. intros r Hr. apply negb_true_iff.
  apply String.eqb_neq. intros Heq. apply Habs. rewrite <- Heq. now apply in_map.
Qed.

Lemma ApplicationRepository_GetByID_none (db : DB.t) (id : string) :
  ApplicationRepository.GetByID db id = None <->
  ~ In id (map ApplicationRow.id (DB.applications db)).
Proof.
  unfold ApplicationRepository.GetByID.
  destruct (find _ (DB.applications db)) as [r|] eqn:Hfind.
  - split; [discriminate |]. intros Habs. exfalso. apply Habs.
    apply find_some in Hfind. destruct Hfind as [Hin Heq].
    apply String.eqb_eq in Heq. subst id. now apply in_map.
  - split; [intros _ | reflexivity]. intros Hin. apply in_map_iff in Hin.
    destruct Hin as [r [Hid Hin]].
    rewrite find_none_iff in Hfind. specialize (Hfind r Hin). cbv beta in Hfind.
    rewrite Hid, String.eqb_refl in Hfind. discriminate.
Qed.

(** X9.  [DeleteApplication] answers 404 and leaves the database as it was
    when no application has the identifier; otherwise it answers 204, the
    application can no longer be found, and every other application reads
    as before.  The repository's [Delete] never fails, and deleting an
    identifier that is not there changes nothing. *)
Theorem DeleteApplication_removes (db : DB.t) (id : string) :
  (~ In id (map ApplicationRow.id (DB.applications db)) ->
   ApplicationHandler.DeleteApplication db id =
     (ApplicationHandler.DeleteError ApplicationHandler.StatusNotFound
        "Application not found", db) /\
   ApplicationRepository.Delete db id = (None, db)) /\
  (In id (map ApplicationRow.id (DB.applications db)) ->
   fst (ApplicationHandler.DeleteApplication db id) = ApplicationHandler.NoContent /\
   snd (ApplicationHandler.DeleteApplication db id) =
     snd (ApplicationRepository.Delete db id)) /\
  fst (ApplicationRepository.Delete db id) = None /\
  ApplicationRepository.GetByID (snd (ApplicationRepository.Delete db id)) id = None /\
  (forall id', id' <> id ->
     ApplicationRepository.GetByID (snd (ApplicationRepository.Delete db id)) id' =
     ApplicationRepository.GetByID db id').
Proof.
  pose proof (ApplicationRepository_GetByID_none db id) as Hnone.
  split; [| split; [| split; [| split]]].
  - intros Habs. unfold ApplicationHandler.DeleteApplication.
    rewrite (proj2 Hnone Habs). split; [reflexivity |].
    unfold ApplicationRepository.Delete, DB.delete_application.
    now rewrite (filter_absent _ _ Habs), with_applications_same.
  - intros Hin. unfold ApplicationHandler.DeleteApplication.
    destruct (ApplicationRepository.GetByID db id); [split; reflexivity |].
    exfalso. now apply (proj1 Hnone).
  - reflexivity.
  - unfold ApplicationRepository.GetByID, ApplicationRepository.Delete,
      DB.delete_application.
    cbn [snd DB.applications DB.with_applications].
    now rewrite find_filter_same.
  - intros id' Hne.
    unfold ApplicationRepository.GetByID, ApplicationRepository.Delete,
      DB.delete_application.
    cbn [snd DB.applications DB.with_applications].
    rewrite (find_filter_other _ id id' Hne).
    destruct (find _ (DB.applications db)); reflexivity.
Qed.

Lemma filter_appended (rows : list ApplicationRow.t) (row : ApplicationRow.t) :
  ~ In (ApplicationRow.id row) (map ApplicationRow.id rows) ->
  filter (fun r => negb (ApplicationRow.id r =? ApplicationRow.id row)%string)
    (rows ++ [row]) = rows.
Proof.
  intros Hfresh. rewrite filter_app, (filter_absent _ _ Hfresh). simpl.
  rewrite String.eqb_refl. simpl. apply app_nil_r.
Qed.

(** X10.  Deleting what was just created restores the database: after a
    [Create] that returned no error, [Delete] of the new application's
    identifier gives back the database [Create] started from; and
    [DeleteApplication] after a [CreateApplication] that answered 201 does
    the same. *)
Theorem Create_then_Delete (uuid : string) (today now : Time.t) (db : DB.t) :
  (forall a,
     let result := ApplicationRepository.Create uuid today now db a in
     fst (fst result) = None ->
     ApplicationRepository.Delete (snd result) (Application.ID (snd (fst result)))
     = (None, db)) /\
  (forall body response,
     let result := ApplicationHandler.CreateApplication uuid today now db body in
     fst result = ApplicationHandler.JSON ApplicationHandler.StatusCreated response ->
     ApplicationHandler.DeleteApplication (snd result) uuid =
     (ApplicationHandler.NoContent, db)).
Proof.
  assert (Hdel : forall row,
            ~ In (ApplicationRow.id row) (map ApplicationRow.id (DB.applications db)) ->
            ApplicationRepository.Delete
              (DB.with_applications db (DB.applications db ++ [row])%list)
              (ApplicationRow.id row) = (None, db)).
  { intros row Hfresh. unfold ApplicationRepository.Delete, DB.delete_application.
    cbn [DB.applications DB.with_applications].
    rewrite (filter_appended _ _ Hfresh). f_equal. destruct db; reflexivity. }
  split.
  - intros a result Hok. subst result.
    unfold ApplicationRepository.Create in *.
    destruct (ApplicantRepository.GetByID db (Application.ApplicantID a));
      [| discriminate].
    destruct (SchemeRepository.GetByID db (Application.SchemeID a)); [| discriminate].
    destruct (negb (isEligible today _ _)); [discriminate |].
    unfold DB.insert_application in *.
    match goal with
    | |- context [existsb ?p (DB.applications db)] =>
        destruct (existsb p (DB.applications db)) eqn:Hex
    end; [discriminate |].
    cbn [fst snd].
    match goal with
    | |- ApplicationRepository.Delete (DB.with_applications db (_ ++ [?row])) _ = _ =>
        apply (Hdel row)
    end.
    intros Hin. apply existsb_id_iff in Hin. congruence.
  - intros body response result Hok. subst result.
    destruct (CreateApplication_created uuid today now db body)
      as [[code [msg [Herr _]]] | [row [Hid [Hfresh Hdb]]]].
    + rewrite Herr in Hok. discriminate.
    + rewrite Hdb. unfold ApplicationHandler.DeleteApplication. rewrite <- Hid.
      rewrite (GetByID_appended db row _ eq_refl Hfresh).
      now rewrite (Hdel row Hfresh).
Qed.

Lemma update_absent (set : ApplicationRow.t -> ApplicationRow.t) (id : string)
    (rows : list ApplicationRow.t) :
  ~ In id (map ApplicationRow.id rows) ->
  map (DB.update_row set id) rows = rows.
Proof.
  intros Habs. rewrite <- (map_id rows) at 2. apply map_ext_in. intros r Hr.
  unfold DB.update_row. rewrite string_eqb_neq_false; [reflexivity |].
  intros Heq. apply Habs. rewrite <- Heq. now apply in_map.
Qed.

(** X11.  An update of an application that does not exist is a silent
    no-op: [Update] and [UpdateStatus] return no error and leave the
    database as it was when no row has the identifier; only the handler
    [UpdateApplication], which looks the application up first, reports 404. *)
Theorem update_missing_is_noop (now : Time.t) (db : DB.t) (id : string) :
  ~ In id (map ApplicationRow.id (DB.applications db)) ->
  (forall status,
     ApplicationRepository.UpdateStatus now db id status = (None, db)) /\
  (forall a, Application.ID a = id ->
     ApplicationRepository.Update now db a =
     (None, ApplicationRepository.touch now a, db)) /\
  (forall body,
     ApplicationHandler.UpdateApplication now db id body =
     (ApplicationHandler.Error ApplicationHandler.StatusNotFound
        "Application not found", db)).
Proof.
  intros Habs. split; [| split].
  - intros status. unfold ApplicationRepository.UpdateStatus, DB.update_application.
    now rewrite (update_absent _ _ _ Habs), with_applications_same.
  - intros a Hid. unfold ApplicationRepository.Update, DB.update_application.
    cbn [ApplicationRepository.touch Application.ID]. rewrite Hid.
    now rewrite (update_absent _ _ _ Habs), with_applications_same.
  - intros body. unfold ApplicationHandler.UpdateApplication.
    now rewrite (proj2 (ApplicationRepository_GetByID_none db id) Habs).
Qed.

Lemma update_row_twice (set1 set2 set : ApplicationRow.t -> ApplicationRow.t)
    (id : string) (rows : list ApplicationRow.t) :
  (forall r, ApplicationRow.id (set1 r) = ApplicationRow.id r) ->
  (forall r, set2 (set1 r) = set r) ->
  (forall r, set2 r = set r) ->
  map (DB.update_row set2 id) (map (DB.update_row set1 id) rows) =
  map (DB.update_row set id) rows.
Proof.
  intros Hid H21 H2. rewrite map_map. apply map_ext. intros r. unfold DB.update_row.
  destruct (ApplicationRow.id r =? id)%string eqn:E.
  - now rewrite Hid, E.
  - now rewrite E.
Qed.

(** X12.  [UpdateStatus] on an application that exists, with a status the
    column accepts: it reads back with the new status, with the time of the
    update as decision date for "approved" and "rejected" and no decision
    date for "pending",
    with the time of the update as update time, and with every other field
    as before; the other applications are untouched; and of two status
    updates in a row only the second shows. *)
Theorem UpdateStatus_then_GetByID (now : Time.t) (db : DB.t) (id status : string)
    (existing : Application.t) :
  ApplicationRepository.GetByID db id = Some existing ->
  accepted_status status ->
  let db' := snd (ApplicationRepository.UpdateStatus now db id status) in
  ApplicationRepository.GetByID db' id =
    Some {| Application.ID := Application.ID existing;
            Application.ApplicantID := Application.ApplicantID existing;
            Application.SchemeID := Application.SchemeID existing;
            Application.Status := status;
            Application.ApplicationDate := Application.ApplicationDate existing;
            Application.DecisionDate :=
              if (status =? "approved")%string || (status =? "rejected")%string
              then Some now else None;
            Application.Notes := Application.Notes existing;
            Application.CreatedAt := Application.CreatedAt existing;
            Application.UpdatedAt := now;
            Application.Applicant := Application.Applicant existing;
            Application.Scheme := Application.Scheme existing |} /\
  (forall id', id' <> id ->
     ApplicationRepository.GetByID db' id' = ApplicationRepository.GetByID db id') /\
  (forall earlier status0,
     snd (ApplicationRepository.UpdateStatus now
            (snd (ApplicationRepository.UpdateStatus earlier db id status0)) id status)
     = db').
Proof.
  intros Hget _ db'. subst db'.
  destruct (GetByID_found db id existing Hget) as [r [Hfind [Hscan _]]].
  unfold ApplicationRepository.UpdateStatus. cbn [snd].
  split; [| split].
  - rewrite GetByID_update_same by reflexivity. rewrite Hfind, Hscan. cbn [option_map].
    unfold ApplicationRepository.scanApplication, ApplicationRepository.setStatus.
    reflexivity.
  - intros id' Hne. now apply GetByID_update_other.
  - intros earlier status0. unfold DB.update_application, DB.with_applications.
    cbn [DB.collate DB.applicants DB.household_members DB.schemes DB.benefits
         DB.applications].
    f_equal. apply update_row_twice; intros r0; reflexivity.
Qed.

(* ===================================================================== *)
(** ** What the application handlers answer *)
(* ===================================================================== *)

(** X13.  [UpdateApplication] on an application that exists, with a body
    that decodes: when the applicant and the scheme of the application
    exist it answers 200 with the application as it reads back after the
    update; when either is missing it has already written the update when
    building the answer dereferences the nil pointer (for the same
    application [GetApplication] answers 500 "Invalid application data").
    With every reference in place the handler never panics. *)
Theorem UpdateApplication_answer (now : Time.t) (db : DB.t) (id : string)
    (request : UpdateRequest.t) (existing : Application.t) :
  ApplicationRepository.GetByID db id = Some existing ->
  let result := ApplicationHandler.UpdateApplication now db id (inr request) in
  (forall applicant scheme,
     Application.Applicant existing = Some applicant ->
     Application.Scheme existing = Some scheme ->
     exists updated,
       ApplicationRepository.GetByID (snd result) id = Some updated /\
       fst result =
         ApplicationHandler.JSON ApplicationHandler.StatusOK
           (ApplicationResponse.mk updated applicant scheme)) /\
  (Application.Applicant existing = None \/ Application.Scheme existing = None ->
   fst result = ApplicationHandler.Panic /\
   ApplicationHandler.GetApplication db id =
     ApplicationHandler.Error ApplicationHandler.StatusInternalServerError
       "Invalid application data" /\
   exists updated,
     ApplicationRepository.GetByID (snd result) id = Some updated /\
     Application.UpdatedAt updated = now) /\
  (application_refs_ok db -> fst result <> ApplicationHandler.Panic).
Proof.
  intros Hget result.
  destruct (UpdateApplication_found now db id request existing Hget)
    as [r [Hfind [Hscan [Hread Hrun]]]].
  cbv zeta in Hread, Hrun. subst result. rewrite Hrun. cbn [fst snd]. rewrite Hread.
  assert (Happ : Application.Applicant existing =
                 ApplicantRepository.GetByID db (ApplicationRow.applicant_id r)).
  { now rewrite Hscan. }
  assert (Hsch : Application.Scheme existing =
                 SchemeRepository.GetByID db (ApplicationRow.scheme_id r)).
  { now rewrite Hscan. }
  unfold ApplicationHandler.respond.
  cbn [ApplicationRepository.scanApplication ApplicationRepository.setUpdate
       Application.Applicant Application.Scheme Application.UpdatedAt
       ApplicationRow.applicant_id ApplicationRow.scheme_id ApplicationRow.updated_at].
  rewrite <- Happ, <- Hsch.
  split; [| split].
  - intros applicant scheme Ha Hs. rewrite Ha, Hs. eexists. split; reflexivity.
  - intros Hmissing. split; [| split].
    + destruct Hmissing as [H | H]; rewrite H; [reflexivity |].
      destruct (Application.Applicant existing); reflexivity.
    + unfold ApplicationHandler.GetApplication. rewrite Hget.
      destruct Hmissing as [H | H]; rewrite H; [reflexivity |].
      destruct (Application.Applicant existing); reflexivity.
    + eexists. split; reflexivity.
  - intros Hok. apply find_some in Hfind. destruct Hfind as [Hin _].
    destruct (Hok r Hin) as [Ha Hs].
    apply applicant_exists_iff in Ha. apply scheme_exists_iff in Hs.
    rewrite Happ, Hsch.
    destruct (ApplicantRepository.GetByID db _); [| congruence].
    destruct (SchemeRepository.GetByID db _); [discriminate | congruence].
Qed.

(** X14.  [GetApplication] never panics; it answers 404 exactly when no
    application has the identifier; and right after a [CreateApplication]
    that answered 201 it answers 200 with the very body [CreateApplication]
    sent. *)
Theorem GetApplication_answer (db : DB.t) (id : string) :
  ApplicationHandler.GetApplication db id <> ApplicationHandler.Panic /\
  (ApplicationHandler.GetApplication db id =
     ApplicationHandler.Error ApplicationHandler.StatusNotFound "Application not found"
   <-> ~ In id (map ApplicationRow.id (DB.applications db))) /\
  (forall today now body created,
     fst (ApplicationHandler.CreateApplication id today now db body) =
       ApplicationHandler.JSON ApplicationHandler.StatusCreated created ->
     ApplicationHandler.GetApplication
       (snd (ApplicationHandler.CreateApplication id today now db body)) id =
     ApplicationHandler.JSON ApplicationHandler.StatusOK created).
Proof.
  split; [| split].
  - unfold ApplicationHandler.GetApplication.
    destruct (ApplicationRepository.GetByID db id) as [a|]; [| discriminate].
    destruct (Application.Applicant a); [| discriminate].
    destruct (Application.Scheme a); discriminate.
  - rewrite <- ApplicationRepository_GetByID_none.
    unfold ApplicationHandler.GetApplication.
    destruct (ApplicationRepository.GetByID db id) as [a|]; [| tauto].
    split; [| discriminate].
    destruct (Application.Applicant a); [| discriminate].
    destruct (Application.Scheme a); discriminate.
  - intros today now body created Hcreated.
    destruct (CreateApplication_stored id today now db body)
      as [[code [msg [Herr _]]] | [row [applicant [scheme [Hdb [Hresp Hread]]]]]].
    + rewrite Herr in Hcreated. discriminate.
    + rewrite Hresp in Hcreated. injection Hcreated as <-.
      unfold ApplicationHandler.GetApplication. rewrite Hread.
      unfold ApplicationRepository.scanApplication.
      cbn [Application.Applicant Application.Scheme].
      destruct Hdb as [Ha Hs]. rewrite Ha, Hs. reflexivity.
Qed.

(* ===================================================================== *)
(** ** What the evaluator looks at *)
(* ===================================================================== *)

Lemma primary_child_keys (now : Time.t) (household : list HouseholdMember.t) :
  primary_child now household <->
  exists k, In k (map child_key household) /\
    (substring_of "son" (fst k) \/ substring_of "daughter" (fst k)) /\
    6 <= Time.Year now - snd k <= 12.
Proof.
  unfold primary_child, child_relation, age. split.
  - intros [m [Hin [Hrel Hage]]]. exists (child_key m).
    split; [now apply in_map |]. split; assumption.
  - intros [k [Hin [Hrel Hage]]]. apply in_map_iff in Hin.
    destruct Hin as [m [<- Hin]]. exists m. split; [exact Hin |]. split; assumption.
Qed.

Lemma hasEligibleChild_same_children (now : Time.t) (level : string)
    (h1 h2 : list HouseholdMember.t) :
  same_children h1 h2 ->
  hasEligibleChild now level h1 = hasEligibleChild now level h2.
Proof.
  intros Hsame.
  pose proof (hasEligibleChild_spec now level h1) as H1.
  pose proof (hasEligibleChild_spec now level h2) as H2.
  rewrite primary_child_keys in H1, H2.
  assert (Hiff : hasEligibleChild now level h1 = true <->
                 hasEligibleChild now level h2 = true).
  { rewrite H1, H2. split; intros [Hl [k [Hin Hk]]]; (split; [exact Hl |]);
      exists k; (split; [now apply Hsame | exact Hk]). }
  destruct (hasEligibleChild now level h1), (hasEligibleChild now level h2);
    try reflexivity; [symmetry; now apply Hiff | now apply Hiff].
Qed.

(** X15.  [isEligible] reads nothing but the criteria of the scheme, the
    lower-cased employment and marital status of the applicant, and the
    lower-cased relation and the birth year of each household member: two
    applicants that agree on these are eligible for the same schemes.  In
    particular the order of the household, the names, the sexes, the
    identifiers, the month and day of birth, and the scheme's name and
    benefits play no part. *)
Theorem isEligible_relevant_fields (now : Time.t) (a1 a2 : Applicant.t)
    (s1 s2 : Scheme.t) :
  strings.ToLower (Applicant.EmploymentStatus a1) =
    strings.ToLower (Applicant.EmploymentStatus a2) ->
  strings.ToLower (Applicant.MaritalStatus a1) =
    strings.ToLower (Applicant.MaritalStatus a2) ->
  same_children (Applicant.Household a1) (Applicant.Household a2) ->
  Scheme.Criteria s1 = Scheme.Criteria s2 ->
  isEligible now a1 s1 = isEligible now a2 s2.
Proof.
  intros Hemp Hmar Hchildren Hcriteria. unfold isEligible. cbv zeta.
  rewrite Hcriteria, Hemp, Hmar.
  now rewrite (hasEligibleChild_same_children now _ _ _ Hchildren).
Qed.

Lemma Permutation_same_children (h1 h2 : list HouseholdMember.t) :
  Permutation h1 h2 -> same_children h1 h2.
Proof.
  intros Hperm k. split; apply Permutation_in.
  - now apply Permutation_map.
  - now apply Permutation_map, Permutation_sym.
Qed.

(* ===================================================================== *)
(** ** The eligible-scheme handler *)
(* ===================================================================== *)

Lemma appendSchemeResponses_map (schemes : list Scheme.t)
    (response : list SchemeResponse.t) :
  SchemeHandler.appendSchemeResponses schemes response =
  (response ++ map (fun s => SchemeResponse.mk s (Scheme.Benefits s)) schemes)%list.
Proof.
  revert response. induction schemes as [|s rest IH]; intros response; simpl.
  - now rewrite app_nil_r.
  - now rewrite IH, <- app_assoc.
Qed.

(** X16.  The handler [GetEligibleSchemes] answers 400 for an empty
    applicant identifier, 404 for an identifier no applicant has, and
    otherwise 200 with the identifier and, in the order of [GetAll], each
    scheme the applicant is eligible for paired with its own benefits.  It
    never answers 500: the repository's "applicant not found" error cannot
    reach it. *)
Theorem GetEligibleSchemes_answer (now : Time.t) (db : DB.t) (applicantID : string) :
  (forall msg, SchemeHandler.GetEligibleSchemes now db applicantID <>
               SchemeHandler.Error 500 msg) /\
  (applicantID = "" ->
   SchemeHandler.GetEligibleSchemes now db applicantID =
   SchemeHandler.Error 400 "Applicant ID is required") /\
  (applicantID <> "" ->
   ~ In applicantID (map ApplicantRow.id (DB.applicants db)) ->
   SchemeHandler.GetEligibleSchemes now db applicantID =
   SchemeHandler.Error 404 "Applicant not found") /\
  (applicantID <> "" ->
   forall applicant,
     ApplicantRepository.GetByID db applicantID = Some applicant ->
     SchemeHandler.GetEligibleSchemes now db applicantID =
     SchemeHandler.JSON 200
       {| EligibleSchemesResponse.ApplicantID := applicantID;
          EligibleSchemesResponse.Schemes :=
            map (fun s => SchemeResponse.mk s (Scheme.Benefits s))
              (filter (isEligible now applicant) (SchemeRepository.GetAll db)) |}).
Proof.
  unfold SchemeHandler.GetEligibleSchemes, SchemeRepository.GetEligibleSchemes.
  split; [| split; [| split]].
  - intros msg. destruct (applicantID =? "")%string; [discriminate |].
    destruct (ApplicantRepository.GetByID db applicantID); discriminate.
  - intros ->. reflexivity.
  - intros Hne Habs. rewrite (string_eqb_neq_false _ _ Hne).
    now rewrite (proj2 (ApplicantRepository_GetByID_none db applicantID) Habs).
  - intros Hne applicant Hget. rewrite (string_eqb_neq_false _ _ Hne), Hget.
    now rewrite appendEligible_filter, appendSchemeResponses_map.
Qed.

(* ===================================================================== *)
(** ** Writing schemes *)
(* ===================================================================== *)

Section RowsById.

Context {R : Type}.
Variable idf : R -> string.

Lemma find_appended (rows : list R) (row : R) (id : string) :
  idf row = id ->
  ~ In id (map idf rows) ->
  find (fun r => (idf r =? id)%string) (rows ++ [row]) = Some row.
Proof.
  intros Hid. induction rows as [|r rows IH]; simpl; intros Hfresh.
  - now rewrite Hid, String.eqb_refl.
  - rewrite string_eqb_neq_false by tauto. apply IH. tauto.
Qed.

Lemma existsb_idf_iff (rows : list R) (id : string) :
  existsb (fun r => (idf r =? id)%string) rows = true <-> In id (map idf rows).
Proof.
  rewrite existsb_exists, in_map_iff. split.
  - intros [r [Hin Heq]]. apply String.eqb_eq in Heq. now exists r.
  - intros [r [Heq Hin]]. exists r. split; [exact Hin | now apply String.eqb_eq].
Qed.

Variable set : R -> R.
Hypothesis set_id : forall r, idf (set r) = idf r.

Lemma find_set_same (id : string) (rows : list R) :
  find (fun r => (idf r =? id)%string)
    (map (fun r => if (idf r =? id)%string then set r else r) rows) =
  option_map set (find (fun r => (idf r =? id)%string) rows).
Proof.
  induction rows as [|r rows IH]; [reflexivity |]. cbn [map find].
  destruct (idf r =? id)%string eqn:E.
  - now rewrite set_id, E.
  - now rewrite E.
Qed.

Lemma find_set_other (id id' : string) (rows : list R) :
  id' <> id ->
  find (fun r => (idf r =? id')%string)
    (map (fun r => if (idf r =? id)%string then set r else r) rows) =
  find (fun r => (idf r =? id')%string) rows.
Proof.
  intros Hne. induction rows as [|r rows IH]; [reflexivity |]. cbn [map find].
  destruct (idf r =? id)%string eqn:E.
  - rewrite set_id. apply String.eqb_eq in E. rewrite E.
    rewrite (string_eqb_neq_false id id') by congruence. exact IH.
  - destruct (idf r =? id')%string; [reflexivity | exact IH].
Qed.

End RowsById.

Lemma SchemeRepository_GetByID_found (db : DB.t) (id : string) (existing : Scheme.t) :
  SchemeRepository.GetByID db id = Some existing ->
  exists r,
    find (fun r => (SchemeRow.id r =? id)%string) (DB.schemes db) = Some r /\
    existing = SchemeRepository.scanScheme db r /\
    Scheme.ID existing = id.
Proof.
  unfold SchemeRepository.GetByID.
  destruct (find _ (DB.schemes db)) as [r|] eqn:Hfind; [| discriminate].
  intros [= <-]. exists r. split; [reflexivity |]. split; [reflexivity |].
  apply find_some in Hfind. now apply String.eqb_eq.
Qed.

(** X17.  [UpdateScheme] on a scheme that exists, with a name and a
    description: the scheme reads back with the name, description and
    criteria of the body, the update time set, and its identifier, creation
    time and benefits as before (an identifier in the body is ignored);
    every other scheme, every benefit and every application is left as it
    was, so applications made under the old criteria stay; and from then on
    eligibility for the scheme is decided by the criteria of the body. *)
Theorem UpdateScheme_then_GetByID (now : Time.t) (db : DB.t) (id : string)
    (decoded existing : Scheme.t) :
  SchemeRepository.GetByID db id = Some existing ->
  Scheme.Name decoded <> "" ->
  Scheme.Description decoded <> "" ->
  let result := SchemeHandler.UpdateScheme now db id (inr decoded) in
  let stored :=
    {| Scheme.ID := id;
       Scheme.Name := Scheme.Name decoded;
       Scheme.Description := Scheme.Description decoded;
       Scheme.Criteria := Scheme.Criteria decoded;
       Scheme.CreatedAt := Scheme.CreatedAt existing;
       Scheme.UpdatedAt := now;
       Scheme.Benefits := Scheme.Benefits existing |} in
  SchemeRepository.GetByID (snd result) id = Some stored /\
  (exists scheme,
     fst result = SchemeHandler.JSON 200
                    (SchemeResponse.mk scheme (Scheme.Benefits existing)) /\
     Scheme.ID scheme = id /\ Scheme.Name scheme = Scheme.Name decoded /\
     Scheme.Criteria scheme = Scheme.Criteria decoded) /\
  (forall id', id' <> id ->
     SchemeRepository.GetByID (snd result) id' = SchemeRepository.GetByID db id') /\
  DB.applications (snd result) = DB.applications db /\
  DB.benefits (snd result) = DB.benefits db /\
  DB.applicants (snd result) = DB.applicants db /\
  (forall today applicant,
     isEligible today applicant stored = isEligible today applicant decoded).
Proof.
  intros Hget Hname Hdesc result stored.
  destruct (SchemeRepository_GetByID_found db id existing Hget) as [r [Hfind [Hscan Hid]]].
  assert (Hrun : result =
            (SchemeHandler.JSON 200
               (SchemeResponse.mk
                  {| Scheme.ID := id;
                     Scheme.Name := Scheme.Name decoded;
                     Scheme.Description := Scheme.Description decoded;
                     Scheme.Criteria := Scheme.Criteria decoded;
                     Scheme.CreatedAt := Scheme.CreatedAt decoded;
                     Scheme.UpdatedAt := now;
                     Scheme.Benefits := Scheme.Benefits existing |}
                  (Scheme.Benefits existing)),
             DB.update_scheme db id
               (SchemeRepository.setScheme
                  {| Scheme.ID := id;
                     Scheme.Name := Scheme.Name decoded;
                     Scheme.Description := Scheme.Description decoded;
                     Scheme.Criteria := Scheme.Criteria decoded;
                     Scheme.CreatedAt := Scheme.CreatedAt decoded;
                     Scheme.UpdatedAt := now;
                     Scheme.Benefits := Scheme.Benefits existing |}))).
  { subst result. unfold SchemeHandler.UpdateScheme. rewrite Hget.
    rewrite (string_eqb_neq_false _ _ Hname), (string_eqb_neq_false _ _ Hdesc).
    reflexivity. }
  rewrite Hrun. cbn [fst snd].
  split; [| split; [| split; [| split; [| split; [| split]]]]].
  - unfold SchemeRepository.GetByID, DB.update_scheme.
    cbn [DB.schemes DB.with_schemes].
    rewrite (find_set_same SchemeRow.id (SchemeRepository.setScheme _)
               (fun r0 => eq_refl) id).
    rewrite Hfind. cbn [option_map]. subst stored. rewrite Hscan. f_equal.
    unfold SchemeRepository.scanScheme, SchemeRepository.setScheme.
    cbn [SchemeRow.id SchemeRow.name SchemeRow.description SchemeRow.criteria
         SchemeRow.created_at SchemeRow.updated_at Scheme.Name Scheme.Description
         Scheme.Criteria Scheme.UpdatedAt Scheme.CreatedAt Scheme.Benefits].
    apply find_some in Hfind. destruct Hfind as [_ Heq]. apply String.eqb_eq in Heq.
    rewrite Heq. reflexivity.
  - eexists. split; [reflexivity |]. repeat split.
  - intros id' Hne. unfold SchemeRepository.GetByID, DB.update_scheme.
    cbn [DB.schemes DB.with_schemes].
    rewrite (find_set_other SchemeRow.id (SchemeRepository.setScheme _)
               (fun r0 => eq_refl) id id' _ Hne).
    destruct (find _ (DB.schemes db)); reflexivity.
  - reflexivity.
  - reflexivity.
  - reflexivity.
  - intros today applicant. unfold isEligible. reflexivity.
Qed.

Lemma CreateBenefit_frame (uuid : string) (now : Time.t) (db : DB.t) (b : Benefit.t) :
  let result := SchemeRepository.CreateBenefit uuid now db b in
  DB.schemes (snd result) = DB.schemes db /\
  DB.collate (snd result) = DB.collate db /\
  DB.applicants (snd result) = DB.applicants db /\
  DB.household_members (snd result) = DB.household_members db /\
  DB.applications (snd result) = DB.applications db.
Proof.
  unfold SchemeRepository.CreateBenefit, DB.insert_benefit. cbv zeta.
  destruct (existsb _ (DB.benefits db)); repeat split.
Qed.

Lemma createBenefits_frame (uuidAt : nat -> string) (nowAt : nat -> Time.t)
    (schemeID : string) (benefits : list Benefit.t) :
  forall (i : nat) (db : DB.t),
    let result := SchemeRepository.createBenefits uuidAt nowAt schemeID i db benefits in
    DB.schemes (snd result) = DB.schemes db /\
    DB.collate (snd result) = DB.collate db /\
    DB.applicants (snd result) = DB.applicants db /\
    DB.household_members (snd result) = DB.household_members db /\
    DB.applications (snd result) = DB.applications db.
Proof.
  induction benefits as [|b rest IH]; intros i db; cbn [SchemeRepository.createBenefits].
  - repeat split.
  - pose proof (CreateBenefit_frame (uuidAt i) (nowAt i) db
                  (SchemeRepository.withSchemeID schemeID b)) as Hb.
    cbv zeta in Hb.
    destruct (SchemeRepository.CreateBenefit (uuidAt i) (nowAt i) db _)
      as [[[err|] b'] db']; cbn [snd] in Hb; [exact Hb |].
    specialize (IH (S i) db'). cbv zeta in IH.
    destruct (SchemeRepository.createBenefits uuidAt nowAt schemeID (S i) db' rest)
      as [[err rest'] db'']. cbn [snd] in *.
    destruct Hb as [H1 [H2 [H3 [H4 H5]]]]. destruct IH as [I1 [I2 [I3 [I4 I5]]]].
    repeat split; congruence.
Qed.

(** Two benefits submitted under one identifier cannot both be inserted. *)
Lemma createBenefits_duplicate (uuidAt : nat -> string) (nowAt : nat -> Time.t)
    (schemeID : string) (i : nat) (db : DB.t) (b1 b2 : Benefit.t)
    (rest : list Benefit.t) :
  Benefit.ID b1 <> "" ->
  Benefit.ID b2 = Benefit.ID b1 ->
  fst (fst (SchemeRepository.createBenefits uuidAt nowAt schemeID i db
              (b1 :: b2 :: rest))) <> None.
Proof.
  intros Hne Hsame. cbn [SchemeRepository.createBenefits].
  unfold SchemeRepository.CreateBenefit at 1, DB.insert_benefit at 1.
  cbn [SchemeRepository.withSchemeID SchemeRepository.insertedBenefit Benefit.ID
       BenefitRow.id].
  rewrite (string_eqb_neq_false _ _ Hne).
  destruct (existsb _ (DB.benefits db)); [discriminate |].
  unfold SchemeRepository.CreateBenefit, DB.insert_benefit.
  cbn [SchemeRepository.withSchemeID SchemeRepository.insertedBenefit Benefit.ID
       BenefitRow.id DB.benefits DB.with_benefits].
  rewrite Hsame, (string_eqb_neq_false _ _ Hne).
  rewrite existsb_app. cbn [existsb BenefitRow.id].
  rewrite String.eqb_refl, orb_true_r. cbn [fst]. discriminate.
Qed.

(** X18.  [Create] of a scheme is not atomic.  When the identifier of the
    scheme (the one given, or the generated one) is free, the scheme row is
    inserted before any benefit, and it stays whatever happens next: the
    scheme reads back with the submitted name, description and criteria
    even when [Create] returns an error, as it does when two of the
    submitted benefits carry the same identifier.  When the identifier is
    taken, [Create] returns an error and writes nothing. *)
Theorem SchemeRepository_Create_not_atomic (uuid : string) (now : Time.t)
    (uuidAt : nat -> string) (nowAt : nat -> Time.t) (db : DB.t) (s : Scheme.t) :
  let id := if (Scheme.ID s =? "")%string then uuid else Scheme.ID s in
  let result := SchemeRepository.Create uuid now uuidAt nowAt db s in
  (~ In id (map SchemeRow.id (DB.schemes db)) ->
   (exists stored,
      SchemeRepository.GetByID (snd result) id = Some stored /\
      Scheme.Name stored = Scheme.Name s /\
      Scheme.Description stored = Scheme.Description s /\
      Scheme.Criteria stored = Scheme.Criteria s /\
      Scheme.CreatedAt stored = now) /\
   (forall b1 b2 rest,
      Scheme.Benefits s = b1 :: b2 :: rest ->
      Benefit.ID b1 <> "" ->
      Benefit.ID b2 = Benefit.ID b1 ->
      fst (fst result) <> None)) /\
  (In id (map SchemeRow.id (DB.schemes db)) ->
   fst (fst result) <> None /\ snd result = db).
Proof.
  intros id result. subst result.
  unfold SchemeRepository.Create, DB.insert_scheme, SchemeRepository.insertedScheme.
  cbn [SchemeRow.id Scheme.ID Scheme.Benefits Scheme.Name Scheme.Description
       Scheme.Criteria Scheme.CreatedAt Scheme.UpdatedAt].
  fold id.
  pose proof (existsb_idf_iff SchemeRow.id (DB.schemes db) id) as Hex.
  destruct (existsb _ (DB.schemes db)).
  - split; [intros Hfresh; exfalso; apply Hfresh; now apply Hex |].
    intros _. cbn [fst snd]. split; [discriminate | reflexivity].
  - split; [| intros Hin; apply Hex in Hin; discriminate].
    intros Hfresh.
    match goal with
    | |- context [SchemeRepository.createBenefits uuidAt nowAt id 0 ?d ?bs] =>
        pose proof (createBenefits_frame uuidAt nowAt id bs 0 d) as Hframe;
        pose proof (fun b1 b2 rest => createBenefits_duplicate uuidAt nowAt id 0 d b1 b2 rest)
          as Hdup;
        destruct (SchemeRepository.createBenefits uuidAt nowAt id 0 d bs)
          as [[err benefits] db''] eqn:Hloop
    end.
    cbv zeta in Hframe. cbn [fst snd DB.schemes DB.with_schemes] in *.
    destruct Hframe as [Hschemes _]. split.
    + unfold SchemeRepository.GetByID. rewrite Hschemes.
      erewrite (find_appended SchemeRow.id (DB.schemes db)); [| reflexivity | exact Hfresh].
      eexists. split; [reflexivity |]. repeat split.
    + intros b1 b2 rest Hbs Hne Hsame. rewrite Hbs in Hloop.
      specialize (Hdup b1 b2 rest Hne Hsame). rewrite Hloop in Hdup. exact Hdup.
Qed.

Lemma CreateBenefit_success (uuid : string) (now : Time.t) (db : DB.t) (b : Benefit.t) :
  let result := SchemeRepository.CreateBenefit uuid now db b in
  fst (fst result) = None ->
  DB.benefits (snd result) =
    (DB.benefits db ++ [SchemeRepository.insertedBenefit (snd (fst result))])%list /\
  Benefit.SchemeID (snd (fst result)) = Benefit.SchemeID b.
Proof.
  unfold SchemeRepository.CreateBenefit, DB.insert_benefit. cbv zeta.
  destruct (existsb _ (DB.benefits db)); cbn [fst snd]; [discriminate |].
  intros _. split; reflexivity.
Qed.

Lemma createBenefits_success (uuidAt : nat -> string) (nowAt : nat -> Time.t)
    (schemeID : string) (benefits : list Benefit.t) :
  forall (i : nat) (db : DB.t),
    let result := SchemeRepository.createBenefits uuidAt nowAt schemeID i db benefits in
    fst (fst result) = None ->
    DB.benefits (snd result) =
      (DB.benefits db ++ map SchemeRepository.insertedBenefit (snd (fst result)))%list /\
    Forall (fun b => Benefit.SchemeID b = schemeID) (snd (fst result)).
Proof.
  induction benefits as [|b rest IH]; intros i db; cbn [SchemeRepository.createBenefits].
  - intros _. cbn. split; [now rewrite app_nil_r | constructor].
  - pose proof (CreateBenefit_success (uuidAt i) (nowAt i) db
                  (SchemeRepository.withSchemeID schemeID b)) as Hb.
    cbv zeta in Hb.
    destruct (SchemeRepository.CreateBenefit (uuidAt i) (nowAt i) db _)
      as [[[err|] b'] db']; cbn [fst snd] in Hb |- *; [discriminate |].
    specialize (IH (S i) db'). cbv zeta in IH.
    destruct (SchemeRepository.createBenefits uuidAt nowAt schemeID (S i) db' rest)
      as [[err rest'] db'']. cbn [fst snd] in *.
    intros Hok. destruct (Hb eq_refl) as [Hb1 Hb2]. destruct (IH Hok) as [IH1 IH2].
    split.
    + rewrite IH1, Hb1, <- app_assoc. reflexivity.
    + constructor; [exact Hb2 | exact IH2].
Qed.

Lemma filter_none {A : Type} (p : A -> bool) (l : list A) :
  (forall x, In x l -> p x = false) -> filter p l = [].
Proof.
  induction l as [|x l IH]; simpl; intros H; [reflexivity |].
  rewrite (H x (or_introl eq_refl)). apply IH. intros y Hy. apply H. now right.
Qed.

(** X19.  [CreateScheme] followed by [GetScheme]: when the benefits already
    stored all refer to existing schemes and [CreateScheme] answers 201, the
    scheme can be read under the identifier of the answer, with the name,
    description and criteria of the answer, and its benefits are those of
    the answer (same identifiers, names and descriptions, each owned by the
    new scheme whatever scheme the request named), listed in the order of
    [ORDER BY name] rather than in the order submitted. *)
Theorem CreateScheme_then_GetScheme (uuid : string) (now : Time.t)
    (uuidAt : nat -> string) (nowAt : nat -> Time.t) (db : DB.t)
    (body : string + Scheme.t) (answer : SchemeResponse.t) :
  benefit_refs_ok db ->
  let result := SchemeHandler.CreateScheme uuid now uuidAt nowAt db body in
  fst result = SchemeHandler.JSON 201 answer ->
  exists stored,
    SchemeHandler.GetScheme (snd result) (Scheme.ID (SchemeResponse.Scheme answer)) =
      SchemeHandler.JSON 200 (SchemeResponse.mk stored (Scheme.Benefits stored)) /\
    Scheme.ID stored = Scheme.ID (SchemeResponse.Scheme answer) /\
    Scheme.Name stored = Scheme.Name (SchemeResponse.Scheme answer) /\
    Scheme.Description stored = Scheme.Description (SchemeResponse.Scheme answer) /\
    Scheme.Criteria stored = Scheme.Criteria (SchemeResponse.Scheme answer) /\
    Permutation (map benefit_label (Scheme.Benefits stored))
      (map benefit_label (SchemeResponse.Benefits answer)) /\
    Forall (fun b => Benefit.SchemeID b = Scheme.ID stored)
      (SchemeResponse.Benefits answer).
Proof.
  intros Hrefs result. subst result. unfold SchemeHandler.CreateScheme.
  destruct body as [err | s]; [discriminate |].
  destruct (Scheme.Name s =? "")%string; [discriminate |].
  destruct (Scheme.Description s =? "")%string; [discriminate |].
  unfold SchemeRepository.Create, DB.insert_scheme, SchemeRepository.insertedScheme.
  cbn [SchemeRow.id Scheme.ID Scheme.Benefits Scheme.Name Scheme.Description
       Scheme.Criteria Scheme.CreatedAt Scheme.UpdatedAt].
  set (id := if (Scheme.ID s =? "")%string then uuid else Scheme.ID s).
  pose proof (existsb_idf_iff SchemeRow.id (DB.schemes db) id) as Hex.
  destruct (existsb _ (DB.schemes db)); [discriminate |].
  assert (Hfresh : ~ In id (map SchemeRow.id (DB.schemes db))).
  { intros Hin. apply Hex in Hin. discriminate. }
  match goal with
  | |- context [SchemeRepository.createBenefits uuidAt nowAt id 0 ?d ?bs] =>
      pose proof (createBenefits_frame uuidAt nowAt id bs 0 d) as Hframe;
      pose proof (createBenefits_success uuidAt nowAt id bs 0 d) as Hsucc;
      destruct (SchemeRepository.createBenefits uuidAt nowAt id 0 d bs)
        as [[[err|] benefits] db'']
  end; [discriminate |].
  cbv zeta in Hframe, Hsucc.
  cbn [fst snd DB.schemes DB.collate DB.benefits DB.with_schemes] in *.
  destruct Hframe as [Hschemes [Hcollate _]].
  destruct (Hsucc eq_refl) as [Hbenefits Hown].
  intros [= <-].
  cbn [SchemeResponse.Scheme SchemeResponse.Benefits SchemeRepository.withBenefits
       Scheme.ID Scheme.Name Scheme.Description Scheme.Criteria Scheme.Benefits].
  unfold SchemeHandler.GetScheme, SchemeRepository.GetByID. rewrite Hschemes.
  erewrite (find_appended SchemeRow.id (DB.schemes db)); [| reflexivity | exact Hfresh].
  eexists. split; [reflexivity |].
  cbn [SchemeRepository.scanScheme Scheme.ID Scheme.Name Scheme.Description
       Scheme.Criteria Scheme.Benefits SchemeRow.id SchemeRow.name
       SchemeRow.description SchemeRow.criteria].
  repeat (split; [reflexivity |]).
  split; [| exact Hown].
  unfold SchemeRepository.GetBenefits. rewrite Hbenefits, filter_app.
  rewrite (filter_none _ (DB.benefits db)).
  2:{ intros r Hr. apply String.eqb_neq. intros Heq. apply Hfresh.
      rewrite <- Heq. now apply Hrefs. }
  cbn [app]. rewrite filter_all.
  2:{ intros r Hr. apply in_map_iff in Hr. destruct Hr as [b [<- Hb]].
      rewrite Forall_forall in Hown. cbn [SchemeRepository.insertedBenefit
        BenefitRow.scheme_id]. rewrite (Hown b Hb). apply String.eqb_refl. }
  rewrite map_map.
  eapply perm_trans.
  - apply Permutation_map. apply order_by_perm.
  - rewrite map_map. apply Permutation_refl.
Qed.

(* ===================================================================== *)
(** ** Households and eligibility *)
(* ===================================================================== *)

Lemma order_by_order_on {A : Type} (le : string -> string -> bool) (key : A -> string)
    (l : list A) :
  DB.order_by le key l = DB.order_on le key l.
Proof.
  induction l as [|x l IH]; simpl; [reflexivity |]. rewrite IH.
  generalize (DB.order_on le key l). intros l'.
  induction l' as [|y l' IH']; simpl; [reflexivity |]. now rewrite IH'.
Qed.

Lemma hasEligibleChild_included (now : Time.t) (level : string)
    (h1 h2 : list HouseholdMember.t) :
  children_included h1 h2 ->
  hasEligibleChild now level h1 = true -> hasEligibleChild now level h2 = true.
Proof.
  intros Hincl. rewrite !hasEligibleChild_spec, !primary_child_keys.
  intros [Hl [k [Hin Hk]]]. split; [exact Hl |]. exists k.
  split; [now apply Hincl | exact Hk].
Qed.

(** X20.  Eligibility grows with the household: if every member of one
    household appears (by relation and birth year) in another, and the two
    applicants agree on employment and marital status, then every scheme
    the first is eligible for, the second is eligible for too.  A household
    member added never costs eligibility and a member removed never gains
    it. *)
Theorem isEligible_household_monotone (now : Time.t) (a1 a2 : Applicant.t)
    (scheme : Scheme.t) :
  strings.ToLower (Applicant.EmploymentStatus a1) =
    strings.ToLower (Applicant.EmploymentStatus a2) ->
  strings.ToLower (Applicant.MaritalStatus a1) =
    strings.ToLower (Applicant.MaritalStatus a2) ->
  children_included (Applicant.Household a1) (Applicant.Household a2) ->
  isEligible now a1 scheme = true ->
  isEligible now a2 scheme = true.
Proof.
  intros Hemp Hmar Hincl. unfold isEligible. cbv zeta. rewrite Hemp, Hmar.
  destruct (negb (Criteria.EmploymentStatus _ =? "")%string && _); [discriminate |].
  destruct (negb (Criteria.MaritalStatus _ =? "")%string && _); [discriminate |].
  destruct (negb (ChildCriteria.SchoolLevel _ =? "")%string); [| reflexivity].
  destruct (hasEligibleChild now _ (Applicant.Household a1)) eqn:H1; [| discriminate].
  intros _. now rewrite (hasEligibleChild_included now _ _ _ Hincl H1).
Qed.

Lemma filter_filter_comm {A : Type} (p q : A -> bool) (l : list A) :
  filter p (filter q l) = filter q (filter p l).
Proof.
  induction l as [|x l IH]; simpl; [reflexivity |].
  destruct (p x) eqn:Hp, (q x) eqn:Hq; simpl; rewrite ?Hp, ?Hq, IH; reflexivity.
Qed.

Lemma filter_included (p : HouseholdMember.t -> bool) (h : list HouseholdMember.t) :
  children_included (filter p h) h.
Proof.
  intros k Hin. apply in_map_iff in Hin. destruct Hin as [m [<- Hm]].
  apply filter_In in Hm. apply in_map. tauto.
Qed.

(** X21.  [DeleteHouseholdMember] never fails; afterwards every applicant
    reads back with every field of its own as before (identifier, name,
    employment status, sex, date of birth, marital status, creation and
    update times) and with the household it had, in the same order, minus
    the member of that identifier (unchanged when no member has it); and no
    applicant gains eligibility for any scheme by it.  The collation is
    assumed total and transitive. *)
Theorem DeleteHouseholdMember_effect (db : DB.t) (id applicantID : string)
    (applicant : Applicant.t) :
  collation_total db -> collation_transitive db ->
  ApplicantRepository.GetByID db applicantID = Some applicant ->
  let result := ApplicantRepository.DeleteHouseholdMember db id in
  fst result = None /\
  exists applicant',
    ApplicantRepository.GetByID (snd result) applicantID = Some applicant' /\
    Applicant.Household applicant' =
      filter (fun m => negb (HouseholdMember.ID m =? id)%string)
        (Applicant.Household applicant) /\
    Applicant.ID applicant' = Applicant.ID applicant /\
    Applicant.Name applicant' = Applicant.Name applicant /\
    Applicant.EmploymentStatus applicant' = Applicant.EmploymentStatus applicant /\
    Applicant.MaritalStatus applicant' = Applicant.MaritalStatus applicant /\
    Applicant.DateOfBirth applicant' = Applicant.DateOfBirth applicant /\
    Applicant.Sex applicant' = Applicant.Sex applicant /\
    Applicant.CreatedAt applicant' = Applicant.CreatedAt applicant /\
    Applicant.UpdatedAt applicant' = Applicant.UpdatedAt applicant /\
    (forall now scheme,
       isEligible now applicant' scheme = true ->
       isEligible now applicant scheme = true).
Proof.
  intros Htot Htrans Hget result. subst result. split; [reflexivity |].
  unfold ApplicantRepository.DeleteHouseholdMember. cbn [snd].
  unfold ApplicantRepository.GetByID in *.
  cbn [DB.applicants DB.with_household_members].
  destruct (find _ (DB.applicants db)) as [r|]; [| discriminate].
  injection Hget as <-. eexists. split; [reflexivity |].
  cbn [Applicant.Household Applicant.ID Applicant.Name Applicant.EmploymentStatus
       Applicant.MaritalStatus Applicant.DateOfBirth Applicant.Sex
       Applicant.CreatedAt Applicant.UpdatedAt].
  assert (Hhouse :
    ApplicantRepository.GetHouseholdMembers
      (DB.with_household_members db
         (filter (fun m => negb (HouseholdMember.ID m =? id)%string)
            (DB.household_members db))) (ApplicantRow.id r) =
    filter (fun m => negb (HouseholdMember.ID m =? id)%string)
      (ApplicantRepository.GetHouseholdMembers db (ApplicantRow.id r))).
  { unfold ApplicantRepository.GetHouseholdMembers.
    cbn [DB.collate DB.household_members DB.with_household_members].
    rewrite !order_by_order_on.
    rewrite (filter_order_on (DB.collate db) HouseholdMember.Name _ Htot Htrans).
    now rewrite filter_filter_comm. }
  rewrite Hhouse. split; [reflexivity |]. repeat (split; [reflexivity |]).
  intros now scheme. unfold isEligible. cbv zeta.
  cbn [Applicant.Household Applicant.EmploymentStatus Applicant.MaritalStatus].
  destruct (negb (Criteria.EmploymentStatus _ =? "")%string && _); [discriminate |].
  destruct (negb (Criteria.MaritalStatus _ =? "")%string && _); [discriminate |].
  destruct (negb (ChildCriteria.SchoolLevel _ =? "")%string); [| reflexivity].
  destruct (hasEligibleChild now _ (filter _ _)) eqn:H1; [| discriminate].
  intros _. rewrite (hasEligibleChild_included now _ _ _ (filter_included _ _) H1).
  reflexivity.
Qed.

(* ===================================================================== *)
(** ** The further properties at the sample data *)
(* ===================================================================== *)

Lemma Create_then_GetByID_witness :
  fst (fst (ApplicationRepository.Create Sample.application_id Sample.today
              Sample.today Sample.db Sample.new_application)) = None /\
  snd (ApplicationRepository.Create Sample.application_id Sample.today Sample.today
         Sample.db Sample.new_application) = Sample.db1.
Proof.
  destruct (Create_then_GetByID Sample.application_id Sample.today Sample.today
              Sample.db Sample.new_application Sample.mary Sample.families)
    as [Hok [_ [Hdb _]]].
  - reflexivity.
  - reflexivity.
  - reflexivity.
  - left. reflexivity.
  - simpl. tauto.
  - split; [exact Hok | exact Hdb].
Defined.

(** James is not eligible for the families scheme: [Create] reports it and
    writes nothing. *)
Lemma Create_only_when_eligible_witness :
  fst (fst (ApplicationRepository.Create Sample.application_id Sample.today
              Sample.today Sample.db
              (Application.mk "" Sample.james_id Sample.families_id "" zeroTime None ""
                 zeroTime zeroTime None None))) <> None /\
  snd (ApplicationRepository.Create Sample.application_id Sample.today Sample.today
         Sample.db
         (Application.mk "" Sample.james_id Sample.families_id "" zeroTime None ""
            zeroTime zeroTime None None)) = Sample.db.
Proof.
  assert (H : fst (fst (ApplicationRepository.Create Sample.application_id Sample.today
                          Sample.today Sample.db
                          (Application.mk "" Sample.james_id Sample.families_id ""
                             zeroTime None "" zeroTime zeroTime None None))) <> None).
  { vm_compute. discriminate. }
  split; [exact H |].
  exact (proj2 (Create_only_when_eligible Sample.application_id Sample.today Sample.today
                  Sample.db _) H).
Defined.

Lemma Sample_unique_ids : unique_application_ids Sample.db1.
Proof. repeat constructor. simpl. tauto. Qed.

Lemma Sample_refs_ok : application_refs_ok Sample.db1.
Proof.
  intros r [<- | []]. split; simpl; tauto.
Qed.

Lemma application_refs_preserved_witness :
  application_refs_ok Sample.db1 /\
  application_refs_ok
    (snd (ApplicationRepository.UpdateStatus Sample.later Sample.db1
            Sample.application_id "approved")).
Proof.
  split; [exact Sample_refs_ok |].
  destruct (application_refs_preserved Sample.db1 Sample_refs_ok) as [_ [_ [Hupd _]]].
  exact (Hupd Sample.later Sample.application_id "approved").
Defined.

Lemma GetApplications_lists_witness :
  application_refs_ok Sample.db1 /\
  map ApplicationResponse.Application (ApplicationHandler.GetApplications Sample.db1) =
  ApplicationRepository.GetAll Sample.db1.
Proof.
  split; [exact Sample_refs_ok |].
  destruct (GetApplications_lists Sample.db1) as [_ [_ [_ [_ Hall]]]].
  exact (Hall Sample_refs_ok).
Defined.

Lemma GetAll_GetByID_agree_witness :
  In Sample.application (ApplicationRepository.GetAll Sample.db1) /\
  ApplicationRepository.GetByID Sample.db1 (Application.ID Sample.application) =
  Some Sample.application.
Proof.
  assert (Hin : In Sample.application (ApplicationRepository.GetAll Sample.db1)).
  { left. reflexivity. }
  split; [exact Hin |].
  exact (proj2 (GetAll_GetByID_agree Sample.db1) Sample_unique_ids _ Hin).
Defined.

(** Mary's two applications, the second one first, without the one of
    James that [GetAll] lists between them. *)
Lemma GetByApplicantID_lists_witness :
  distinct_application_dates Sample.db2 /\
  ApplicationRepository.GetByApplicantID Sample.db2 Sample.mary_id =
    map without_applicant
      (filter (fun a => (Application.ApplicantID a =? Sample.mary_id)%string)
         (ApplicationRepository.GetAll Sample.db2)) /\
  map Application.ID (ApplicationRepository.GetAll Sample.db2) =
    [Sample.second_application_id; Sample.james_application_id; Sample.application_id] /\
  map Application.ID (ApplicationRepository.GetByApplicantID Sample.db2 Sample.mary_id) =
    [Sample.second_application_id; Sample.application_id].
Proof.
  assert (H : distinct_application_dates Sample.db2).
  { repeat constructor; simpl; intuition discriminate. }
  split; [exact H |].
  destruct (GetByApplicantID_lists Sample.db2 Sample.mary_id) as [_ [_ [_ [_ Hsame]]]].
  split; [exact (Hsame H) |].
  split; reflexivity.
Defined.

Lemma DeleteApplication_removes_witness :
  In Sample.application_id (map ApplicationRow.id (DB.applications Sample.db1)) /\
  fst (ApplicationHandler.DeleteApplication Sample.db1 Sample.application_id) =
  ApplicationHandler.NoContent.
Proof.
  assert (H : In Sample.application_id
                (map ApplicationRow.id (DB.applications Sample.db1))).
  { left. reflexivity. }
  split; [exact H |].
  destruct (DeleteApplication_removes Sample.db1 Sample.application_id)
    as [_ [Hfound _]].
  exact (proj1 (Hfound H)).
Defined.

Lemma Create_then_Delete_witness :
  fst (fst (ApplicationRepository.Create Sample.application_id Sample.today
              Sample.today Sample.db Sample.new_application)) = None /\
  ApplicationRepository.Delete
    (snd (ApplicationRepository.Create Sample.application_id Sample.today Sample.today
            Sample.db Sample.new_application))
    (Application.ID
       (snd (fst (ApplicationRepository.Create Sample.application_id Sample.today
                    Sample.today Sample.db Sample.new_application))))
  = (None, Sample.db).
Proof.
  assert (H : fst (fst (ApplicationRepository.Create Sample.application_id Sample.today
                          Sample.today Sample.db Sample.new_application)) = None).
  { reflexivity. }
  split; [exact H |].
  exact (proj1 (Create_then_Delete Sample.application_id Sample.today Sample.today
                  Sample.db) Sample.new_application H).
Defined.

Lemma update_missing_is_noop_witness :
  ~ In "no-such-application" (map ApplicationRow.id (DB.applications Sample.db1)) /\
  ApplicationRepository.UpdateStatus Sample.later Sample.db1 "no-such-application"
    "approved" = (None, Sample.db1).
Proof.
  assert (H : ~ In "no-such-application"
                (map ApplicationRow.id (DB.applications Sample.db1))).
  { simpl. intros [H | []]. discriminate H. }
  split; [exact H |].
  exact (proj1 (update_missing_is_noop Sample.later Sample.db1 "no-such-application" H)
           "approved").
Defined.

Lemma UpdateStatus_then_GetByID_witness :
  accepted_status "rejected" /\
  option_map (fun a => (Application.Status a, Application.DecisionDate a,
                        Application.Notes a))
    (ApplicationRepository.GetByID
       (snd (ApplicationRepository.UpdateStatus Sample.later Sample.db1
               Sample.application_id "rejected")) Sample.application_id)
  = Some ("rejected", Some Sample.later, "first application").
Proof.
  assert (H : accepted_status "rejected").
  { right. right. reflexivity. }
  split; [exact H |].
  destruct (UpdateStatus_then_GetByID Sample.later Sample.db1 Sample.application_id
              "rejected" Sample.application eq_refl H) as [Hread _].
  cbv zeta in Hread. rewrite Hread. reflexivity.
Defined.

Lemma UpdateApplication_answer_witness :
  application_refs_ok Sample.db1 /\
  fst (ApplicationHandler.UpdateApplication Sample.later Sample.db1
         Sample.application_id (inr (UpdateRequest.mk "approved" "seen")))
  <> ApplicationHandler.Panic.
Proof.
  split; [exact Sample_refs_ok |].
  destruct (UpdateApplication_answer Sample.later Sample.db1 Sample.application_id
              (UpdateRequest.mk "approved" "seen") Sample.application eq_refl)
    as [_ [_ Hsafe]].
  exact (Hsafe Sample_refs_ok).
Defined.

Lemma GetApplication_answer_witness :
  ApplicationHandler.GetApplication Sample.db1 Sample.application_id =
  ApplicationHandler.JSON 200
    (ApplicationResponse.mk Sample.application Sample.mary Sample.families).
Proof.
  destruct (GetApplication_answer Sample.db Sample.application_id) as [_ [_ Hafter]].
  exact (Hafter Sample.today Sample.today
           (inr (ApplicationRequest.mk Sample.mary_id Sample.families_id
                   "first application"))
           (ApplicationResponse.mk Sample.application Sample.mary Sample.families)
           eq_refl).
Defined.

Lemma isEligible_relevant_fields_witness :
  same_children (Applicant.Household Sample.mary) (Applicant.Household Sample.mary_again) /\
  isEligible Sample.today Sample.mary Sample.families =
  isEligible Sample.today Sample.mary_again Sample.families.
Proof.
  assert (H : same_children (Applicant.Household Sample.mary)
                (Applicant.Household Sample.mary_again)).
  { intros k. simpl. tauto. }
  split; [exact H |].
  apply (isEligible_relevant_fields Sample.today Sample.mary Sample.mary_again
           Sample.families Sample.families); [reflexivity | reflexivity | exact H |
           reflexivity].
Defined.

Lemma GetEligibleSchemes_answer_witness :
  SchemeHandler.GetEligibleSchemes Sample.today Sample.db Sample.james_id =
  SchemeHandler.JSON 200
    {| EligibleSchemesResponse.ApplicantID := Sample.james_id;
       EligibleSchemesResponse.Schemes :=
         map (fun s => SchemeResponse.mk s (Scheme.Benefits s))
           (filter (isEligible Sample.today Sample.james)
              (SchemeRepository.GetAll Sample.db)) |}.
Proof.
  destruct (GetEligibleSchemes_answer Sample.today Sample.db Sample.james_id)
    as [_ [_ [_ Hfound]]].
  apply Hfound; [discriminate | reflexivity].
Defined.

Lemma UpdateScheme_then_GetByID_witness :
  option_map Scheme.Criteria
    (SchemeRepository.GetByID
       (snd (SchemeHandler.UpdateScheme Sample.later Sample.db Sample.families_id
               (inr Sample.families_relaxed))) Sample.families_id)
  = Some (Scheme.Criteria Sample.families_relaxed).
Proof.
  destruct (UpdateScheme_then_GetByID Sample.later Sample.db Sample.families_id
              Sample.families_relaxed Sample.families) as [Hread _].
  - reflexivity.
  - discriminate.
  - discriminate.
  - cbv zeta in Hread. rewrite Hread. reflexivity.
Defined.

(** Two benefits under one identifier: [Create] reports an error, and the
    scheme is stored all the same. *)
Lemma SchemeRepository_Create_not_atomic_witness :
  fst (fst (SchemeRepository.Create Sample.childcare_id Sample.today Sample.no_uuid
              Sample.at_today Sample.db Sample.childcare_clash)) <> None /\
  exists stored,
    SchemeRepository.GetByID
      (snd (SchemeRepository.Create Sample.childcare_id Sample.today Sample.no_uuid
              Sample.at_today Sample.db Sample.childcare_clash)) Sample.childcare_id
    = Some stored /\
    Scheme.Name stored = "Childcare Support".
Proof.
  destruct (SchemeRepository_Create_not_atomic Sample.childcare_id Sample.today
              Sample.no_uuid Sample.at_today Sample.db Sample.childcare_clash)
    as [Hfresh _].
  cbv zeta in Hfresh. destruct Hfresh as [[stored [Hget [Hname _]]] Hclash].
  - simpl. intros [H | [H | []]]; discriminate H.
  - split.
    + apply (Hclash Sample.subsidy Sample.kit_clash []); [reflexivity | discriminate |
        reflexivity].
    + exists stored. split; [exact Hget | exact Hname].
Defined.

Lemma Sample_benefit_refs_ok : benefit_refs_ok Sample.db.
Proof. intros r [<- | [<- | []]]; simpl; tauto. Qed.

Lemma CreateScheme_then_GetScheme_witness :
  exists answer stored,
    fst (SchemeHandler.CreateScheme Sample.childcare_id Sample.today Sample.no_uuid
           Sample.at_today Sample.db (inr Sample.childcare)) =
      SchemeHandler.JSON 201 answer /\
    SchemeHandler.GetScheme
      (snd (SchemeHandler.CreateScheme Sample.childcare_id Sample.today Sample.no_uuid
              Sample.at_today Sample.db (inr Sample.childcare)))
      (Scheme.ID (SchemeResponse.Scheme answer)) =
      SchemeHandler.JSON 200 (SchemeResponse.mk stored (Scheme.Benefits stored)) /\
    Forall (fun b => Benefit.SchemeID b = Scheme.ID stored)
      (SchemeResponse.Benefits answer).
Proof.
  eexists.
  destruct (CreateScheme_then_GetScheme Sample.childcare_id Sample.today Sample.no_uuid
              Sample.at_today Sample.db (inr Sample.childcare) _ Sample_benefit_refs_ok
              eq_refl)
    as [stored [Hget [_ [_ [_ [_ [_ Hown]]]]]]].
  exists stored. split; [reflexivity |]. split; [exact Hget | exact Hown].
Defined.

(** Mary with her son alone is eligible for the families scheme; so is
    the Mary another client entered, whose household holds a son born in the
    same year and a daughter besides. *)
Lemma isEligible_household_monotone_witness :
  children_included (Applicant.Household Sample.mary_and_son)
    (Applicant.Household Sample.mary_again) /\
  isEligible Sample.today Sample.mary_and_son Sample.families = true /\
  isEligible Sample.today Sample.mary_again Sample.families = true.
Proof.
  assert (H : children_included (Applicant.Household Sample.mary_and_son)
                (Applicant.Household Sample.mary_again)).
  { intros k [<- | []]. left. reflexivity. }
  split; [exact H |]. split; [reflexivity |].
  apply (isEligible_household_monotone Sample.today Sample.mary_and_son Sample.mary_again
           Sample.families); [reflexivity | reflexivity | exact H | reflexivity].
Defined.

(** Without Gwen, Mary's household is Jayden alone. *)
Lemma DeleteHouseholdMember_effect_witness :
  exists applicant',
    ApplicantRepository.GetByID
      (snd (ApplicantRepository.DeleteHouseholdMember Sample.db
              (HouseholdMember.ID Sample.gwen))) Sample.mary_id = Some applicant' /\
    Applicant.Household applicant' = [Sample.jayden] /\
    Applicant.Sex applicant' = "female" /\
    Applicant.CreatedAt applicant' = Sample.loaded /\
    Applicant.UpdatedAt applicant' = Sample.loaded.
Proof.
  destruct (DeleteHouseholdMember_effect Sample.db (HouseholdMember.ID Sample.gwen)
              Sample.mary_id Sample.mary Sample_collation_total
              Sample_collation_transitive eq_refl)
    as [_ [applicant' [Hget [Hhouse [_ [_ [_ [_ [_ [Hsex [Hcreated [Hupdated _]]]]]]]]]]]].
  exists applicant'. split; [exact Hget |]. split; [exact Hhouse |].
  split; [exact Hsex |]. split; [exact Hcreated | exact Hupdated].
Defined.

(* ===================================================================== *)
(** ** Reading applicants and schemes: who owns what *)
(* ===================================================================== *)

Lemma GetHouseholdMembers_spec (db : DB.t) (applicantID : string)
    (m : HouseholdMember.t) :
  In m (ApplicantRepository.GetHouseholdMembers db applicantID) <->
  In m (DB.household_members db) /\ HouseholdMember.ApplicantID m = applicantID.
Proof.
  unfold ApplicantRepository.GetHouseholdMembers. split.
  - intros Hin. apply (Permutation_in _ (order_by_perm _ _ _)) in Hin.
    apply filter_In in Hin. now rewrite String.eqb_eq in Hin.
  - intros [Hin Hid].
    apply (Permutation_in _ (Permutation_sym (order_by_perm _ _ _))).
    apply filter_In. now rewrite String.eqb_eq.
Qed.

Lemma GetBenefits_owned (db : DB.t) (schemeID : string) (b : Benefit.t) :
  In b (SchemeRepository.GetBenefits db schemeID) ->
  Benefit.SchemeID b = schemeID.
Proof.
  unfold SchemeRepository.GetBenefits. intros Hin. apply in_map_iff in Hin.
  destruct Hin as [r [<- Hr]]. apply (Permutation_in _ (order_by_perm _ _ _)) in Hr.
  apply filter_In in Hr. destruct Hr as [_ Heq]. now apply String.eqb_eq in Heq.
Qed.

Lemma ApplicantRepository_GetByID_scan (db : DB.t) (id : string) :
  ApplicantRepository.GetByID db id =
  option_map (ApplicantRepository.scanApplicant db)
    (find (fun r => (ApplicantRow.id r =? id)%string) (DB.applicants db)).
Proof.
  unfold ApplicantRepository.GetByID.
  destruct (find _ (DB.applicants db)); reflexivity.
Qed.

(** X22.  Reads respect ownership.  An applicant, whether read by [GetByID]
    or listed by [GetAll], carries as household exactly the household
    members stored under its identifier, all of them and no one else's,
    ordered by name in both reads (the collation being total and
    transitive); a scheme, read by [GetByID] or listed by [GetAll],
    carries only benefits stored under its identifier.  The evaluator is
    therefore never handed a partial household or a stranger's child. *)
Theorem reads_respect_ownership (db : DB.t) :
  (forall id applicant,
     ApplicantRepository.GetByID db id = Some applicant ->
     Applicant.ID applicant = id /\
     (forall m, In m (Applicant.Household applicant) <->
                In m (DB.household_members db) /\ HouseholdMember.ApplicantID m = id)) /\
  (forall applicant,
     In applicant (ApplicantRepository.GetAll db) ->
     forall m, In m (Applicant.Household applicant) <->
               In m (DB.household_members db) /\
               HouseholdMember.ApplicantID m = Applicant.ID applicant) /\
  (forall id scheme,
     SchemeRepository.GetByID db id = Some scheme ->
     Scheme.ID scheme = id /\
     forall b, In b (Scheme.Benefits scheme) -> Benefit.SchemeID b = id) /\
  (forall scheme,
     In scheme (SchemeRepository.GetAll db) ->
     forall b, In b (Scheme.Benefits scheme) -> Benefit.SchemeID b = Scheme.ID scheme) /\
  (collation_total db -> collation_transitive db ->
   forall id applicant,
     ApplicantRepository.GetByID db id = Some applicant ->
     StronglySorted (member_name_ordered db) (Applicant.Household applicant)) /\
  (collation_total db -> collation_transitive db ->
   forall applicant,
     In applicant (ApplicantRepository.GetAll db) ->
     StronglySorted (member_name_ordered db) (Applicant.Household applicant)).
Proof.
  split; [| split; [| split; [| split; [| split]]]].
  - intros id applicant Hget. rewrite ApplicantRepository_GetByID_scan in Hget.
    destruct (find _ (DB.applicants db)) as [r|] eqn:Hfind; [| discriminate].
    injection Hget as <-. apply find_some in Hfind. destruct Hfind as [_ Heq].
    apply String.eqb_eq in Heq. cbn [ApplicantRepository.scanApplicant Applicant.ID
                                     Applicant.Household].
    split; [exact Heq |]. intros m. rewrite Heq. apply GetHouseholdMembers_spec.
  - intros applicant Hin. unfold ApplicantRepository.GetAll in Hin.
    apply in_map_iff in Hin. destruct Hin as [r [<- _]]. intros m.
    cbn [ApplicantRepository.scanApplicant Applicant.ID Applicant.Household].
    apply GetHouseholdMembers_spec.
  - intros id scheme Hget.
    destruct (SchemeRepository_GetByID_found db id scheme Hget) as [r [Hfind [-> Hid]]].
    split; [exact Hid |]. intros b Hb.
    cbn [SchemeRepository.scanScheme Scheme.Benefits Scheme.ID] in Hb, Hid.
    rewrite <- Hid. now apply (GetBenefits_owned db).
  - intros scheme Hin. unfold SchemeRepository.GetAll in Hin.
    apply in_map_iff in Hin. destruct Hin as [r [<- _]]. intros b Hb.
    cbn [SchemeRepository.scanScheme Scheme.Benefits Scheme.ID] in *.
    now apply (GetBenefits_owned db).
  - intros Htot Htrans id applicant Hget. rewrite ApplicantRepository_GetByID_scan in Hget.
    destruct (find _ (DB.applicants db)) as [r|]; [| discriminate].
    injection Hget as <-.
    cbn [ApplicantRepository.scanApplicant Applicant.Household].
    unfold ApplicantRepository.GetHouseholdMembers.
    exact (order_by_sorted (DB.collate db) HouseholdMember.Name Htot Htrans _).
  - intros Htot Htrans applicant Hin. unfold ApplicantRepository.GetAll in Hin.
    apply in_map_iff in Hin. destruct Hin as [r [<- _]].
    cbn [ApplicantRepository.scanApplicant Applicant.Household].
    unfold ApplicantRepository.GetHouseholdMembers.
    exact (order_by_sorted (DB.collate db) HouseholdMember.Name Htot Htrans _).
Qed.

Lemma reads_respect_ownership_witness :
  ApplicantRepository.GetByID Sample.db Sample.mary_id = Some Sample.mary /\
  (forall m, In m (Applicant.Household Sample.mary) <->
             In m (DB.household_members Sample.db) /\
             HouseholdMember.ApplicantID m = Sample.mary_id) /\
  In Sample.mary (ApplicantRepository.GetAll Sample.db) /\
  StronglySorted (member_name_ordered Sample.db) (Applicant.Household Sample.mary).
Proof.
  assert (Hin : In Sample.mary (ApplicantRepository.GetAll Sample.db)).
  { right. left. reflexivity. }
  split; [reflexivity |]. split; [| split; [exact Hin |]].
  - exact (proj2 (proj1 (reads_respect_ownership Sample.db) Sample.mary_id Sample.mary
                    eq_refl)).
  - destruct (reads_respect_ownership Sample.db) as [_ [_ [_ [_ [_ Hsorted]]]]].
    exact (Hsorted Sample_collation_total Sample_collation_transitive Sample.mary Hin).
Defined.

(* ===================================================================== *)
(** ** Reading the configuration *)
(* ===================================================================== *)

Lemma digitChar_spec (d : Z) :
  0 <= d < 10 ->
  strconv.isDigit (digitChar d) = true /\
  strconv.digit (digitChar d) = d /\
  digitChar d <> "+"%char /\ digitChar d <> "-"%char.
Proof.
  intros Hd.
  assert (H : d = 0 \/ d = 1 \/ d = 2 \/ d = 3 \/ d = 4 \/
              d = 5 \/ d = 6 \/ d = 7 \/ d = 8 \/ d = 9) by lia.
  repeat (destruct H as [-> | H]); try subst d;
    (split; [reflexivity | split; [reflexivity | split; discriminate]]).
Qed.

Lemma digits_decimal_digits (fuel : nat) :
  forall n rest,
    0 <= n < 2 ^ Z.of_nat fuel ->
    strconv.digits 0 (decimal_digits fuel n rest) = strconv.digits n rest.
Proof.
  induction fuel as [|fuel IH]; intros n rest Hn.
  - simpl in Hn. assert (n = 0) by lia. now subst n.
  - cbn [decimal_digits]. cbv zeta.
    destruct (digitChar_spec (n mod 10)) as [Hdig [Hval _]];
      [apply Z.mod_pos_bound; lia |].
    destruct (Z.ltb_spec n 10) as [Hlt | Hge].
    + cbn [strconv.digits]. rewrite Hdig, Hval.
      rewrite Z.mod_small by lia. reflexivity.
    + rewrite IH.
      * cbn [strconv.digits]. rewrite Hdig, Hval. f_equal.
        pose proof (Z.div_mod n 10). lia.
      * rewrite Nat2Z.inj_succ, Z.pow_succ_r in Hn by lia.
        split; [apply Z.div_pos; lia |].
        apply Z.div_lt_upper_bound; lia.
Qed.

Lemma decimal_digits_head (fuel : nat) :
  forall n c rest,
    strconv.isDigit c = true -> c <> "+"%char -> c <> "-"%char ->
    exists c' rest',
      decimal_digits fuel n (String c rest) = String c' rest' /\
      strconv.isDigit c' = true /\ c' <> "+"%char /\ c' <> "-"%char.
Proof.
  induction fuel as [|fuel IH]; intros n c rest Hc Hp Hm.
  - exists c, rest. repeat split; assumption.
  - cbn [decimal_digits]. cbv zeta.
    destruct (digitChar_spec (n mod 10)) as [Hdig [_ [Hp' Hm']]];
      [apply Z.mod_pos_bound; lia |].
    destruct (n <? 10).
    + eexists _, _. repeat split; eassumption.
    + now apply IH.
Qed.

Lemma log2_fuel (n : Z) : 0 <= n -> 0 <= n < 2 ^ Z.of_nat (S (Z.to_nat (Z.log2 n))).
Proof.
  intros Hn. split; [exact Hn |].
  rewrite Nat2Z.inj_succ, Z2Nat.id by apply Z.log2_nonneg.
  destruct (Z.eq_dec n 0) as [-> | Hnz]; [reflexivity |].
  apply Z.log2_spec. lia.
Qed.

Lemma signed_decimal_digits (neg : bool) (n : Z) :
  0 <= n ->
  strconv.signed neg (decimal_digits (S (Z.to_nat (Z.log2 n))) n "") =
  let v := if neg then - n else n in
  if (strconv.MinInt <=? v) && (v <=? strconv.MaxInt) then Some v else None.
Proof.
  intros Hn. unfold strconv.signed.
  rewrite (digits_decimal_digits _ n "" (log2_fuel n Hn)). cbn [strconv.digits].
  cbn [decimal_digits]. cbv zeta.
  destruct (digitChar_spec (n mod 10)) as [Hdig [_ [Hp Hm]]];
    [apply Z.mod_pos_bound; lia |].
  destruct (n <? 10); [reflexivity |].
  destruct (decimal_digits_head (Z.to_nat (Z.log2 n)) (n / 10) _ "" Hdig Hp Hm)
    as [c' [rest' [-> _]]].
  reflexivity.
Qed.

Lemma Atoi_decimal (n : Z) :
  strconv.MinInt <= n <= strconv.MaxInt -> strconv.Atoi (decimal n) = Some n.
Proof.
  intros Hrange. unfold decimal.
  destruct (Z.ltb_spec n 0) as [Hneg | Hpos].
  - cbn [strconv.Atoi]. rewrite signed_decimal_digits by lia. cbv zeta.
    rewrite Z.opp_involutive.
    rewrite (proj2 (Z.leb_le _ _) (proj1 Hrange)), (proj2 (Z.leb_le _ _) (proj2 Hrange)).
    reflexivity.
  - assert (Hsigned : strconv.Atoi (decimal_digits (S (Z.to_nat (Z.log2 n))) n "") =
                      strconv.signed false
                        (decimal_digits (S (Z.to_nat (Z.log2 n))) n "")).
    { cbn [decimal_digits]. cbv zeta.
      destruct (digitChar_spec (n mod 10)) as [Hdig [_ [Hp Hm]]];
        [apply Z.mod_pos_bound; lia |].
      assert (Hhead : forall c r, c <> "+"%char -> c <> "-"%char ->
                strconv.Atoi (String c r) = strconv.signed false (String c r)).
      { intros c r Hcp Hcm. unfold strconv.Atoi.
        destruct c as [[] [] [] [] [] [] [] []]; try reflexivity;
          exfalso; (now apply Hcp) || (now apply Hcm). }
      destruct (n <? 10); [now apply Hhead |].
      destruct (decimal_digits_head (Z.to_nat (Z.log2 n)) (n / 10) _ "" Hdig Hp Hm)
        as [c' [rest' [-> [_ [Hp' Hm']]]]].
      now apply Hhead. }
    rewrite Hsigned, signed_decimal_digits by lia. cbv zeta.
    rewrite (proj2 (Z.leb_le _ _) (proj1 Hrange)), (proj2 (Z.leb_le _ _) (proj2 Hrange)).
    reflexivity.
Qed.

Lemma digits_bad (prefix : string) (c : ascii) (rest : string) :
  strconv.isDigit c = false ->
  forall acc, strconv.digits acc (prefix ++ String c rest) = None.
Proof.
  intros Hc. induction prefix as [|p prefix IH]; intros acc; simpl.
  - now rewrite Hc.
  - destruct (strconv.isDigit p); [apply IH | reflexivity].
Qed.

Lemma signed_bad (neg : bool) (prefix : string) (c : ascii) (rest : string) :
  strconv.isDigit c = false ->
  strconv.signed neg (prefix ++ String c rest) = None.
Proof.
  intros Hc. unfold strconv.signed. rewrite (digits_bad prefix c rest Hc).
  destruct (prefix ++ String c rest)%string; reflexivity.
Qed.

(** X23.  [getEnvAsInt] reads a decimal integer: when the variable holds
    the decimal rendering of an [int], that integer is returned; when the
    variable is unset or empty, or holds any byte that is not a decimal
    digit (a single leading sign apart), or holds digits that do not fit an
    [int], the default is returned.  [getEnv] returns the default exactly
    for a variable that is unset or empty. *)
Theorem getEnvAsInt_reads_decimal (env : os.Env) (key : string) (defaultValue : Z) :
  (forall n,
     strconv.MinInt <= n <= strconv.MaxInt ->
     env key = Some (decimal n) ->
     getEnvAsInt env key defaultValue = n) /\
  (env key = None \/ env key = Some "" ->
   getEnvAsInt env key defaultValue = defaultValue /\
   forall fallback, getEnv env key fallback = fallback) /\
  (forall value fallback,
     env key = Some value -> value <> "" -> getEnv env key fallback = value) /\
  (forall prefix c rest,
     env key = Some (prefix ++ String c rest)%string ->
     strconv.isDigit c = false ->
     prefix <> "" \/ (c <> "+"%char /\ c <> "-"%char) ->
     getEnvAsInt env key defaultValue = defaultValue) /\
  (forall n,
     n < strconv.MinInt \/ strconv.MaxInt < n ->
     env key = Some (decimal n) ->
     getEnvAsInt env key defaultValue = defaultValue).
Proof.
  unfold getEnvAsInt, getEnv, os.Getenv. cbv zeta.
  split; [| split; [| split; [| split]]].
  - intros n Hrange ->.
    pose proof (Atoi_decimal n Hrange) as Hatoi.
    destruct (decimal n =? "")%string eqn:E.
    + apply String.eqb_eq in E. rewrite E in Hatoi. discriminate.
    + now rewrite Hatoi.
  - intros [-> | ->]; (split; [reflexivity | intros fallback; reflexivity]).
  - intros value fallback -> Hne. now rewrite (string_eqb_neq_false _ _ Hne).
  - intros prefix c rest -> Hc Hsign.
    assert (Hatoi : strconv.Atoi (prefix ++ String c rest) = None).
    { destruct prefix as [|p prefix].
      - destruct Hsign as [Hne | [Hp Hm]]; [now contradiction Hne |].
        cbn [append]. unfold strconv.Atoi.
        destruct c as [[] [] [] [] [] [] [] []];
          try (exact (signed_bad false "" _ rest Hc));
          exfalso; (now apply Hp) || (now apply Hm).
      - cbn [append]. unfold strconv.Atoi.
        destruct p as [[] [] [] [] [] [] [] []];
          try (exact (signed_bad false (String _ prefix) c rest Hc));
          apply signed_bad; exact Hc. }
    destruct (prefix ++ String c rest =? "")%string eqn:E.
    + reflexivity.
    + now rewrite Hatoi.
  - intros n Hout ->.
    assert (Hatoi : strconv.Atoi (decimal n) = None).
    { unfold decimal. destruct (Z.ltb_spec n 0) as [Hneg | Hpos].
      - cbn [strconv.Atoi]. rewrite signed_decimal_digits by lia. cbv zeta.
        rewrite Z.opp_involutive.
        destruct (Z.leb_spec strconv.MinInt n); [| reflexivity].
        destruct (Z.leb_spec n strconv.MaxInt); [| reflexivity].
        unfold strconv.MinInt, strconv.MaxInt in *. lia.
      - assert (Hmax : strconv.MaxInt < n).
        { unfold strconv.MinInt, strconv.MaxInt in *. lia. }
        assert (Hsigned : strconv.Atoi (decimal_digits (S (Z.to_nat (Z.log2 n))) n "") =
                          strconv.signed false
                            (decimal_digits (S (Z.to_nat (Z.log2 n))) n "")).
        { cbn [decimal_digits]. cbv zeta.
          destruct (digitChar_spec (n mod 10)) as [Hdig [_ [Hp Hm]]];
            [apply Z.mod_pos_bound; lia |].
          assert (Hhead : forall c r, c <> "+"%char -> c <> "-"%char ->
                    strconv.Atoi (String c r) = strconv.signed false (String c r)).
          { intros c r Hcp Hcm. unfold strconv.Atoi.
            destruct c as [[] [] [] [] [] [] [] []]; try reflexivity;
              exfalso; (now apply Hcp) || (now apply Hcm). }
          destruct (n <? 10); [now apply Hhead |].
          destruct (decimal_digits_head (Z.to_nat (Z.log2 n)) (n / 10) _ "" Hdig Hp Hm)
            as [c' [rest' [-> [_ [Hp' Hm']]]]].
          now apply Hhead. }
        rewrite Hsigned, signed_decimal_digits by lia. cbv zeta.
        destruct (Z.leb_spec n strconv.MaxInt); [lia |].
        now rewrite andb_false_r. }
    destruct (decimal n =? "")%string; [reflexivity | now rewrite Hatoi].
Qed.

(** [DB_PORT=3306] is read as 3306; [DB_PORT=33o6] falls back. *)
Lemma getEnvAsInt_reads_decimal_witness :
  getEnvAsInt (fun key => if (key =? "DB_PORT")%string then Some "3306" else None)
    "DB_PORT" 5432 = 3306 /\
  getEnvAsInt (fun key => if (key =? "DB_PORT")%string then Some "33o6" else None)
    "DB_PORT" 5432 = 5432.
Proof.
  split.
  - apply (proj1 (getEnvAsInt_reads_decimal _ "DB_PORT" 5432) 3306).
    + unfold strconv.MinInt, strconv.MaxInt. lia.
    + reflexivity.
  - destruct (getEnvAsInt_reads_decimal
                (fun key => if (key =? "DB_PORT")%string then Some "33o6" else None)
                "DB_PORT" 5432) as [_ [_ [_ [Hbad _]]]].
    apply (Hbad "33" "o"%char "6").
    + reflexivity.
    + reflexivity.
    + left. discriminate.
Defined.
